(** * VLURes benchmark harness: download, inference and judge pipelines

    A shallow embedding of the four scripts of the repository
    ([download_data.py], [run_zeroshot_no_rationales.py],
    [run_zeroshot_with_rationales.py], [run_evaluation.py]) and the
    properties of their retry, checkpoint and enumeration logic.

    Python values are modelled as follows.
    - [str] is a list of Unicode code points ([N]); literals are written
      with [lit].
    - JSON values and the Python objects built from them are [json];
      [None] is [JNull]; a float is a binary64 [spec_float].
    - [OrderedDict] is an association list updated in place or appended
      ([dict_set]).
    - a call either returns or raises: [outcome].
    - the remote endpoints and the file system are explicit: a reply oracle
      indexed by the number of calls made so far, and a [disk] record
      holding the two files of a run scope with the log of what was done to
      them. *)

From Stdlib Require Import List ZArith NArith Bool Lia String Ascii.
From Stdlib Require Import Sorted Permutation.
From Stdlib Require Import SpecFloat DecimalString DecimalNat.
From Equations Require Import Equations.
Import ListNotations.

Set Implicit Arguments.
Set Warnings "-register-all".

(* ===================================================================== *)
(** * Python data                                                         *)
(* ===================================================================== *)

Module Py.

(** ** Strings *)

Definition str := list N.

Definition lit (s : string) : str :=
  map (fun a => N_of_ascii a) (list_ascii_of_string s).

Fixpoint str_eqb (a b : str) : bool :=
  match a, b with
  | [], [] => true
  | x :: a', y :: b' => N.eqb x y && str_eqb a' b'
  | _, _ => false
  end.

(** [a < b] on [str]: lexicographic on code points. *)
Fixpoint str_ltb (a b : str) : bool :=
  match a, b with
  | [], [] => false
  | [], _ :: _ => true
  | _ :: _, [] => false
  | x :: a', y :: b' =>
      if N.ltb x y then true
      else if N.ltb y x then false
      else str_ltb a' b'
  end.

(** [str.lower()], code point by code point.  ASCII capitals are folded;
    U+0130 (capital I with dot above) lowers to the two code points
    U+0069 U+0307, the one unconditional lowercase mapping that changes the
    length of a string; U+212A (Kelvin sign) lowers to ASCII [k].  A code
    point whose lowercase form is a single non-ASCII code point is left as
    it is: the scripts only search lowered strings for ASCII text. *)
Definition lower_cp (c : N) : list N :=
  if (65 <=? c)%N && (c <=? 90)%N then [(c + 32)%N]
  else if (c =? 304)%N then [105%N; 775%N]
  else if (c =? 8490)%N then [107%N]
  else [c].

Definition lower (s : str) : str := flat_map lower_cp s.

(** [str.isspace] for one code point (the characters [str.strip()]
    removes). *)
Definition isspace (c : N) : bool :=
  ((9 <=? c) && (c <=? 13) || (28 <=? c) && (c <=? 32)
   || (c =? 133) || (c =? 160) || (c =? 5760)
   || (8192 <=? c) && (c <=? 8202)
   || (c =? 8232) || (c =? 8233) || (c =? 8239) || (c =? 8287)
   || (c =? 12288))%N.

(** The code points on which [str.isdigit] is true, as inclusive ranges
    (the character table of Python 3.11, Unicode 14.0): the decimal digits
    of every script, ASCII [0-9] first, and the superscript, subscript,
    circled and other digits that are no decimal digits. *)
Definition digit_ranges : list (N * N) :=
  [(48, 57); (178, 179); (185, 185); (1632, 1641); (1776, 1785);
   (1984, 1993); (2406, 2415); (2534, 2543); (2662, 2671); (2790, 2799);
   (2918, 2927); (3046, 3055); (3174, 3183); (3302, 3311); (3430, 3439);
   (3558, 3567); (3664, 3673); (3792, 3801); (3872, 3881); (4160, 4169);
   (4240, 4249); (4969, 4977); (6112, 6121); (6160, 6169); (6470, 6479);
   (6608, 6618); (6784, 6793); (6800, 6809); (6992, 7001); (7088, 7097);
   (7232, 7241); (7248, 7257); (8304, 8304); (8308, 8313); (8320, 8329);
   (9312, 9320); (9332, 9340); (9352, 9360); (9450, 9450); (9461, 9469);
   (9471, 9471); (10102, 10110); (10112, 10120); (10122, 10130);
   (42528, 42537); (43216, 43225); (43264, 43273); (43472, 43481);
   (43504, 43513); (43600, 43609); (44016, 44025); (65296, 65305);
   (66720, 66729); (68160, 68163); (68912, 68921); (69216, 69224);
   (69714, 69722); (69734, 69743); (69872, 69881); (69942, 69951);
   (70096, 70105); (70384, 70393); (70736, 70745); (70864, 70873);
   (71248, 71257); (71360, 71369); (71472, 71481); (71904, 71913);
   (72016, 72025); (72784, 72793); (73040, 73049); (73120, 73129);
   (92768, 92777); (92864, 92873); (93008, 93017); (120782, 120831);
   (123200, 123209); (123632, 123641); (125264, 125273); (127232, 127242);
   (130032, 130041)]%N.

(** [str.isdigit] for one code point. *)
Definition isdigit (c : N) : bool :=
  existsb (fun r : N * N => (fst r <=? c) && (c <=? snd r))%N digit_ranges.

Fixpoint lstrip (s : str) : str :=
  match s with
  | c :: s' => if isspace c then lstrip s' else s
  | [] => []
  end.

Definition rstrip (s : str) : str := rev (lstrip (rev s)).

Definition strip (s : str) : str := rstrip (lstrip s).

Fixpoint startswith (s pre : str) : bool :=
  match pre, s with
  | [], _ => true
  | p :: pre', c :: s' => N.eqb c p && startswith s' pre'
  | _ :: _, [] => false
  end.

Definition endswith (s suf : str) : bool := startswith (rev s) (rev suf).

(** [s.find(sub)]: the lowest index where [sub] occurs, [-1] if none. *)
Fixpoint find_from (s sub : str) (i : Z) : Z :=
  if startswith s sub then i
  else match s with
       | [] => (-1)%Z
       | _ :: s' => find_from s' sub (i + 1)
       end.

Definition find (s sub : str) : Z := find_from s sub 0.

(** [s.rfind(c)] for a single code point. *)
Fixpoint rfind_from (s : str) (c : N) (i : Z) (last : Z) : Z :=
  match s with
  | [] => last
  | x :: s' => rfind_from s' c (i + 1) (if N.eqb x c then i else last)
  end.

Definition rfind (s : str) (c : N) : Z := rfind_from s c 0 (-1).

(** Slice bounds: a negative index counts from the end, and indices are
    clipped to the string. *)
Definition clip_index (len i : Z) : nat :=
  Z.to_nat (Z.min len (Z.max 0 (if (i <? 0)%Z then len + i else i)%Z)).

(** [s[:i]] and [s[i:]]. *)
Definition slice_to (s : str) (i : Z) : str :=
  firstn (clip_index (Z.of_nat (List.length s)) i) s.

Definition slice_from (s : str) (i : Z) : str :=
  skipn (clip_index (Z.of_nat (List.length s)) i) s.

(** [s.split(sep, 1)] for a non-empty [sep]. *)
Definition split1 (s sep : str) : list str :=
  let i := find s sep in
  if (i <? 0)%Z then [s]
  else [slice_to s i; slice_from s (i + Z.of_nat (List.length sep))].

(** ** Values *)

Inductive json :=
| JNull
| JBool (b : bool)
| JInt (z : Z)
| JFloat (f : spec_float)
| JStr (s : str)
| JList (l : list json)
| JDict (d : list (str * json)).

Inductive exn :=
| ValueError | TypeError | OverflowError | AttributeError
| KeyError | OtherError.

Inductive outcome (A : Type) :=
| Return (a : A)
| Raise (e : exn).
Arguments Return {A} a.
Arguments Raise {A} e.

(** ** Dictionaries in insertion order *)

Section Dict.
Variable V : Type.

Definition dict := list (str * V).

Fixpoint dict_get (d : dict) (k : str) : option V :=
  match d with
  | [] => None
  | (k', v) :: d' => if str_eqb k' k then Some v else dict_get d' k
  end.

Definition dict_mem (d : dict) (k : str) : bool :=
  match dict_get d k with Some _ => true | None => false end.

(** [d[k] = v]: an existing key keeps its position. *)
Fixpoint dict_set (d : dict) (k : str) (v : V) : dict :=
  match d with
  | [] => [(k, v)]
  | (k', v') :: d' =>
      if str_eqb k' k then (k', v) :: d' else (k', v') :: dict_set d' k v
  end.

Definition keys (d : dict) : list str := map fst d.
End Dict.

(** [str(k)] for a [k] that is a string already (the keys of a JSON
    object and the ids cut out of file names). *)
Definition py_str (k : str) : str := k.

(** [k in ks] for a list or set of strings. *)
Definition str_in (k : str) (ks : list str) : bool := existsb (str_eqb k) ks.

(** [str(n)] for a natural number. *)
Definition str_of_nat (n : nat) : str :=
  lit (NilZero.string_of_uint (Nat.to_uint n)).

(** Truth value of a string and of an optional string ([None] is false). *)
Definition truthy (s : str) : bool :=
  match s with [] => false | _ => true end.

Definition truthy_opt (o : option str) : bool :=
  match o with Some s => truthy s | None => false end.

(** ** Floats *)

Definition float_zero : spec_float := S754_zero false.
Definition float_of_Z (z : Z) : spec_float := binary_normalize 53 1024 z 0 false.
Definition float_100 : spec_float := Eval cbv in float_of_Z 100.

Definition float_lt (a b : spec_float) : bool := SFltb a b.

Definition is_inf (f : spec_float) : bool :=
  match f with S754_infinity _ => true | _ => false end.

Section Float.
(** [float(s)] on a string is Python's literal grammar (decimal
    numerals, [nan], [inf], surrounding blanks); it is not part of the
    repository and is taken as given. *)
Variable float_of_str : str -> option spec_float.

(** [float(v)]. *)
Definition float (v : json) : outcome spec_float :=
  match v with
  | JNull => Raise TypeError
  | JBool b => Return (float_of_Z (if b then 1 else 0))
  | JInt z =>
      let f := float_of_Z z in
      if is_inf f then Raise OverflowError else Return f
  | JFloat f => Return f
  | JStr s =>
      match float_of_str s with
      | Some f => Return f
      | None => Raise ValueError
      end
  | JList _ | JDict _ => Raise TypeError
  end.
End Float.

End Py.

(* ===================================================================== *)
(** * The two files of a run scope                                        *)
(* ===================================================================== *)

(** A run scope owns a checkpoint path and an output path.  Each holds the
    mapping that [json.dump] wrote, which [json.load] gives back; [None]
    is a path with no file.  [log] records what the run did to the two
    paths, oldest first. *)
Module Files.
Import Py.

Inductive event :=
| WroteCheckpoint (m : dict json)
| WroteOutput (m : dict json)
| RemovedCheckpoint.

Record disk := {
  checkpoint_file : option (dict json);
  output_file : option (dict json);
  log : list event }.

Definition write_checkpoint (m : dict json) (d : disk) : disk :=
  {| checkpoint_file := Some m;
     output_file := output_file d;
     log := log d ++ [WroteCheckpoint m] |}.

Definition write_output (m : dict json) (d : disk) : disk :=
  {| checkpoint_file := checkpoint_file d;
     output_file := Some m;
     log := log d ++ [WroteOutput m] |}.

Definition remove_checkpoint (d : disk) : disk :=
  {| checkpoint_file := None;
     output_file := output_file d;
     log := log d ++ [RemovedCheckpoint] |}.

(** [results = OrderedDict()], replaced by the checkpoint when
    [os.path.exists(checkpoint_filename)]. *)
Definition load_checkpoint (d : disk) : dict json :=
  match checkpoint_file d with
  | Some m => m
  | None => []
  end.

End Files.

(* ===================================================================== *)
(** * run_evaluation.py                                                   *)
(* ===================================================================== *)

Module Evaluation.
Import Py.

Definition MAX_RETRIES : nat := 3.

Definition score_key : str := lit "score".

(** What one pass through the [try] block of [evaluate_one_item] meets
    before [score_data] is inspected. *)
Inductive reply :=
| RequestException          (* session.post, raise_for_status, response.json *)
| BadStructure              (* KeyError or IndexError while indexing result_json *)
| JSONDecodeError           (* json.loads(cleaned_text) *)
| Unhandled (e : exn)       (* any other exception: no handler matches *)
| Parsed (score_data : json).

(** The outcome of the [try] statement: the function returns, an exception
    leaves the function, or control reaches the retry test below it. *)
Inductive attempt (A : Type) :=
| Returns (a : A)
| Escapes (e : exn)
| FallsThrough.
Arguments Returns {A} a.
Arguments Escapes {A} e.
Arguments FallsThrough {A}.

Definition score_entry (score : json) : json := JDict [(score_key, score)].

Definition default_entry : json := score_entry (JInt 50).

Section Judge.
Variable float_of_str : str -> option spec_float.

(** [clip_score(score)]: [JNull] is the [None] of the [except] clause. *)
Definition clip_score (score : json) : outcome json :=
  match float float_of_str score with
  | Return score =>
      if float_lt score float_zero then Return (JInt 0)
      else if float_lt float_100 score then Return (JInt 100)
      else Return (JFloat score)
  | Raise ValueError | Raise TypeError => Return JNull
  | Raise e => Raise e
  end.

(** [score_data.get("score")]: only a dict has [get]. *)
Definition get_score (score_data : json) : outcome json :=
  match score_data with
  | JDict d =>
      match dict_get d score_key with
      | Some v => Return v
      | None => Return JNull
      end
  | _ => Raise AttributeError
  end.

(** Lines 136-155 of [evaluate_one_item]. *)
Definition try_block (text_id : str) (r : reply) : attempt (str * json) :=
  match r with
  | RequestException | BadStructure | JSONDecodeError => FallsThrough
  | Unhandled e => Escapes e
  | Parsed score_data =>
      match get_score score_data with
      | Raise e => Escapes e
      | Return v =>
          match clip_score v with
          | Raise e => Escapes e
          | Return JNull => FallsThrough
          | Return score => Returns (text_id, score_entry score)
          end
      end
  end.

(** [post k] is the reply to the request sent when [k] requests have
    already been sent for this item; the second component of the result
    is the number of requests sent once the call is over. *)
Equations? evaluate_one_item (post : nat -> reply) (sent : nat)
    (text_id : str) (retry_count : nat) : outcome (str * json) * nat
    by wf (MAX_RETRIES - retry_count) lt :=
  evaluate_one_item post sent text_id retry_count
    with try_block text_id (post sent) => {
    | Returns r => (Return r, S sent)
    | Escapes e => (Raise e, S sent)
    | FallsThrough with lt_dec retry_count MAX_RETRIES => {
        | left more => evaluate_one_item post (S sent) text_id (S retry_count)
        | right _ => (Return (text_id, default_entry), S sent) } }.
Proof.
  clear evaluate_one_item. unfold MAX_RETRIES in more.
  destruct retry_count as [|[|[|n]]]; lia.
Qed.

End Judge.

Section Main.
Variable float_of_str : str -> option spec_float.

(** [judge item_id k]: the reply to the request for [item_id] sent when
    [k] requests for that item have been sent. *)
Variable judge : str -> nat -> reply.

(** Lines 219-229: reading the text file and formatting the prompt; it
    raises when [response_data] has no [Task_n] entry or the task has no
    instructions. *)
Variable build_prompt : str -> json -> outcome str.

Inductive status :=
| NoResponses          (* "No responses found. Skipping." *)
| AllEvaluated         (* "All items for this file have been evaluated." *)
| Finished
| Crashed (e : exn).

(** The loop of lines 215-230. *)
Fixpoint tasks_to_run (eval_results : dict json)
    (items : list (str * json)) : outcome (list (str * str)) :=
  match items with
  | [] => Return []
  | (item_id, response_data) :: rest =>
      if dict_mem eval_results (py_str item_id)
      then tasks_to_run eval_results rest
      else
        match build_prompt item_id response_data with
        | Raise e => Raise e
        | Return prompt =>
            match tasks_to_run eval_results rest with
            | Raise e => Raise e
            | Return tasks => Return ((item_id, prompt) :: tasks)
            end
        end
  end.

(** The loop of lines 241-248 over the futures in the order they were
    submitted; [future.result()] raises what the call raised. *)
Fixpoint collect (futures : list (outcome (str * json)))
    (eval_results : dict json) (d : Files.disk)
    : outcome (dict json) * Files.disk :=
  match futures with
  | [] => (Return eval_results, d)
  | Raise e :: _ => (Raise e, d)
  | Return (item_id, result) :: rest =>
      let eval_results := dict_set eval_results item_id result in
      let d :=
        if List.length eval_results mod 20 =? 0
        then Files.write_checkpoint eval_results d else d in
      collect rest eval_results d
  end.

(** The body of the loop over [files_to_evaluate] in [main] (lines
    193-258) for one inference output file.  The executor runs every
    submitted call to its end, so the third component, the number of
    requests sent, adds up all of them. *)
Definition main_file (vlm_responses : dict json) (d : Files.disk)
    : status * Files.disk * nat :=
  match vlm_responses with
  | [] => (NoResponses, d, 0)
  | _ =>
      let eval_results := Files.load_checkpoint d in
      match tasks_to_run eval_results vlm_responses with
      | Raise e => (Crashed e, d, 0)
      | Return [] => (AllEvaluated, d, 0)
      | Return tasks =>
          let runs :=
            map (fun task : str * str =>
                   evaluate_one_item float_of_str (judge (fst task)) 0
                     (fst task) 0) tasks in
          let sent := list_sum (map snd runs) in
          match collect (map fst runs) eval_results d with
          | (Raise e, d) => (Crashed e, d, sent)
          | (Return eval_results, d) =>
              let d := Files.write_output eval_results d in
              let d :=
                match Files.checkpoint_file d with
                | Some _ => Files.remove_checkpoint d
                | None => d
                end in
              (Finished, d, sent)
          end
      end
  end.

End Main.

End Evaluation.


(* ===================================================================== *)
(** * run_zeroshot_no_rationales.py and run_zeroshot_with_rationales.py   *)
(* ===================================================================== *)

(** What the two inference scripts share word for word: the constants,
    [get_image_id] and [process_batch]. *)
Module Inference.
Import Py.

Definition BATCH_SIZE : nat := 8.
Definition MAX_RETRIES : nat := 3.

(** What [client.chat.completions.create] followed by
    [response.choices[0].message.content.strip()] meets: the handler is
    [except Exception], so every exception of the block is one case. *)
Inductive api_reply :=
| ApiException
| Content (text : str).

(** [process_batch]: [create k] is the reply to the request sent when [k]
    requests have already been sent; [None] is Python's [None]. *)
Equations? process_batch (create : nat -> api_reply) (sent : nat)
    (retry_count : nat) : option str * nat
    by wf (MAX_RETRIES - retry_count) lt :=
  process_batch create sent retry_count with create sent => {
    | Content text => (Some (strip text), S sent)
    | ApiException with lt_dec retry_count MAX_RETRIES => {
        | left more => process_batch create (S sent) (S retry_count)
        | right _ => (None, S sent) } }.
Proof.
  clear process_batch. unfold MAX_RETRIES in more.
  destruct retry_count as [|[|[|n]]]; lia.
Qed.

(** [os.path.splitext] (posixpath). *)
Definition splitext (p : str) : str * str :=
  let sepIndex := rfind p 47%N in
  let dotIndex := rfind p 46%N in
  if (sepIndex <? dotIndex)%Z then
    if existsb (fun c => negb (N.eqb c 46))
         (slice_to (slice_from p (sepIndex + 1)) (dotIndex - (sepIndex + 1)))
    then (slice_to p dotIndex, slice_from p dotIndex)
    else (p, [])
  else (p, []).

Definition get_image_id (filename : str) : str :=
  filter isdigit (fst (splitext filename)).

(** [f.lower().endswith(('.png', '.jpg', '.jpeg'))]. *)
Definition is_image (f : str) : bool :=
  endswith (lower f) (lit ".png") || endswith (lower f) (lit ".jpg")
  || endswith (lower f) (lit ".jpeg").

(** [sorted(l, key=key)] with string keys: a stable sort that compares
    keys with [<]. *)
Section Sorted.
Variable A : Type.
Variable key : A -> str.

Fixpoint insert (x : A) (l : list A) : list A :=
  match l with
  | [] => [x]
  | y :: l' => if str_ltb (key y) (key x) then y :: insert x l' else x :: y :: l'
  end.

Fixpoint sorted (l : list A) : list A :=
  match l with
  | [] => []
  | x :: l' => insert x (sorted l')
  end.
End Sorted.

(** Line 270 (753 in the second script): [listing] is [os.listdir(data_path)]. *)
Definition all_files (listing : list str) : list str :=
  sorted get_image_id (filter is_image listing).

(** Lines 278-279 (761-762). *)
Definition files_to_process (results : dict json) (all_files : list str)
    : list str :=
  let processed_ids := map py_str (keys results) in
  filter (fun f => negb (str_in (get_image_id f) processed_ids)) all_files.

(** [range(0, n, step)] and [files[i:i+BATCH_SIZE]]. *)
Definition range_step (n step : nat) : list nat :=
  map (fun k => k * step) (seq 0 ((n + (step - 1)) / step)).

Definition batch_at (files : list str) (i : nat) : list str :=
  firstn BATCH_SIZE (skipn i files).

Definition text_name (image_id : str) : str :=
  lit "text" ++ image_id ++ lit ".txt".

Inductive status :=
| AlreadyProcessed     (* "All items have already been processed. Exiting." *)
| Finished.

(** What a run reads from the data directory, by file name, and the
    remote model. *)
Record environment := {
  text_exists : str -> bool;             (* os.path.exists(text_path) *)
  encode_image : str -> option str;      (* None on any exception *)
  read_text_file : str -> option str;    (* None on any exception *)
  create : nat -> api_reply }.

Definition is_none (A : Type) (o : option A) : bool :=
  match o with None => true | Some _ => false end.

End Inference.

Module NoRationales.
Import Py Inference.

Section Main.
Variable env : environment.
Variable task : nat.

(** The loop of lines 292-327. *)
Fixpoint pairs_loop (files : list str) (results : dict json)
    (d : Files.disk) (sent : nat) : dict json * Files.disk * nat :=
  match files with
  | [] => (results, d, sent)
  | filename :: rest =>
      let image_id := get_image_id filename in
      if negb (text_exists env (text_name image_id))
      then pairs_loop rest results d sent
      else
        let base64_image := encode_image env filename in
        let text_content := read_text_file env (text_name image_id) in
        if negb (truthy_opt base64_image) || is_none text_content
        then pairs_loop rest results d sent
        else
          let (result, sent) := process_batch (create env) sent 0 in
          let results :=
            match result with
            | Some text =>
                if truthy text then dict_set results image_id (JStr text)
                else results
            | None => results
            end in
          pairs_loop rest results (Files.write_checkpoint results d) sent
  end.

(** Lines 357-359. *)
Definition record_batch (batch_filenames : list str) (text : str)
    (results : dict json) : dict json :=
  fold_left (fun r filename => dict_set r (get_image_id filename) (JStr text))
    batch_filenames results.

(** The loop of lines 333-363 over the batch starts. *)
Fixpoint batches_loop (starts : list nat) (files : list str)
    (results : dict json) (d : Files.disk) (sent : nat)
    : dict json * Files.disk * nat :=
  match starts with
  | [] => (results, d, sent)
  | i :: rest =>
      let batch_filenames := batch_at files i in
      let images :=
        filter (fun o => truthy_opt o) (map (encode_image env) batch_filenames) in
      match images with
      | [] => batches_loop rest files results d sent
      | _ =>
          let (result, sent) := process_batch (create env) sent 0 in
          let results :=
            match result with
            | Some text =>
                if truthy text then record_batch batch_filenames text results
                else results
            | None => results
            end in
          batches_loop rest files results (Files.write_checkpoint results d) sent
      end
  end.

(** [main] from line 270 on, after the two configuration look-ups. *)
Definition main (listing : list str) (d : Files.disk) (sent : nat)
    : status * Files.disk * nat :=
  let results := Files.load_checkpoint d in
  let files := files_to_process results (all_files listing) in
  match files with
  | [] => (AlreadyProcessed, d, sent)
  | _ =>
      let '(results, d, sent) :=
        if 6 <=? task then pairs_loop files results d sent
        else batches_loop (range_step (List.length files) BATCH_SIZE) files
               results d sent in
      (Finished, Files.write_output results d, sent)
  end.

End Main.

End NoRationales.

Module WithRationales.
Import Py Inference.

Definition marker : str := lit "your rationale:".
Definition no_rationale : str := lit "No explicit rationale provided.".

Definition parse_response_and_rationale (response_text : str) : str * str :=
  let parts := split1 (lower response_text) marker in
  if 1 <? List.length parts then
    let split_index := find (lower response_text) marker in
    (strip (slice_to response_text split_index),
     strip (slice_from response_text
              (split_index + Z.of_nat (List.length marker))))
  else (strip response_text, no_rationale).

Section Main.
Variable env : environment.
Variable task : nat.

(** The dictionary stored for an image (lines 800 and 830). *)
Definition entry (image_id analysis rationale : str) : json :=
  JDict [(lit "id", JStr image_id);
         (lit "Task_" ++ str_of_nat task, JStr analysis);
         (lit "Rationale_" ++ str_of_nat task, JStr rationale)].

(** The loop of lines 775-803. *)
Fixpoint pairs_loop (files : list str) (results : dict json)
    (d : Files.disk) (sent : nat) : dict json * Files.disk * nat :=
  match files with
  | [] => (results, d, sent)
  | filename :: rest =>
      let image_id := get_image_id filename in
      if negb (text_exists env (text_name image_id))
      then pairs_loop rest results d sent
      else
        let base64_image := encode_image env filename in
        let text_content := read_text_file env (text_name image_id) in
        if negb (truthy_opt base64_image) || is_none text_content
        then pairs_loop rest results d sent
        else
          let (result, sent) := process_batch (create env) sent 0 in
          let results :=
            match result with
            | Some text =>
                if truthy text then
                  let (analysis, rationale) := parse_response_and_rationale text in
                  dict_set results image_id (entry image_id analysis rationale)
                else results
            | None => results
            end in
          pairs_loop rest results (Files.write_checkpoint results d) sent
  end.

(** Lines 827-830. *)
Definition record_batch (valid_filenames : list str) (text : str)
    (results : dict json) : dict json :=
  let (analysis, rationale) := parse_response_and_rationale text in
  fold_left
    (fun r filename =>
       let image_id := get_image_id filename in
       dict_set r image_id (entry image_id analysis rationale))
    valid_filenames results.

(** The loop of lines 809-833 over the batch starts. *)
Fixpoint batches_loop (starts : list nat) (files : list str)
    (results : dict json) (d : Files.disk) (sent : nat)
    : dict json * Files.disk * nat :=
  match starts with
  | [] => (results, d, sent)
  | i :: rest =>
      let batch_filenames := batch_at files i in
      let valid_filenames :=
        filter (fun f => truthy_opt (encode_image env f)) batch_filenames in
      match valid_filenames with
      | [] => batches_loop rest files results d sent
      | _ =>
          let (result, sent) := process_batch (create env) sent 0 in
          let results :=
            match result with
            | Some text =>
                if truthy text then record_batch valid_filenames text results
                else results
            | None => results
            end in
          batches_loop rest files results (Files.write_checkpoint results d) sent
      end
  end.

(** [main] from line 753 on, after the two configuration look-ups. *)
Definition main (listing : list str) (d : Files.disk) (sent : nat)
    : status * Files.disk * nat :=
  let results := Files.load_checkpoint d in
  let files := files_to_process results (all_files listing) in
  match files with
  | [] => (AlreadyProcessed, d, sent)
  | _ =>
      let '(results, d, sent) :=
        if 6 <=? task then pairs_loop files results d sent
        else batches_loop (range_step (List.length files) BATCH_SIZE) files
               results d sent in
      (Finished, Files.write_output results d, sent)
  end.

End Main.

End WithRationales.

(* ===================================================================== *)
(** * download_data.py                                                    *)
(* ===================================================================== *)

Module Download.
Import Py.

Definition bytes := list Byte.byte.

(** [requests.get] followed by [raise_for_status]. *)
Inductive http_reply :=
| RequestException
| Body (content : bytes).

(** [Image.open(save_path)] followed by [img.verify()]. *)
Inductive verdict :=
| WellFormed
| Rejected         (* IOError, SyntaxError or UnidentifiedImageError *)
| OtherException.  (* anything else: handled by the outer [except Exception] *)

(** The files below the data directory and the URLs requested so far,
    oldest first. *)
Record world := {
  files : dict bytes;
  requested : list str }.

Fixpoint remove (fs : dict bytes) (path : str) : dict bytes :=
  match fs with
  | [] => []
  | (p, b) :: fs' =>
      if str_eqb p path then remove fs' path else (p, b) :: remove fs' path
  end.

Section Download.
(** [get url k]: the reply to a request for [url] sent when [k] requests
    have been sent. *)
Variable get : str -> nat -> http_reply.
Variable verify : bytes -> verdict.
(** Whether [open(save_path, 'wb')] succeeds. *)
Variable can_open : str -> bool.

Definition download_image (args : str * str) (w : world) : world :=
  let (image_url, save_path) := args in
  if dict_mem (files w) save_path then w
  else
    let requested := requested w ++ [image_url] in
    match get image_url (List.length (Download.requested w)) with
    | RequestException => {| files := files w; requested := requested |}
    | Body content =>
        if can_open save_path then
          let written := dict_set (files w) save_path content in
          match verify content with
          | Rejected => {| files := remove written save_path; requested := requested |}
          | WellFormed | OtherException =>
              {| files := written; requested := requested |}
          end
        else {| files := files w; requested := requested |}
    end.

(** The pool of [main] (line 124) applied to the tasks of one language,
    one call per task. *)
Definition run (download_tasks : list (str * str)) (w : world) : world :=
  fold_left (fun w args => download_image args w) download_tasks w.

End Download.

End Download.

(* ===================================================================== *)
(** * run_evaluation.py: the prompt of one item                           *)
(* ===================================================================== *)

(** The prompt [main] of [run_evaluation.py] builds for one item (lines
    215-230).  Only what can raise is spelled out; the text of the prompt,
    which the judge alone reads, is left to
    [generate_evaluation_prompt]. *)
Module Prompt.
Import Py.

(** [TASK_INSTRUCTIONS] as the script lists it: tasks 1 and 8. *)
Definition TASK_INSTRUCTIONS : list (nat * str) :=
  [(1, lit "Analyze the image and list objects prominently visible.");
   (8, lit "Identify specific named locations mentioned in the text and visually identifiable in the image.")].

(** [table[task]]. *)
Fixpoint instructions (table : list (nat * str)) (task : nat) : outcome str :=
  match table with
  | [] => Raise KeyError
  | (n, text) :: table' =>
      if n =? task then Return text else instructions table' task
  end.

(** [response_data[key]] for a string [key]: only a dict can be indexed
    by a string. *)
Definition getitem (response_data : json) (key : str) : outcome json :=
  match response_data with
  | JDict d =>
      match dict_get d key with
      | Some v => Return v
      | None => Raise KeyError
      end
  | _ => Raise TypeError
  end.

Section Prompt.
(** [read_text_file] of the file of that name in [lang_data_path]: the
    stripped content, or ["Error reading file."]; never [None]. *)
Variable read_text_file : str -> str.

(** The f-string of [generate_evaluation_prompt]. *)
Variable generate_evaluation_prompt :
  str -> json -> str -> str -> str -> str -> str -> str.

(** [file_meta]. *)
Variable language : str.
Variable setting : str.
Variable task : nat.

Definition build_prompt (item_id : str) (response_data : json) : outcome str :=
  let text_content := read_text_file (lit "text" ++ item_id ++ lit ".txt") in
  let image_filename := item_id ++ lit ".jpg" in
  match getitem response_data (lit "Task_" ++ str_of_nat task) with
  | Raise e => Raise e
  | Return vlm_response =>
      match instructions TASK_INSTRUCTIONS task with
      | Raise e => Raise e
      | Return task_description =>
          Return (generate_evaluation_prompt item_id vlm_response
                    task_description language setting text_content
                    image_filename)
      end
  end.

End Prompt.

End Prompt.

(* ===================================================================== *)
(** * run_evaluation.py: the name of an inference output file             *)
(* ===================================================================== *)

(** [parse_filename] (lines 52-61): the model, language, task and setting
    that [main] reads off the name of an inference output file. *)
Module Filename.
Import Py.

(** What [parse_filename] can raise: [parts[1]] on a name without
    underscore, [.group] on [None] when the name has no [task<digits>],
    [int] on more digits than it converts. *)
Inductive error := IndexError | AttributeError | ValueError.

Record file_meta := {
  model : str;
  language : str;
  task : nat;
  setting : str }.

(** [os.path.basename] (posixpath): what follows the last slash. *)
Definition basename (p : str) : str := slice_from p (rfind p 47%N + 1).

(** [s.split(sep)] for a separator of one code point: never empty. *)
Fixpoint split (sep : N) (s : str) : list str :=
  match s with
  | [] => [[]]
  | c :: s' =>
      if N.eqb c sep then [] :: split sep s'
      else match split sep s' with
           | part :: parts => (c :: part) :: parts
           | [] => [[c]]
           end
  end.

(** [sep.join(parts)]. *)
Fixpoint join (sep : str) (parts : list str) : str :=
  match parts with
  | [] => []
  | part :: parts' =>
      match parts' with
      | [] => part
      | _ => part ++ sep ++ join sep parts'
      end
  end.

(** The code points of general category Nd (Unicode 14.0) come in runs of
    ten, zero to nine: the first code point of every run. *)
Definition decimal_zeros : list N :=
  [48; 1632; 1776; 1984; 2406; 2534; 2662; 2790; 2918; 3046; 3174; 3302;
   3430; 3558; 3664; 3792; 3872; 4160; 4240; 6112; 6160; 6470; 6608; 6784;
   6800; 6992; 7088; 7232; 7248; 42528; 43216; 43264; 43472; 43504; 43600;
   44016; 65296; 66720; 68912; 69734; 69872; 69942; 70096; 70384; 70736;
   70864; 71248; 71360; 71472; 71904; 72016; 72784; 73040; 73120; 92768;
   92864; 93008; 120782; 120792; 120802; 120812; 120822; 123200; 123632;
   125264; 130032]%N.

(** The value of a decimal digit, [None] for any other code point. *)
Fixpoint decimal_in (zeros : list N) (c : N) : option nat :=
  match zeros with
  | [] => None
  | zero :: zeros' =>
      if ((zero <=? c) && (c <? zero + 10))%N then Some (N.to_nat (c - zero))
      else decimal_in zeros' c
  end.

Definition decimal (c : N) : option nat := decimal_in decimal_zeros c.

(** [\d] of a [str] pattern. *)
Definition isdecimal (c : N) : bool :=
  match decimal c with Some _ => true | None => false end.

(** What a greedy [\d+] takes at the start of [s] ([[]]: no match). *)
Fixpoint digits_prefix (s : str) : str :=
  match s with
  | c :: s' => if isdecimal c then c :: digits_prefix s' else []
  | [] => []
  end.

(** [re.search(r'task(\d+)', name)]: group 1 of the leftmost match,
    [None] when there is none. *)
Fixpoint search_task (name : str) : option str :=
  match name with
  | [] => None
  | _ :: rest =>
      match (if startswith name (lit "task")
             then digits_prefix (skipn 4 name) else []) with
      | [] => search_task rest
      | digits => Some digits
      end
  end.

(** [int(digits)] for a string of decimal digits; beyond 4300 digits
    (the default of [sys.get_int_max_str_digits()]) it raises
    [ValueError]. *)
Definition int_max_str_digits : nat := 4300.

Definition int (digits : str) : nat + error :=
  if int_max_str_digits <? List.length digits then inr ValueError
  else inl (fold_left
              (fun n c => n * 10 + match decimal c with Some v => v | None => 0 end)
              digits 0).

Definition parse_filename (filename : str) : file_meta + error :=
  let name := fst (Inference.splitext (basename filename)) in
  let parts := split 95%N name in
  match parts with
  | model :: language :: _ =>
      match search_task name with
      | None => inr AttributeError
      | Some digits =>
          match int digits with
          | inr e => inr e
          | inl task =>
              inl {| model := model; language := language; task := task;
                     setting := join (lit "_") (skipn 3 parts) |}
          end
      end
  | _ => inr IndexError
  end.

End Filename.

(* ===================================================================== *)
(** * run_evaluation.py: the code fences of a reply                       *)
(* ===================================================================== *)

(** Line 142 of [evaluate_one_item]:
    [re.sub(r"```json\s*|\s*```", "", output_text)], which takes the code
    fences off the reply of the judge before [json.loads]. *)
Module Fences.
Import Py.

Definition fence : str := lit "```".
Definition json_fence : str := lit "```json".

(** What a greedy [\s*] takes at the start of [s]: the length of the run
    of whitespace. *)
Fixpoint spaces (s : str) : nat :=
  match s with
  | c :: s' => if isspace c then S (spaces s') else 0
  | [] => 0
  end.

(** The length of the match of the pattern at the start of [s], [None]
    when neither alternative matches there.  The first alternative is
    tried first; in the second, the whitespace taken must be followed by
    the fence, and taking less of it would leave whitespace where the
    fence has to start. *)
Definition match_length (s : str) : option nat :=
  if startswith s json_fence
  then Some (List.length json_fence + spaces (skipn (List.length json_fence) s))
  else if startswith (skipn (spaces s) s) fence
       then Some (spaces s + List.length fence)
       else None.

(** [re.sub(pattern, "", s)], from the left: [skip] counts the code
    points of the current match that are still to be dropped; outside a
    match, a code point at which the pattern matches starts a new one and
    any other is kept. *)
Fixpoint drop_matches (skip : nat) (s : str) : str :=
  match s with
  | [] => []
  | c :: s' =>
      match skip with
      | S k => drop_matches k s'
      | O =>
          match match_length s with
          | Some (S k) => drop_matches k s'
          | _ => c :: drop_matches 0 s'
          end
      end
  end.

Definition clean_fences (output_text : str) : str :=
  drop_matches 0 output_text.

End Fences.

(* ===================================================================== *)
(** * What the specification says, in its own words                       *)
(* ===================================================================== *)

Module Spec.
Import Py.

(** Python's [min(a, b)] and [max(a, b)] on floats: the second argument is
    taken only when it compares strictly below (above) the first. *)
Definition py_min (a b : spec_float) : spec_float :=
  if float_lt b a then b else a.

Definition py_max (a b : spec_float) : spec_float :=
  if float_lt a b then b else a.

(** [max(0, min(100, s))]. *)
Definition clamp (s : spec_float) : spec_float :=
  py_max float_zero (py_min float_100 s).

(** The number a returned score stands for. *)
Definition number (v : json) : spec_float :=
  match v with
  | JInt z => float_of_Z z
  | JFloat f => f
  | _ => S754_nan
  end.

(** [lo <= x <= hi] on floats. *)
Definition within (lo hi x : spec_float) : bool := SFleb lo x && SFleb x hi.

(** An image encodes successfully: [encode_image] gave a non-empty
    string (the test [if base64_image:]). *)
Definition encodes (env : Inference.environment) (f : str) : bool :=
  truthy_opt (Inference.encode_image env f).

(** A file of the image-text path for which a request is sent: its text
    file exists and can be read, and its image encodes (the tests of lines
    306-314). *)
Definition usable (env : Inference.environment) (f : str) : bool :=
  let text_path := Inference.text_name (Inference.get_image_id f) in
  Inference.text_exists env text_path
  && encodes env f
  && negb (Inference.is_none (Inference.read_text_file env text_path)).

(** A batch of the image-only path for which a request is sent: one of
    its images encodes (the test [len(content) == 1] fails). *)
Definition has_image (env : Inference.environment) (files : list str)
    (i : nat) : bool :=
  existsb (encodes env) (Inference.batch_at files i).

(** The entry [evaluate_one_item] returns for an item when called as
    [main] calls it ([JNull] stands for a call that raises). *)
Definition judged (float_of_str : str -> option spec_float)
    (judge : str -> nat -> Evaluation.reply) (item_id : str) : json :=
  match fst (Evaluation.evaluate_one_item float_of_str (judge item_id) 0
               item_id 0) with
  | Return (_, entry) => entry
  | Raise _ => JNull
  end.

(** The checkpointed mapping with the judged entry of every task stored. *)
Definition merged (float_of_str : str -> option spec_float)
    (judge : str -> nat -> Evaluation.reply) (tasks : list (str * str))
    (eval_results : dict json) : dict json :=
  fold_left
    (fun r (task : str * str) =>
       dict_set r (fst task) (judged float_of_str judge (fst task)))
    tasks eval_results.

(** A stretch of the log that only wrote the checkpoint. *)
Definition only_checkpoint_writes (l : list Files.event) : Prop :=
  Forall (fun e => exists m, e = Files.WroteCheckpoint m) l.

(** What a processing loop of the inference scripts leaves behind, started
    with [results], [d] and [sent] requests: the output file is untouched,
    the log grew by checkpoint writes only, and either nothing was written
    and the mapping is unchanged or the checkpoint file holds the mapping
    the loop ended with. *)
Definition loop_invariant (results : dict json) (d : Files.disk) (sent : nat)
    (r : dict json * Files.disk * nat) : Prop :=
  let '(results', d', sent') := r in
  Files.output_file d' = Files.output_file d
  /\ (exists writes,
        Files.log d' = Files.log d ++ writes /\ only_checkpoint_writes writes)
  /\ ((d' = d /\ results' = results)
      \/ Files.checkpoint_file d' = Some results')
  /\ sent <= sent'.

(** The two files after a finished run of an inference script started on
    [d]: the output file holds the final mapping [m], written as the last
    step after checkpoint writes only, and the checkpoint file, never
    removed, holds the same mapping unless the run started without one and
    processed nothing. *)
Definition inference_finalized (d d' : Files.disk) : Prop :=
  exists m writes,
    Files.output_file d' = Some m
    /\ Files.log d' = Files.log d ++ writes ++ [Files.WroteOutput m]
    /\ only_checkpoint_writes writes
    /\ (Files.checkpoint_file d' = Some m
        \/ (Files.checkpoint_file d' = None
            /\ Files.checkpoint_file d = None /\ m = [])).

(** [remaining = all_items - {item.id : item.id in checkpoint.keys()}],
    the identifiers compared as strings on both sides. *)
Definition remaining (A : Type) (id : A -> str) (checkpoint : dict json)
    (all_items : list A) : list A :=
  filter
    (fun item =>
       negb (str_in (py_str (id item)) (map py_str (keys checkpoint))))
    all_items.

(** The numeric value of the identifier in a file name: its digits, taken
    as the ASCII digits [0-9], read as a decimal numeral. *)
Definition numeric_id (filename : str) : N :=
  fold_left (fun n c => (n * 10 + (c - 48))%N)
    (Inference.get_image_id filename) 0%N.

(** Ordered by a string key: [not (key y < key x)]. *)
Definition key_le (A : Type) (key : A -> str) (x y : A) : Prop :=
  str_ltb (key y) (key x) = false.

(** "Ordered by the numeric value of the identifier". *)
Definition numeric_le (f g : str) : Prop := (numeric_id f <= numeric_id g)%N.

(** Ordered by the identifier as a string: [not (id g < id f)]. *)
Definition id_le (f g : str) : Prop :=
  str_ltb (Inference.get_image_id g) (Inference.get_image_id f) = false.

End Spec.

(* ===================================================================== *)
(** * Properties                                                          *)
(* ===================================================================== *)

Unset Implicit Arguments.

(** ** Strings and dictionaries *)

Module PyFacts.
Import Py.

Lemma str_eqb_eq (a b : str) : str_eqb a b = true <-> a = b.
Proof.
  revert b. induction a as [|x a IH]; intros [|y b]; cbn;
    try (split; [discriminate | discriminate]); try tauto.
  rewrite andb_true_iff, N.eqb_eq, IH.
  split; [intros [-> ->]; reflexivity | intros [= -> ->]; auto].
Qed.

Lemma str_eqb_refl (a : str) : str_eqb a a = true.
Proof. apply str_eqb_eq. reflexivity. Qed.

Lemma str_eqb_neq (a b : str) : str_eqb a b = false <-> a <> b.
Proof.
  rewrite <- str_eqb_eq. destruct (str_eqb a b); split; congruence.
Qed.

Lemma str_in_In (k : str) (ks : list str) : str_in k ks = true <-> In k ks.
Proof.
  unfold str_in. rewrite existsb_exists. split.
  - intros (x & member & same). apply str_eqb_eq in same. subst. exact member.
  - intros member. exists k. split; [exact member | apply str_eqb_refl].
Qed.

Section DictFacts.
Variable V : Type.
Implicit Types (d : dict V) (k : str) (v : V).

Lemma dict_get_In d k v : dict_get d k = Some v -> In (k, v) d.
Proof.
  induction d as [|[k' v'] d IH]; cbn; [discriminate|].
  destruct (str_eqb k' k) eqn:same.
  - apply str_eqb_eq in same. intros [= ->]. subst. auto.
  - auto.
Qed.

Lemma dict_mem_In d k : dict_mem d k = true <-> In k (keys d).
Proof.
  unfold dict_mem. induction d as [|[k' v'] d IH]; cbn.
  - split; [discriminate | tauto].
  - destruct (str_eqb k' k) eqn:same.
    + apply str_eqb_eq in same. tauto.
    + apply str_eqb_neq in same. rewrite IH. cbn. tauto.
Qed.

Lemma dict_mem_false d k : dict_mem d k = false <-> ~ In k (keys d).
Proof.
  rewrite <- dict_mem_In. destruct (dict_mem d k); split; congruence.
Qed.

Lemma dict_get_set_same d k v : dict_get (dict_set d k v) k = Some v.
Proof.
  induction d as [|[k' v'] d IH]; cbn.
  - rewrite str_eqb_refl. reflexivity.
  - destruct (str_eqb k' k) eqn:same; cbn; rewrite same; auto.
Qed.

Lemma dict_get_set_other d k k' v :
  k' <> k -> dict_get (dict_set d k v) k' = dict_get d k'.
Proof.
  intros other. induction d as [|[k0 v0] d IH]; cbn.
  - assert (str_eqb k k' = false) as -> by (apply str_eqb_neq; congruence).
    reflexivity.
  - destruct (str_eqb k0 k) eqn:same; cbn.
    + apply str_eqb_eq in same. subst k0.
      assert (str_eqb k k' = false) as -> by (apply str_eqb_neq; congruence).
      reflexivity.
    + destruct (str_eqb k0 k'); auto.
Qed.

Lemma keys_set_In d k v k' :
  In k' (keys (dict_set d k v)) <-> k' = k \/ In k' (keys d).
Proof.
  induction d as [|[k0 v0] d IH]; cbn.
  - intuition congruence.
  - destruct (str_eqb k0 k) eqn:same; cbn.
    + apply str_eqb_eq in same. subst k0. intuition congruence.
    + rewrite IH. tauto.
Qed.

Lemma dict_mem_set d k v k' :
  dict_mem (dict_set d k v) k' = str_eqb k k' || dict_mem d k'.
Proof.
  unfold dict_mem. destruct (str_eqb k k') eqn:same.
  - apply str_eqb_eq in same. subst. rewrite dict_get_set_same. reflexivity.
  - apply str_eqb_neq in same. rewrite dict_get_set_other by congruence.
    reflexivity.
Qed.

End DictFacts.

Section FoldSet.
Variable A : Type.
Variable key : A -> str.
Variable value : str -> json.

(** Storing [value k] under the key of every element of a list. *)
Lemma fold_set_get (l : list A) (d : dict json) (k : str) :
  dict_get (fold_left (fun r x => dict_set r (key x) (value (key x))) l d) k
  = if str_in k (map key l) then Some (value k) else dict_get d k.
Proof.
  revert d. induction l as [|x l IH]; intros d; [reflexivity|].
  cbn [fold_left map]. rewrite IH. unfold str_in. cbn [existsb].
  fold (str_in k (map key l)).
  destruct (str_in k (map key l)); [now rewrite orb_true_r|].
  rewrite orb_false_r.
  destruct (str_eqb k (key x)) eqn:same.
  - apply str_eqb_eq in same. subst k. apply dict_get_set_same.
  - apply str_eqb_neq in same. apply dict_get_set_other. exact same.
Qed.
End FoldSet.

End PyFacts.

(** ** The retry budget *)

Module RetryFacts.
Import Py.

Section JudgeRetry.
Variable float_of_str : str -> option spec_float.
Variable post : nat -> Evaluation.reply.
Variable text_id : str.

Local Abbreviation attempt_at k := (Evaluation.try_block float_of_str text_id (post k)).
Local Abbreviation evaluate := (Evaluation.evaluate_one_item float_of_str post).

(** Every call sends at least one request and at most one per retry that is
    left, plus one. *)
Lemma evaluate_sent_bounds (sent retry_count : nat) :
  sent < snd (evaluate sent text_id retry_count)
  /\ snd (evaluate sent text_id retry_count)
     <= sent + (Evaluation.MAX_RETRIES - retry_count) + 1.
Proof.
  funelim (Evaluation.evaluate_one_item float_of_str post sent text_id retry_count);
    cbn [snd]; lia.
Qed.

(** A pass that raises something no handler matches ends the call. *)
Lemma evaluate_escapes (sent retry_count : nat) (e : exn) :
  attempt_at sent = Evaluation.Escapes e ->
  evaluate sent text_id retry_count = (Raise e, S sent).
Proof.
  intros escaped.
  rewrite Evaluation.evaluate_one_item_equation_1, escaped. reflexivity.
Qed.

(** A pass that returns ends the call. *)
Lemma evaluate_returns (sent retry_count : nat) (r : str * json) :
  attempt_at sent = Evaluation.Returns r ->
  evaluate sent text_id retry_count = (Return r, S sent).
Proof.
  intros returned.
  rewrite Evaluation.evaluate_one_item_equation_1, returned. reflexivity.
Qed.

(** [k] passes that fall through followed by one that returns. *)
Lemma evaluate_succeeds_after (k sent retry_count : nat) (r : str * json) :
  retry_count + k <= Evaluation.MAX_RETRIES ->
  (forall j, j < k -> attempt_at (sent + j) = Evaluation.FallsThrough) ->
  attempt_at (sent + k) = Evaluation.Returns r ->
  evaluate sent text_id retry_count = (Return r, sent + k + 1).
Proof.
  revert sent retry_count.
  induction k as [|k IH]; intros sent retry_count budget failing success.
  - rewrite Nat.add_0_r in success.
    rewrite Evaluation.evaluate_one_item_equation_1, success. simpl.
    f_equal. lia.
  - assert (first : attempt_at sent = Evaluation.FallsThrough).
    { rewrite <- (Nat.add_0_r sent). apply failing. lia. }
    rewrite Evaluation.evaluate_one_item_equation_1, first. simpl.
    destruct (lt_dec retry_count Evaluation.MAX_RETRIES) as [more|stop];
      [simpl | lia].
    rewrite (IH (S sent) (S retry_count)).
    + f_equal. lia.
    + lia.
    + intros j small. replace (S sent + j) with (sent + S j) by lia.
      apply failing. lia.
    + replace (S sent + k) with (sent + S k) by lia. exact success.
Qed.

(** [k] passes that fall through followed by one that raises something no
    handler matches: the exception leaves the call, whatever is left of
    the budget. *)
Lemma evaluate_escapes_after (k sent retry_count : nat) (e : exn) :
  retry_count + k <= Evaluation.MAX_RETRIES ->
  (forall j, j < k -> attempt_at (sent + j) = Evaluation.FallsThrough) ->
  attempt_at (sent + k) = Evaluation.Escapes e ->
  evaluate sent text_id retry_count = (Raise e, sent + k + 1).
Proof.
  revert sent retry_count.
  induction k as [|k IH]; intros sent retry_count budget failing escaped.
  - rewrite Nat.add_0_r in escaped.
    rewrite Evaluation.evaluate_one_item_equation_1, escaped. simpl.
    f_equal. lia.
  - assert (first : attempt_at sent = Evaluation.FallsThrough).
    { rewrite <- (Nat.add_0_r sent). apply failing. lia. }
    rewrite Evaluation.evaluate_one_item_equation_1, first. simpl.
    destruct (lt_dec retry_count Evaluation.MAX_RETRIES) as [more|stop];
      [simpl | lia].
    rewrite (IH (S sent) (S retry_count)).
    + f_equal. lia.
    + lia.
    + intros j small. replace (S sent + j) with (sent + S j) by lia.
      apply failing. lia.
    + replace (S sent + k) with (sent + S k) by lia. exact escaped.
Qed.

(** Every pass of the budget falls through. *)
Lemma evaluate_exhausted (sent retry_count : nat) :
  retry_count <= Evaluation.MAX_RETRIES ->
  (forall j, j <= Evaluation.MAX_RETRIES - retry_count ->
             attempt_at (sent + j) = Evaluation.FallsThrough) ->
  evaluate sent text_id retry_count
  = (Return (text_id, Evaluation.default_entry),
     sent + (Evaluation.MAX_RETRIES - retry_count) + 1).
Proof.
  funelim (Evaluation.evaluate_one_item float_of_str post sent text_id retry_count);
    intros budget failing.
  - specialize (failing 0 (Nat.le_0_l _)). rewrite Nat.add_0_r in failing.
    congruence.
  - specialize (failing 0 (Nat.le_0_l _)). rewrite Nat.add_0_r in failing.
    congruence.
  - match goal with IH : _ -> _ -> _ = _ |- _ => rewrite IH end.
    + f_equal. lia.
    + lia.
    + intros j small. replace (S sent + j) with (sent + S j) by lia.
      apply failing. lia.
  - f_equal. replace (Evaluation.MAX_RETRIES - retry_count) with 0 by lia. lia.
Qed.

End JudgeRetry.

Section InferenceRetry.
Variable create : nat -> Inference.api_reply.

Lemma process_batch_sent_bounds (sent retry_count : nat) :
  sent < snd (Inference.process_batch create sent retry_count)
  /\ snd (Inference.process_batch create sent retry_count)
     <= sent + (Inference.MAX_RETRIES - retry_count) + 1.
Proof.
  funelim (Inference.process_batch create sent retry_count);
    cbn [snd]; lia.
Qed.

Lemma process_batch_succeeds_after (k sent retry_count : nat) (text : str) :
  retry_count + k <= Inference.MAX_RETRIES ->
  (forall j, j < k -> create (sent + j) = Inference.ApiException) ->
  create (sent + k) = Inference.Content text ->
  Inference.process_batch create sent retry_count
  = (Some (strip text), sent + k + 1).
Proof.
  revert sent retry_count.
  induction k as [|k IH]; intros sent retry_count budget failing success.
  - rewrite Nat.add_0_r in success.
    rewrite Inference.process_batch_equation_1, success. simpl.
    f_equal. lia.
  - assert (first : create sent = Inference.ApiException).
    { rewrite <- (Nat.add_0_r sent). apply failing. lia. }
    rewrite Inference.process_batch_equation_1, first. simpl.
    destruct (lt_dec retry_count Inference.MAX_RETRIES) as [more|stop];
      [simpl | lia].
    rewrite (IH (S sent) (S retry_count)).
    + f_equal. lia.
    + lia.
    + intros j small. replace (S sent + j) with (sent + S j) by lia.
      apply failing. lia.
    + replace (S sent + k) with (sent + S k) by lia. exact success.
Qed.

Lemma process_batch_exhausted (sent retry_count : nat) :
  retry_count <= Inference.MAX_RETRIES ->
  (forall j, j <= Inference.MAX_RETRIES - retry_count ->
             create (sent + j) = Inference.ApiException) ->
  Inference.process_batch create sent retry_count
  = (None, sent + (Inference.MAX_RETRIES - retry_count) + 1).
Proof.
  funelim (Inference.process_batch create sent retry_count);
    intros budget failing.
  - specialize (failing 0 (Nat.le_0_l _)). rewrite Nat.add_0_r in failing.
    congruence.
  - match goal with IH : _ -> _ -> _ = _ |- _ => rewrite IH end.
    + f_equal. lia.
    + lia.
    + intros j small. replace (S sent + j) with (sent + S j) by lia.
      apply failing. lia.
  - f_equal. replace (Inference.MAX_RETRIES - retry_count) with 0 by lia. lia.
Qed.

End InferenceRetry.

(** The passes that fall through to the retry test are the three handled
    failures and a parsed reply whose score [clip_score] rejects. *)
Lemma falls_through_iff (float_of_str : str -> option spec_float)
    (text_id : str) (r : Evaluation.reply) :
  Evaluation.try_block float_of_str text_id r = Evaluation.FallsThrough
  <-> r = Evaluation.RequestException \/ r = Evaluation.BadStructure
      \/ r = Evaluation.JSONDecodeError
      \/ exists score_data v,
           r = Evaluation.Parsed score_data
           /\ Evaluation.get_score score_data = Return v
           /\ Evaluation.clip_score float_of_str v = Return JNull.
Proof.
  split.
  - destruct r as [ | | | e | score_data]; cbn; auto; try discriminate.
    destruct (Evaluation.get_score score_data) as [v|e] eqn:got;
      try discriminate.
    destruct (Evaluation.clip_score float_of_str v) as [[]|e] eqn:clipped;
      try discriminate.
    intros _. right. right. right. exists score_data, v. auto.
  - intros [-> | [-> | [-> | (score_data & v & -> & got & clipped)]]];
      cbn; auto.
    rewrite got, clipped. reflexivity.
Qed.

(** The budget on the failures the code retries.  Started by their
    callers (retry count 0), [evaluate_one_item] and [process_batch] send
    at most [MAX_RETRIES + 1 = 4] requests; when at most [MAX_RETRIES]
    passes fall through to the retry test and the next one succeeds, its
    result is returned; when all [MAX_RETRIES + 1] passes fall through, the
    judge returns the default entry and inference, every exception of which
    is handled, returns [None]. *)
Lemma retry_budget (float_of_str : str -> option spec_float)
    (post : nat -> Evaluation.reply) (create : nat -> Inference.api_reply)
    (text_id : str) (sent : nat) :
  (Evaluation.MAX_RETRIES + 1 = 4 /\ Inference.MAX_RETRIES + 1 = 4)
  /\ snd (Evaluation.evaluate_one_item float_of_str post sent text_id 0)
     <= sent + (Evaluation.MAX_RETRIES + 1)
  /\ snd (Inference.process_batch create sent 0)
     <= sent + (Inference.MAX_RETRIES + 1)
  /\ (forall k r,
        k <= Evaluation.MAX_RETRIES ->
        (forall j, j < k ->
           Evaluation.try_block float_of_str text_id (post (sent + j))
           = Evaluation.FallsThrough) ->
        Evaluation.try_block float_of_str text_id (post (sent + k))
        = Evaluation.Returns r ->
        Evaluation.evaluate_one_item float_of_str post sent text_id 0
        = (Return r, sent + k + 1))
  /\ (forall k text,
        k <= Inference.MAX_RETRIES ->
        (forall j, j < k -> create (sent + j) = Inference.ApiException) ->
        create (sent + k) = Inference.Content text ->
        Inference.process_batch create sent 0
        = (Some (strip text), sent + k + 1))
  /\ ((forall j, j <= Evaluation.MAX_RETRIES ->
          Evaluation.try_block float_of_str text_id (post (sent + j))
          = Evaluation.FallsThrough) ->
      Evaluation.evaluate_one_item float_of_str post sent text_id 0
      = (Return (text_id, Evaluation.default_entry),
         sent + (Evaluation.MAX_RETRIES + 1)))
  /\ ((forall j, j <= Inference.MAX_RETRIES ->
          create (sent + j) = Inference.ApiException) ->
      Inference.process_batch create sent 0
      = (None, sent + (Inference.MAX_RETRIES + 1))).
Proof.
  split; [split; reflexivity|].
  split.
  { pose proof (evaluate_sent_bounds float_of_str post text_id sent 0). lia. }
  split.
  { pose proof (process_batch_sent_bounds create sent 0). lia. }
  split.
  { intros k r budget failing success.
    apply evaluate_succeeds_after; auto. }
  split.
  { intros k text budget failing success.
    apply process_batch_succeeds_after; auto. }
  split.
  { intros failing.
    rewrite evaluate_exhausted.
    - f_equal. lia.
    - lia.
    - intros j small. apply failing. lia. }
  intros failing.
  rewrite process_batch_exhausted.
  - f_equal. lia.
  - lia.
  - intros j small. apply failing. lia.
Qed.

(** Three failed passes, then a score of 85 for the judge and the text
    [ok] for inference. *)
Lemma retry_budget_witness :
  Evaluation.evaluate_one_item (fun _ => None)
    (fun k => if k <? 3 then Evaluation.RequestException
              else Evaluation.Parsed (JDict [(lit "score", JInt 85)]))
    0 (lit "7") 0
  = (Return (lit "7", Evaluation.score_entry (JFloat (float_of_Z 85))), 4)
  /\ Inference.process_batch
       (fun k => if k <? 3 then Inference.ApiException
                 else Inference.Content (lit " ok "))
       0 0
     = (Some (lit "ok"), 4).
Proof.
  destruct (retry_budget (fun _ => None)
              (fun k => if k <? 3 then Evaluation.RequestException
                        else Evaluation.Parsed (JDict [(lit "score", JInt 85)]))
              (fun k => if k <? 3 then Inference.ApiException
                        else Inference.Content (lit " ok "))
              (lit "7") 0)
    as (_ & _ & _ & judge & inference & _ & _).
  split.
  - apply (judge 3).
    + unfold Evaluation.MAX_RETRIES. lia.
    + intros j small. destruct j as [|[|[|j]]]; [reflexivity .. | lia].
    + reflexivity.
  - apply (inference 3 (lit " ok ")).
    + unfold Inference.MAX_RETRIES. lia.
    + intros j small. destruct j as [|[|[|j]]]; [reflexivity .. | lia].
    + reflexivity.
Defined.

(** C1. The handlers of [evaluate_one_item] (lines 149-155) miss a failed
    attempt: a reply that is valid JSON but no object, the bare number [85]
    or a list around the object asked for, makes [score_data.get] raise
    [AttributeError], which leaves the function.  When the first three
    requests fail and the fourth reply is of that kind, all four attempts
    have failed and the call raises instead of returning the default
    entry; when the first reply is of that kind and the second would have
    been accepted, the call raises after one request instead of returning
    the score of the second. *)
Theorem failed_attempt_escapes_retry
    (float_of_str : str -> option spec_float) (text_id : str) :
  Evaluation.evaluate_one_item float_of_str
    (fun k => if k <? 3 then Evaluation.RequestException
              else Evaluation.Parsed (JInt 85))
    0 text_id 0
  = (Raise AttributeError, 4)
  /\ Evaluation.evaluate_one_item float_of_str
       (fun k => if k <? 3 then Evaluation.JSONDecodeError
                 else Evaluation.Parsed
                        (JList [JDict [(lit "score", JInt 85)]]))
       0 text_id 0
     = (Raise AttributeError, 4)
  /\ Evaluation.evaluate_one_item float_of_str
       (fun k => if k =? 0 then Evaluation.Parsed (JInt 85)
                 else Evaluation.Parsed (JDict [(lit "score", JInt 85)]))
       0 text_id 0
     = (Raise AttributeError, 1)
  /\ Evaluation.try_block float_of_str text_id
       (Evaluation.Parsed (JDict [(lit "score", JInt 85)]))
     = Evaluation.Returns
         (text_id, Evaluation.score_entry (JFloat (float_of_Z 85))).
Proof.
  split; [|split; [|split]].
  - apply (evaluate_escapes_after float_of_str _ text_id 3 0 0).
    + unfold Evaluation.MAX_RETRIES. lia.
    + intros j small. destruct j as [|[|[|j]]]; [reflexivity .. | lia].
    + reflexivity.
  - apply (evaluate_escapes_after float_of_str _ text_id 3 0 0).
    + unfold Evaluation.MAX_RETRIES. lia.
    + intros j small. destruct j as [|[|[|j]]]; [reflexivity .. | lia].
    + reflexivity.
  - apply evaluate_escapes. reflexivity.
  - reflexivity.
Qed.

End RetryFacts.

(** ** Clamping of judge scores *)

Module ClipFacts.
Import Py.

Lemma float_compare_refl (f : spec_float) :
  f <> S754_nan -> SFcompare f f = Some Eq.
Proof.
  destruct f as [s|s| |s m e]; cbn [SFcompare]; try congruence.
  - destruct s; reflexivity.
  - intros _. rewrite Z.compare_refl.
    assert (same : Pos.compare_cont Eq m m = Eq) by apply Pos.compare_refl.
    destruct s; rewrite same; reflexivity.
Qed.

Lemma float_compare_total (a b : spec_float) :
  a <> S754_nan -> b <> S754_nan ->
  exists c, SFcompare a b = Some c /\ SFcompare b a = Some (CompOpp c).
Proof.
  intros numa numb.
  destruct a as [sa|sa| |sa ma ea], b as [sb|sb| |sb mb eb]; try congruence;
    cbn [SFcompare];
    try (destruct sa; try destruct sb; eexists; split; reflexivity);
    try (destruct sb; eexists; split; reflexivity).
  assert (swap : Pos.compare_cont Eq mb ma = CompOpp (Pos.compare_cont Eq ma mb))
    by (rewrite Pos.compare_cont_antisym; reflexivity).
  destruct sa, sb; try (eexists; split; reflexivity);
    rewrite (Z.compare_antisym ea eb);
    destruct (Z.compare ea eb); cbn [CompOpp];
    try (eexists; split; reflexivity);
    rewrite swap; eexists; split; try reflexivity;
    now rewrite CompOpp_involutive.
Qed.

Lemma float_not_above_zero_below_100 (f : spec_float) (c : comparison) :
  SFcompare f float_zero = Some c -> c <> Gt ->
  SFcompare f float_100 = Some Lt.
Proof.
  unfold float_zero, float_100.
  destruct f as [s|s| |s m e]; cbn [SFcompare].
  - reflexivity.
  - destruct s; [reflexivity|]. intros [= <-]. congruence.
  - discriminate.
  - destruct s; [reflexivity|]. intros [= <-]. congruence.
Qed.

Lemma float_100_facts :
  SFcompare float_zero float_100 = Some Lt
  /\ SFcompare float_100 float_100 = Some Eq
  /\ float_of_Z 100 = float_100 /\ float_of_Z 0 = float_zero.
Proof. repeat split; vm_compute; reflexivity. Qed.

Section Clip.
Variable float_of_str : str -> option spec_float.

Lemma clip_score_clamps (v : json) (f : spec_float) :
  float float_of_str v = Return f ->
  f <> S754_nan ->
  exists r,
    Evaluation.clip_score float_of_str v = Return r
    /\ SFeqb (Spec.number r) (Spec.clamp f) = true
    /\ Spec.within float_zero float_100 (Spec.number r) = true.
Proof.
  intros coerced number.
  destruct (@float_compare_total f float_zero) as (c0 & f_0 & z_f);
    [assumption | discriminate |].
  destruct (@float_compare_total f float_100) as (c1 & f_100 & h_f);
    [assumption | discriminate |].
  destruct float_100_facts as (z_100 & h_100 & of_100 & of_0).
  assert (z_z : SFcompare float_zero float_zero = Some Eq) by reflexivity.
  assert (h_z : SFcompare float_100 float_zero = Some Gt) by reflexivity.
  pose proof (@float_not_above_zero_below_100 f c0 f_0) as low.
  pose proof (@float_compare_refl f number) as f_f.
  unfold Evaluation.clip_score. rewrite coerced.
  unfold Spec.clamp, Spec.py_max, Spec.py_min, Spec.within, float_lt,
    SFltb, SFleb, SFeqb.
  assert (cases : (c0 <> Gt /\ c1 = Lt) \/ c0 = Gt).
  { destruct c0; [left | left | right; reflexivity];
      (split; [discriminate|]);
      rewrite low in f_100 by discriminate; congruence. }
  destruct cases as [[below ->] | ->].
  - destruct c0; [ | | congruence]; cbn [CompOpp] in *;
      rewrite ?f_0, ?h_f; eexists; (split; [reflexivity|]);
      cbn [Spec.number];
      repeat (rewrite ?f_f, ?f_0, ?z_f, ?f_100, ?h_f, ?z_100, ?h_100, ?z_z, ?h_z,
                ?of_0, ?of_100; cbn [andb]);
      split; reflexivity.
  - destruct c1; cbn [CompOpp] in *;
      rewrite ?f_0, ?h_f; eexists; (split; [reflexivity|]);
      cbn [Spec.number];
      repeat (rewrite ?f_f, ?f_0, ?z_f, ?f_100, ?h_f, ?z_100, ?h_100, ?z_z, ?h_z,
                ?of_0, ?of_100; cbn [andb]);
      split; reflexivity.
Qed.

(** A score that [float] refuses with [ValueError] or [TypeError] gives
    [None]. *)
Lemma clip_score_rejects (v : json) :
  float float_of_str v = Raise ValueError
  \/ float float_of_str v = Raise TypeError ->
  Evaluation.clip_score float_of_str v = Return JNull.
Proof.
  unfold Evaluation.clip_score. intros [-> | ->]; reflexivity.
Qed.

(** C2. [clip_score] lets two numeric inputs through unclamped: NaN, which
    [float] accepts and no comparison catches, comes back as it is and
    [evaluate_one_item] stores it as the score; an integer too large for a
    float makes [float] raise [OverflowError], which neither [clip_score]
    nor [evaluate_one_item] handles. *)
Theorem clip_score_nan_and_overflow (text_id : str) :
  Evaluation.clip_score float_of_str (JFloat S754_nan)
  = Return (JFloat S754_nan)
  /\ Spec.within float_zero float_100 S754_nan = false
  /\ Evaluation.evaluate_one_item float_of_str
       (fun _ => Evaluation.Parsed
                   (JDict [(Evaluation.score_key, JFloat S754_nan)]))
       0 text_id 0
     = (Return (text_id, Evaluation.score_entry (JFloat S754_nan)), 1)
  /\ Evaluation.clip_score float_of_str (JInt (10 ^ 400))
     = Raise OverflowError
  /\ Evaluation.evaluate_one_item float_of_str
       (fun _ => Evaluation.Parsed
                   (JDict [(Evaluation.score_key, JInt (10 ^ 400))]))
       0 text_id 0
     = (Raise OverflowError, 1).
Proof.
  split; [reflexivity|].
  split; [reflexivity|].
  split; [apply RetryFacts.evaluate_returns; reflexivity|].
  split; [vm_compute; reflexivity|].
  apply RetryFacts.evaluate_escapes. vm_compute. reflexivity.
Qed.

End Clip.

End ClipFacts.

(** ** The order of the enumerated files *)

Module EnumerationFacts.
Import Py.

Lemma str_ltb_asym (a b : str) : str_ltb a b = true -> str_ltb b a = false.
Proof.
  revert b. induction a as [|x a IH]; intros [|y b]; cbn; try congruence.
  destruct (N.ltb_spec x y), (N.ltb_spec y x); try congruence; try lia.
  apply IH.
Qed.

Lemma str_ltb_antisym (a b : str) :
  str_ltb a b = false -> str_ltb b a = false -> a = b.
Proof.
  revert b. induction a as [|x a IH]; intros [|y b]; cbn; try congruence.
  destruct (N.ltb_spec x y), (N.ltb_spec y x); try congruence.
  intros ab ba. f_equal; [lia | auto].
Qed.

Lemma str_le_trans (a b c : str) :
  str_ltb b a = false -> str_ltb c b = false -> str_ltb c a = false.
Proof.
  revert b c. induction a as [|x a IH]; intros [|y b] [|z c]; cbn;
    try congruence.
  destruct (N.ltb_spec y x), (N.ltb_spec x y), (N.ltb_spec z y),
    (N.ltb_spec y z), (N.ltb_spec z x), (N.ltb_spec x z);
    try congruence; try lia.
  apply IH.
Qed.

Section SortFacts.
Variable A : Type.
Variable key : A -> str.

Local Abbreviation key_le := (Spec.key_le key).

Lemma insert_perm (x : A) (l : list A) :
  Permutation (x :: l) (Inference.insert key x l).
Proof.
  induction l as [|y l IH]; cbn; [reflexivity|].
  destruct (str_ltb (key y) (key x)); [|reflexivity].
  rewrite perm_swap. now apply perm_skip.
Qed.

Lemma sorted_perm (l : list A) : Permutation l (Inference.sorted key l).
Proof.
  induction l as [|x l IH]; cbn; [reflexivity|].
  rewrite <- insert_perm. now apply perm_skip.
Qed.

Lemma key_le_trans (x y z : A) : key_le x y -> key_le y z -> key_le x z.
Proof. unfold Spec.key_le. intros xy yz. exact (str_le_trans _ _ _ xy yz). Qed.

Lemma insert_sorted (x : A) (l : list A) :
  StronglySorted key_le l -> StronglySorted key_le (Inference.insert key x l).
Proof.
  induction 1 as [|y l sorted IH least]; cbn.
  - constructor; constructor.
  - destruct (str_ltb (key y) (key x)) eqn:before.
    + constructor; [exact IH|].
      apply (Permutation_Forall (insert_perm x l)).
      constructor; [|exact least].
      unfold Spec.key_le. now apply str_ltb_asym.
    + constructor; [constructor; assumption|].
      constructor; [exact before|].
      eapply Forall_impl; [|exact least].
      intros z yz. eapply key_le_trans; [exact before | exact yz].
Qed.

Lemma sorted_sorted (l : list A) : StronglySorted key_le (Inference.sorted key l).
Proof.
  induction l as [|x l IH]; cbn; [constructor | now apply insert_sorted].
Qed.

(** Two sorted arrangements of the same elements coincide when no two
    elements share a key. *)
Lemma sorted_unique (l1 l2 : list A) :
  Permutation l1 l2 -> NoDup (map key l1) ->
  StronglySorted key_le l1 -> StronglySorted key_le l2 -> l1 = l2.
Proof.
  revert l2. induction l1 as [|x l1 IH]; intros l2 same distinct s1 s2.
  - now apply Permutation_nil in same.
  - destruct l2 as [|y l2].
    { apply Permutation_sym, Permutation_nil in same. discriminate. }
    inversion s1 as [|? ? s1' least1]; subst.
    inversion s2 as [|? ? s2' least2]; subst.
    assert (x = y) as <-.
    { assert (xin : In x (y :: l2)) by (eapply Permutation_in; [exact same | now left]).
      assert (yin : In y (x :: l1))
        by (eapply Permutation_in; [symmetry; exact same | now left]).
      destruct xin as [-> | xin]; [reflexivity|].
      destruct yin as [-> | yin]; [reflexivity|].
      rewrite Forall_forall in least1, least2.
      pose proof (least1 y yin) as xy. pose proof (least2 x xin) as yx.
      assert (same_key : key x = key y) by (apply str_ltb_antisym; assumption).
      inversion distinct as [|? ? fresh _]; subst.
      exfalso. apply fresh. rewrite same_key. now apply in_map. }
    f_equal. apply IH; auto.
    + eapply Permutation_cons_inv. exact same.
    + now inversion distinct.
Qed.

End SortFacts.

Lemma filter_perm (A : Type) (f : A -> bool) (l l' : list A) :
  Permutation l l' -> Permutation (filter f l) (filter f l').
Proof.
  induction 1 as [|x l l' _ IH|x y l|l l' l'' _ IH1 _ IH2]; cbn.
  - constructor.
  - destruct (f x); [now constructor | exact IH].
  - destruct (f x), (f y); try reflexivity. constructor.
  - now transitivity (filter f l').
Qed.

(** C8 as stated fails: [2.jpg] and [10.jpg] come out with 10 before 2. *)
Lemma all_files_not_numeric :
  ~ Sorted Spec.numeric_le (Inference.all_files [lit "2.jpg"; lit "10.jpg"]).
Proof.
  assert (order : Inference.all_files [lit "2.jpg"; lit "10.jpg"]
                  = [lit "10.jpg"; lit "2.jpg"]) by (vm_compute; reflexivity).
  rewrite order. intros sorted.
  inversion sorted as [|? ? _ head]; subst.
  inversion head as [|? ? le]; subst.
  vm_compute in le. apply le. reflexivity.
Qed.

(** C8, amended. [all_files] holds the image files of the listing ordered
    by their identifiers compared as strings (code point by code point),
    and the result does not depend on the order of the listing when no two
    files share an identifier. *)
Theorem all_files_sorted_by_id_string (listing : list str) :
  Permutation (filter Inference.is_image listing) (Inference.all_files listing)
  /\ StronglySorted Spec.id_le (Inference.all_files listing)
  /\ (forall listing',
        Permutation listing listing' ->
        NoDup (map Inference.get_image_id (filter Inference.is_image listing)) ->
        Inference.all_files listing' = Inference.all_files listing).
Proof.
  unfold Inference.all_files. split; [apply sorted_perm|].
  split; [exact (sorted_sorted _ Inference.get_image_id _)|].
  intros listing' same distinct. symmetry.
  apply (sorted_unique _ Inference.get_image_id).
  - rewrite <- (sorted_perm _ Inference.get_image_id).
    rewrite <- (sorted_perm _ Inference.get_image_id).
    now apply filter_perm.
  - eapply Permutation_NoDup; [|exact distinct].
    apply Permutation_map, sorted_perm.
  - apply sorted_sorted.
  - apply sorted_sorted.
Qed.

(** The two listings of [2.jpg] and [10.jpg] give the same order. *)
Lemma all_files_sorted_by_id_string_witness :
  Inference.all_files [lit "10.jpg"; lit "2.jpg"]
  = Inference.all_files [lit "2.jpg"; lit "10.jpg"].
Proof.
  destruct (all_files_sorted_by_id_string [lit "2.jpg"; lit "10.jpg"])
    as (_ & _ & stable).
  apply stable.
  - apply perm_swap.
  - vm_compute. constructor.
    + intros [same | []]. discriminate same.
    + constructor; [intros [] | constructor].
Defined.

End EnumerationFacts.

(** ** Downloading and validating images *)

Module DownloadFacts.
Import Py PyFacts.

Lemma remove_absent (fs : dict Download.bytes) (path : str) :
  dict_mem (Download.remove fs path) path = false.
Proof.
  apply dict_mem_false.
  induction fs as [|[p b] fs IH]; cbn; [tauto|].
  destruct (str_eqb p path) eqn:same; [exact IH|].
  apply str_eqb_neq in same. cbn. tauto.
Qed.

Lemma remove_other (fs : dict Download.bytes) (path p : str) :
  p <> path -> dict_get (Download.remove fs path) p = dict_get fs p.
Proof.
  intros other. induction fs as [|[q b] fs IH]; cbn; [reflexivity|].
  destruct (str_eqb q path) eqn:same; cbn.
  - apply str_eqb_eq in same. subst q.
    assert (str_eqb path p = false) as -> by (apply str_eqb_neq; congruence).
    exact IH.
  - destruct (str_eqb q p); [reflexivity | exact IH].
Qed.

Section Download.
Variable get : str -> nat -> Download.http_reply.
Variable verify : Download.bytes -> Download.verdict.
Variable can_open : str -> bool.

(** An existing file is the skip condition: nothing is requested. *)
Lemma download_skips_existing (image_url save_path : str) (w : Download.world) :
  dict_mem (Download.files w) save_path = true ->
  Download.download_image get verify can_open (image_url, save_path) w = w.
Proof. intros present. cbn. rewrite present. reflexivity. Qed.

(** A call sends at most one request. *)
Lemma download_requests_once (args : str * str) (w : Download.world) :
  Download.requested (Download.download_image get verify can_open args w)
  = Download.requested w
  \/ Download.requested (Download.download_image get verify can_open args w)
     = Download.requested w ++ [fst args].
Proof.
  destruct args as [image_url save_path]. cbn.
  destruct (dict_mem (Download.files w) save_path); [now left | right].
  destruct (get image_url _); [reflexivity|].
  destruct (can_open save_path); [|reflexivity].
  destruct (verify content); reflexivity.
Qed.

(** A run sends at most one request per task. *)
Lemma run_requests_bound (download_tasks : list (str * str)) (w : Download.world) :
  List.length (Download.requested (Download.run get verify can_open download_tasks w))
  <= List.length (Download.requested w) + List.length download_tasks.
Proof.
  unfold Download.run. revert w.
  induction download_tasks as [|args rest IH]; intros w; cbn; [lia|].
  specialize (IH (Download.download_image get verify can_open args w)).
  destruct (download_requests_once args w) as [same | more];
    rewrite ?same, ?more, ?length_app in IH; cbn in IH; lia.
Qed.

End Download.

(** The failures of the image check that the inner handler lists
    ([IOError], [SyntaxError], [UnidentifiedImageError]).  When the bytes
    of a download are written and the check fails in one of these ways,
    the file is gone after the call, no other file changed, exactly one
    request was sent (the call does not retry), and, the file being
    absent, a later call for the same item sends the request again instead
    of skipping it. *)
Lemma corrupted_download_deleted
    (get : str -> nat -> Download.http_reply)
    (verify : Download.bytes -> Download.verdict) (can_open : str -> bool)
    (image_url save_path : str) (content : Download.bytes)
    (w : Download.world) :
  dict_mem (Download.files w) save_path = false ->
  get image_url (List.length (Download.requested w)) = Download.Body content ->
  can_open save_path = true ->
  verify content = Download.Rejected ->
  let w' := Download.download_image get verify can_open (image_url, save_path) w in
  dict_mem (Download.files w') save_path = false
  /\ (forall p, p <> save_path ->
        dict_get (Download.files w') p = dict_get (Download.files w) p)
  /\ Download.requested w' = Download.requested w ++ [image_url]
  /\ (forall get' verify' can_open',
        Download.requested
          (Download.download_image get' verify' can_open' (image_url, save_path) w')
        = Download.requested w' ++ [image_url]).
Proof.
  intros absent body opened rejected w'.
  assert (result : w' = {| Download.files :=
                             Download.remove
                               (dict_set (Download.files w) save_path content)
                               save_path;
                           Download.requested := Download.requested w ++ [image_url] |}).
  { subst w'. cbn. rewrite absent, body, opened, rejected. reflexivity. }
  assert (gone : dict_mem (Download.files w') save_path = false).
  { rewrite result. cbn. apply remove_absent. }
  split; [exact gone|].
  split.
  { intros p other. rewrite result. cbn.
    rewrite remove_other by exact other.
    apply dict_get_set_other. exact other. }
  split; [rewrite result; reflexivity|].
  clearbody w'. intros get' verify' can_open'. cbn. rewrite gone.
  destruct (get' image_url _); [reflexivity|].
  destruct (can_open' save_path); [|reflexivity].
  destruct (verify' content0); reflexivity.
Qed.

(** One rejected download into an empty directory. *)
Lemma corrupted_download_deleted_witness :
  let w' :=
    Download.download_image (fun _ _ => Download.Body [Byte.x00])
      (fun _ => Download.Rejected) (fun _ => true)
      (lit "http://host/1.jpg", lit "data/en/images/1.jpg")
      {| Download.files := []; Download.requested := [] |} in
  dict_mem (Download.files w') (lit "data/en/images/1.jpg") = false
  /\ Download.requested w' = [lit "http://host/1.jpg"].
Proof.
  destruct (corrupted_download_deleted (fun _ _ => Download.Body [Byte.x00])
              (fun _ => Download.Rejected) (fun _ => true)
              (lit "http://host/1.jpg") (lit "data/en/images/1.jpg")
              [Byte.x00]
              {| Download.files := []; Download.requested := [] |})
    as (gone & _ & once & _); try reflexivity.
  split; [exact gone | exact once].
Defined.

(** C9. The inner handler of [download_image] (line 56) misses a failed
    validation: when [Image.open] or [verify] raises anything but
    [IOError], [SyntaxError] or [UnidentifiedImageError], the exception
    goes to the outer [except Exception], which only prints.  The bytes
    that failed the check stay on disk under the save path, after one
    request; the file now exists, so every later call for that save path
    returns at once: the download is never attempted again. *)
Theorem unlisted_validation_error_keeps_file
    (get : str -> nat -> Download.http_reply)
    (verify : Download.bytes -> Download.verdict) (can_open : str -> bool)
    (image_url save_path : str) (content : Download.bytes)
    (w : Download.world) :
  dict_mem (Download.files w) save_path = false ->
  get image_url (List.length (Download.requested w)) = Download.Body content ->
  can_open save_path = true ->
  verify content = Download.OtherException ->
  let w' := Download.download_image get verify can_open (image_url, save_path) w in
  dict_get (Download.files w') save_path = Some content
  /\ dict_mem (Download.files w') save_path = true
  /\ Download.requested w' = Download.requested w ++ [image_url]
  /\ (forall get' verify' can_open' image_url',
        Download.download_image get' verify' can_open' (image_url', save_path) w'
        = w').
Proof.
  intros absent body opened raised w'.
  assert (result : w' = {| Download.files :=
                             dict_set (Download.files w) save_path content;
                           Download.requested := Download.requested w ++ [image_url] |}).
  { subst w'. cbn. rewrite absent, body, opened, raised. reflexivity. }
  assert (kept : dict_get (Download.files w') save_path = Some content).
  { rewrite result. cbn. apply dict_get_set_same. }
  assert (present : dict_mem (Download.files w') save_path = true).
  { unfold dict_mem. rewrite kept. reflexivity. }
  split; [exact kept|]. split; [exact present|].
  split; [rewrite result; reflexivity|].
  intros get' verify' can_open' image_url'.
  now apply download_skips_existing.
Qed.

(** A download into an empty directory whose image check raises an
    exception the inner handler does not list. *)
Lemma unlisted_validation_error_keeps_file_witness :
  let w' :=
    Download.download_image (fun _ _ => Download.Body [Byte.x00])
      (fun _ => Download.OtherException) (fun _ => true)
      (lit "http://host/1.jpg", lit "data/en/images/1.jpg")
      {| Download.files := []; Download.requested := [] |} in
  dict_get (Download.files w') (lit "data/en/images/1.jpg") = Some [Byte.x00]
  /\ Download.requested w' = [lit "http://host/1.jpg"]
  /\ Download.download_image (fun _ _ => Download.Body [Byte.x01])
       (fun _ => Download.WellFormed) (fun _ => true)
       (lit "http://host/1.jpg", lit "data/en/images/1.jpg") w'
     = w'.
Proof.
  destruct (unlisted_validation_error_keeps_file
              (fun _ _ => Download.Body [Byte.x00])
              (fun _ => Download.OtherException) (fun _ => true)
              (lit "http://host/1.jpg") (lit "data/en/images/1.jpg")
              [Byte.x00]
              {| Download.files := []; Download.requested := [] |})
    as (kept & _ & once & skipped); try reflexivity.
  split; [exact kept|]. split; [exact once|].
  apply (skipped (fun _ _ => Download.Body [Byte.x01])
           (fun _ => Download.WellFormed) (fun _ => true)
           (lit "http://host/1.jpg")).
Defined.

End DownloadFacts.

(** ** What a batch of images records *)

Module BatchFacts.
Import Py PyFacts Inference.

Lemma no_rationales_record_get (batch : list str) (text : str)
    (results : dict json) (k : str) :
  dict_get (NoRationales.record_batch batch text results) k
  = if str_in k (map get_image_id batch) then Some (JStr text)
    else dict_get results k.
Proof.
  unfold NoRationales.record_batch.
  exact (fold_set_get str get_image_id (fun _ => JStr text) batch results k).
Qed.

Lemma with_rationales_record_get (task : nat) (valid : list str) (text : str)
    (results : dict json) (k : str) :
  dict_get (WithRationales.record_batch task valid text results) k
  = if str_in k (map get_image_id valid)
    then Some (WithRationales.entry task k
                 (fst (WithRationales.parse_response_and_rationale text))
                 (snd (WithRationales.parse_response_and_rationale text)))
    else dict_get results k.
Proof.
  unfold WithRationales.record_batch.
  destruct (WithRationales.parse_response_and_rationale text)
    as [analysis rationale].
  exact (fold_set_get str get_image_id
           (fun k => WithRationales.entry task k analysis rationale)
           valid results k).
Qed.

(** One round of the image-only loops.  Take a batch in which some image
    encodes and for which [process_batch] returns a non-empty text.  The
    script without rationales stores that text under the id of every file
    name of the batch, encoded or not; the script with rationales stores
    its entry under the ids of the file names that encoded and changes no
    other key. *)
Lemma batch_response_recorded (env : environment) (task : nat)
    (i : nat) (rest : list nat) (files : list str) (results : dict json)
    (d : Files.disk) (sent sent' : nat) (text : str) :
  (exists f, In f (batch_at files i) /\ Spec.encodes env f = true) ->
  process_batch (create env) sent 0 = (Some text, sent') ->
  truthy text = true ->
  (let results' := NoRationales.record_batch (batch_at files i) text results in
   NoRationales.batches_loop env (i :: rest) files results d sent
   = NoRationales.batches_loop env rest files results'
       (Files.write_checkpoint results' d) sent'
   /\ forall f, In f (batch_at files i) ->
        dict_get results' (get_image_id f) = Some (JStr text))
  /\
  (let valid := filter (Spec.encodes env) (batch_at files i) in
   let results' := WithRationales.record_batch task valid text results in
   WithRationales.batches_loop env task (i :: rest) files results d sent
   = WithRationales.batches_loop env task rest files results'
       (Files.write_checkpoint results' d) sent'
   /\ (forall f, In f (batch_at files i) -> Spec.encodes env f = true ->
         dict_get results' (get_image_id f)
         = Some (WithRationales.entry task (get_image_id f)
                   (fst (WithRationales.parse_response_and_rationale text))
                   (snd (WithRationales.parse_response_and_rationale text))))
   /\ (forall k, ~ In k (map get_image_id valid) ->
         dict_get results' k = dict_get results k)).
Proof.
  intros (f0 & member & encoded) replied nonempty.
  split.
  - split.
    + cbn [NoRationales.batches_loop].
      destruct (filter (fun o => truthy_opt o)
                  (map (encode_image env) (batch_at files i))) eqn:images.
      * exfalso.
        assert (inside : In (encode_image env f0)
                           (filter (fun o => truthy_opt o)
                              (map (encode_image env) (batch_at files i)))).
        { apply filter_In. split; [now apply in_map | exact encoded]. }
        rewrite images in inside. exact inside.
      * rewrite replied, nonempty. reflexivity.
    + intros f inside. rewrite no_rationales_record_get.
      assert (str_in (get_image_id f) (map get_image_id (batch_at files i)) = true)
        as -> by (apply str_in_In; now apply in_map).
      reflexivity.
  - split; [|split].
    + cbn [WithRationales.batches_loop].
      change (fun f => truthy_opt (encode_image env f)) with (Spec.encodes env).
      destruct (filter (Spec.encodes env) (batch_at files i)) eqn:valid.
      * exfalso.
        assert (inside : In f0 (filter (Spec.encodes env) (batch_at files i)))
          by (apply filter_In; split; assumption).
        rewrite valid in inside. exact inside.
      * rewrite replied, nonempty. reflexivity.
    + intros f inside encoded_f. rewrite with_rationales_record_get.
      assert (str_in (get_image_id f)
                (map get_image_id (filter (Spec.encodes env) (batch_at files i))) = true)
        as ->.
      { apply str_in_In. apply in_map. apply filter_In. split; assumption. }
      reflexivity.
    + intros k outside. rewrite with_rationales_record_get.
      destruct (str_in k (map get_image_id (filter (Spec.encodes env) (batch_at files i))))
        eqn:inside; [|reflexivity].
      apply str_in_In in inside. contradiction.
Qed.

(** A batch of [1.jpg], which encodes, and [2.jpg], which does not. *)
Lemma batch_response_recorded_witness :
  dict_get (NoRationales.record_batch [lit "1.jpg"; lit "2.jpg"]
              (lit "two cats") []) (lit "2")
  = Some (JStr (lit "two cats"))
  /\ dict_get (WithRationales.record_batch 1 [lit "1.jpg"]
                 (lit "two cats") []) (lit "2")
     = None.
Proof.
  destruct (batch_response_recorded
              {| text_exists := fun _ => false;
                 encode_image := fun f => if str_eqb f (lit "1.jpg")
                                          then Some (lit "QQ==") else None;
                 read_text_file := fun _ => None;
                 create := fun _ => Content (lit "two cats") |}
              1 0 [] [lit "1.jpg"; lit "2.jpg"] []
              {| Files.checkpoint_file := None; Files.output_file := None;
                 Files.log := [] |}
              0 1 (lit "two cats"))
    as ((_ & everyone) & (_ & _ & others)).
  - exists (lit "1.jpg"). split; [left; reflexivity | reflexivity].
  - reflexivity.
  - reflexivity.
  - split.
    + apply (everyone (lit "2.jpg")). right. left. reflexivity.
    + apply (others (lit "2")). vm_compute. intros [same | []].
      discriminate same.
Defined.

End BatchFacts.

(** ** The resumability filter *)

Module FilterFacts.
Import Py PyFacts.

Section Evaluation.
Variable float_of_str : str -> option spec_float.
Variable judge : str -> nat -> Evaluation.reply.
Variable build_prompt : str -> json -> outcome str.

(** The ids handed to the executor are the ids of the input that are not
    keys of the checkpoint, in the order of the input. *)
Lemma tasks_to_run_ids (eval_results items : dict json)
    (tasks : list (str * str)) :
  Evaluation.tasks_to_run build_prompt eval_results items = Return tasks ->
  map fst tasks
  = filter (fun item_id => negb (dict_mem eval_results (py_str item_id)))
      (keys items).
Proof.
  unfold py_str.
  revert tasks. induction items as [|[item_id response_data] items IH];
    intros tasks; cbn.
  - intros [= <-]. reflexivity.
  - unfold py_str.
    destruct (dict_mem eval_results item_id); cbn; [exact (IH tasks)|].
    destruct (build_prompt item_id response_data) as [prompt|e]; [|discriminate].
    destruct (Evaluation.tasks_to_run build_prompt eval_results items)
      as [others|e]; [|discriminate].
    intros [= <-]. cbn. f_equal. now apply IH.
Qed.

Lemma main_file_nothing_left (vlm_responses : dict json) (d : Files.disk) :
  vlm_responses <> [] ->
  Evaluation.tasks_to_run build_prompt (Files.load_checkpoint d) vlm_responses
  = Return [] ->
  Evaluation.main_file float_of_str judge build_prompt vlm_responses d
  = (Evaluation.AllEvaluated, d, 0).
Proof.
  intros some none. unfold Evaluation.main_file.
  destruct vlm_responses; [congruence|]. rewrite none. reflexivity.
Qed.

End Evaluation.

Lemma files_to_process_In (results : dict json) (all_files : list str)
    (f : str) :
  In f (Inference.files_to_process results all_files)
  <-> In f all_files
      /\ ~ In (py_str (Inference.get_image_id f)) (map py_str (keys results)).
Proof.
  unfold Inference.files_to_process. rewrite filter_In, negb_true_iff.
  change (py_str (Inference.get_image_id f)) with (Inference.get_image_id f).
  split; intros [inside fresh]; (split; [exact inside|]).
  - intros member. apply str_in_In in member. congruence.
  - destruct (str_in _ _) eqn:member; [|reflexivity].
    apply str_in_In in member. contradiction.
Qed.

(** The lists the scripts filter.  An item is in [tasks_to_run] of the
    evaluation script, when that list can be built, or in
    [files_to_process] of the inference scripts if and only if it was
    enumerated and its identifier, as a string, is not a key of the loaded
    checkpoint; when nothing is left, the run reports that and returns
    with the files untouched and no request sent. *)
Lemma resumability_filter
    (float_of_str : str -> option spec_float)
    (judge : str -> nat -> Evaluation.reply)
    (build_prompt : str -> json -> outcome str)
    (env : Inference.environment) (task : nat) :
  (forall eval_results vlm_responses tasks item_id,
     Evaluation.tasks_to_run build_prompt eval_results vlm_responses
     = Return tasks ->
     (In item_id (map fst tasks)
      <-> In item_id (keys vlm_responses)
          /\ ~ In (py_str item_id) (keys eval_results)))
  /\ (forall vlm_responses d,
        vlm_responses <> [] ->
        Evaluation.tasks_to_run build_prompt (Files.load_checkpoint d)
          vlm_responses = Return [] ->
        Evaluation.main_file float_of_str judge build_prompt vlm_responses d
        = (Evaluation.AllEvaluated, d, 0))
  /\ (forall results all_files f,
        In f (Inference.files_to_process results all_files)
        <-> In f all_files
            /\ ~ In (py_str (Inference.get_image_id f))
                 (map py_str (keys results)))
  /\ (forall listing d sent,
        Inference.files_to_process (Files.load_checkpoint d)
          (Inference.all_files listing) = [] ->
        NoRationales.main env task listing d sent
        = (Inference.AlreadyProcessed, d, sent)
        /\ WithRationales.main env task listing d sent
           = (Inference.AlreadyProcessed, d, sent)).
Proof.
  split; [|split; [|split]].
  - intros eval_results vlm_responses tasks item_id built.
    rewrite (tasks_to_run_ids build_prompt _ _ _ built).
    rewrite filter_In, negb_true_iff, dict_mem_false. reflexivity.
  - apply main_file_nothing_left.
  - apply files_to_process_In.
  - intros listing d sent none.
    unfold NoRationales.main, WithRationales.main. rewrite none. auto.
Qed.

(** Items 1 and 2 with item 1 in the checkpoint: item 2 is selected. *)
Lemma resumability_filter_witness :
  In (lit "2")
    (map fst [(lit "2", lit "prompt")])
  <-> In (lit "2") [lit "1"; lit "2"] /\ ~ In (py_str (lit "2")) [lit "1"].
Proof.
  destruct (resumability_filter (fun _ => None)
              (fun _ _ => Evaluation.RequestException)
              (fun _ _ => Return (lit "prompt"))
              {| Inference.text_exists := fun _ => false;
                 Inference.encode_image := fun _ => None;
                 Inference.read_text_file := fun _ => None;
                 Inference.create := fun _ => Inference.ApiException |} 1)
    as (selected & _).
  apply (selected [(lit "1", Evaluation.default_entry)]
           [(lit "1", JNull); (lit "2", JNull)]).
  reflexivity.
Defined.

End FilterFacts.

(** ** What the loops of the inference scripts leave on disk *)

Module InferenceRunFacts.
Import Py PyFacts Inference.

Lemma loop_invariant_refl (results : dict json) (d : Files.disk) (sent : nat) :
  Spec.loop_invariant results d sent (results, d, sent).
Proof.
  cbn. split; [reflexivity|]. split; [|split; [left; split; reflexivity | lia]].
  exists []. split; [now rewrite app_nil_r | constructor].
Qed.

(** One processed item or batch, followed by the rest of the loop. *)
Lemma loop_invariant_step (results results1 : dict json) (d : Files.disk)
    (sent sent1 : nat) (r : dict json * Files.disk * nat) :
  sent <= sent1 ->
  Spec.loop_invariant results1 (Files.write_checkpoint results1 d) sent1 r ->
  Spec.loop_invariant results d sent r.
Proof.
  destruct r as [[results' d'] sent']. cbn.
  intros more (out & (writes & logged & only) & written & sent_le).
  split; [exact out|]. split; [|split; [right | lia]].
  - exists (Files.WroteCheckpoint results1 :: writes). split.
    + rewrite logged, <- app_assoc. reflexivity.
    + constructor; [now exists results1 | exact only].
  - destruct written as [[-> ->] | written]; [reflexivity | exact written].
Qed.

Ltac process_step create sent :=
  let sending := fresh "sending" in
  pose proof (RetryFacts.process_batch_sent_bounds create sent 0) as sending;
  destruct (process_batch create sent 0) as [result sent1];
  cbn [snd] in sending;
  eapply loop_invariant_step; [|match goal with IH : _ |- _ => apply IH end];
  lia.

Section Loops.
Variable env : environment.
Variable task : nat.

Lemma no_rationales_pairs_invariant (files : list str) (results : dict json)
    (d : Files.disk) (sent : nat) :
  Spec.loop_invariant results d sent
    (NoRationales.pairs_loop env files results d sent).
Proof.
  revert results d sent.
  induction files as [|filename rest IH]; intros results d sent;
    cbn [NoRationales.pairs_loop]; [apply loop_invariant_refl|].
  destruct (negb (text_exists env _)); [apply IH|].
  destruct (negb _ || _); [apply IH|].
  process_step (create env) sent.
Qed.

Lemma no_rationales_batches_invariant (starts : list nat) (files : list str)
    (results : dict json) (d : Files.disk) (sent : nat) :
  Spec.loop_invariant results d sent
    (NoRationales.batches_loop env starts files results d sent).
Proof.
  revert results d sent.
  induction starts as [|i rest IH]; intros results d sent;
    cbn [NoRationales.batches_loop]; [apply loop_invariant_refl|].
  destruct (filter _ _); [apply IH|].
  process_step (create env) sent.
Qed.

Lemma with_rationales_pairs_invariant (files : list str) (results : dict json)
    (d : Files.disk) (sent : nat) :
  Spec.loop_invariant results d sent
    (WithRationales.pairs_loop env task files results d sent).
Proof.
  revert results d sent.
  induction files as [|filename rest IH]; intros results d sent;
    cbn [WithRationales.pairs_loop]; [apply loop_invariant_refl|].
  destruct (negb (text_exists env _)); [apply IH|].
  destruct (negb _ || _); [apply IH|].
  process_step (create env) sent.
Qed.

Lemma with_rationales_batches_invariant (starts : list nat) (files : list str)
    (results : dict json) (d : Files.disk) (sent : nat) :
  Spec.loop_invariant results d sent
    (WithRationales.batches_loop env task starts files results d sent).
Proof.
  revert results d sent.
  induction starts as [|i rest IH]; intros results d sent;
    cbn [WithRationales.batches_loop]; [apply loop_invariant_refl|].
  destruct (filter _ _); [apply IH|].
  process_step (create env) sent.
Qed.

End Loops.

End InferenceRunFacts.

(** ** The run of the evaluation script over one file *)

Module EvaluationRunFacts.
Import Py PyFacts.

Section Run.
Variable float_of_str : str -> option spec_float.
Variable judge : str -> nat -> Evaluation.reply.
Variable build_prompt : str -> json -> outcome str.

Lemma try_block_returns (text_id : str) (r : Evaluation.reply)
    (result : str * json) :
  Evaluation.try_block float_of_str text_id r = Evaluation.Returns result ->
  exists score, result = (text_id, Evaluation.score_entry score).
Proof.
  destruct r as [ | | | e | score_data]; cbn; try discriminate.
  destruct (Evaluation.get_score score_data) as [v|e]; [|discriminate].
  destruct (Evaluation.clip_score float_of_str v) as [[]|e];
    try discriminate; intros [= <-]; eexists; reflexivity.
Qed.

(** Whatever [evaluate_one_item] returns is the id it was given with a
    score entry. *)
Lemma evaluate_result_shape (post : nat -> Evaluation.reply)
    (sent retry_count : nat) (text_id : str) (result : str * json) :
  fst (Evaluation.evaluate_one_item float_of_str post sent text_id retry_count)
  = Return result ->
  exists score, result = (text_id, Evaluation.score_entry score).
Proof.
  funelim (Evaluation.evaluate_one_item float_of_str post sent text_id
             retry_count); cbn [fst].
  - intros [= <-]. eapply try_block_returns. eassumption.
  - discriminate.
  - match goal with IH : forall _, _ -> _ |- _ => apply IH end.
  - intros [= <-]. exists (JInt 50). reflexivity.
Qed.

Local Abbreviation run task :=
  (Evaluation.evaluate_one_item float_of_str (judge (fst task)) 0 (fst task) 0).

Lemma judged_returned (task : str * str) (k : str) (entry : json) :
  fst (run task) = Return (k, entry) ->
  k = fst task /\ entry = Spec.judged float_of_str judge (fst task)
  /\ exists score, entry = Evaluation.score_entry score.
Proof.
  intros returned.
  destruct (evaluate_result_shape _ _ _ _ _ returned) as (score & [= -> ->]).
  split; [reflexivity|]. split; [|now exists score].
  unfold Spec.judged. rewrite returned. reflexivity.
Qed.

(** The loop over the futures, when no call raised. *)
Lemma collect_returns (tasks : list (str * str)) (eval_results m : dict json)
    (d d' : Files.disk) :
  Evaluation.collect (map fst (map (fun task => run task) tasks)) eval_results d
  = (Return m, d') ->
  m = Spec.merged float_of_str judge tasks eval_results
  /\ Forall (fun task => exists score,
               Spec.judged float_of_str judge (fst task)
               = Evaluation.score_entry score) tasks
  /\ Files.output_file d' = Files.output_file d
  /\ exists writes,
       Files.log d' = Files.log d ++ writes
       /\ Spec.only_checkpoint_writes writes.
Proof.
  revert eval_results d.
  induction tasks as [|task tasks IH]; intros eval_results d.
  - cbn. intros [= <- <-]. repeat split; [constructor|].
    exists []. split; [now rewrite app_nil_r | constructor].
  - cbn [map Evaluation.collect].
    destruct (fst (run task)) as [[k entry]|e] eqn:returned; [|discriminate].
    destruct (judged_returned _ _ _ returned) as (-> & -> & score & shaped).
    intros finished. apply IH in finished.
    destruct finished as (-> & all & out & writes & logged & only).
    split; [reflexivity|]. split; [constructor; [now exists score | exact all]|].
    destruct (_ =? 0) in out, logged.
    + split; [exact out|].
      eexists (Files.WroteCheckpoint _ :: writes). split.
      * rewrite logged. cbn. rewrite <- app_assoc. reflexivity.
      * constructor; [eexists; reflexivity | exact only].
    + split; [exact out|]. now exists writes.
Qed.

Lemma main_file_finished (vlm_responses : dict json) (d d' : Files.disk)
    (sent : nat) :
  Evaluation.main_file float_of_str judge build_prompt vlm_responses d
  = (Evaluation.Finished, d', sent) ->
  exists tasks m writes,
    Evaluation.tasks_to_run build_prompt (Files.load_checkpoint d) vlm_responses
    = Return tasks
    /\ tasks <> []
    /\ m = Spec.merged float_of_str judge tasks (Files.load_checkpoint d)
    /\ Forall (fun task => exists score,
                 Spec.judged float_of_str judge (fst task)
                 = Evaluation.score_entry score) tasks
    /\ Files.output_file d' = Some m
    /\ Files.checkpoint_file d' = None
    /\ Spec.only_checkpoint_writes writes
    /\ (Files.log d' = Files.log d ++ writes ++ [Files.WroteOutput m]
        \/ Files.log d'
           = Files.log d ++ writes
             ++ [Files.WroteOutput m; Files.RemovedCheckpoint])
    /\ sent = list_sum (map snd (map (fun task => run task) tasks)).
Proof.
  unfold Evaluation.main_file.
  destruct vlm_responses as [|item items]; [discriminate|].
  destruct (Evaluation.tasks_to_run _ _ _) as [tasks|e]; [|discriminate].
  destruct tasks as [|task tasks]; [discriminate|].
  destruct (Evaluation.collect _ _ _) as [[m|e] d1] eqn:collected;
    [|discriminate].
  apply collect_returns in collected.
  destruct collected as (-> & all & out & writes & logged & only).
  intros [= <- <-].
  eexists (task :: tasks), _, writes.
  split; [reflexivity|]. split; [discriminate|]. split; [reflexivity|].
  split; [exact all|].
  cbn [Files.write_output Files.checkpoint_file].
  destruct (Files.checkpoint_file d1) eqn:existing; cbn; rewrite ?existing;
    (split; [reflexivity|]); (split; [reflexivity|]); (split; [exact only|]);
    (split; [|reflexivity]); rewrite logged, <- ?app_assoc; cbn; auto.
Qed.

(** What the output of a finished run holds for a key. *)
Lemma merged_get (tasks : list (str * str)) (eval_results : dict json)
    (k : str) :
  dict_get (Spec.merged float_of_str judge tasks eval_results) k
  = if str_in k (map fst tasks)
    then Some (Spec.judged float_of_str judge k)
    else dict_get eval_results k.
Proof.
  exact (fold_set_get _ fst (Spec.judged float_of_str judge) tasks
           eval_results k).
Qed.

Lemma tasks_to_run_all_checkpointed (eval_results items : dict json) :
  (forall item_id, In item_id (keys items) -> In item_id (keys eval_results)) ->
  Evaluation.tasks_to_run build_prompt eval_results items = Return [].
Proof.
  induction items as [|[item_id response_data] items IH]; intros covered;
    [reflexivity|].
  cbn [Evaluation.tasks_to_run]. unfold py_str.
  assert (dict_mem eval_results item_id = true) as ->.
  { apply dict_mem_In. apply covered. now left. }
  apply IH. intros k inside. apply covered. now right.
Qed.

End Run.

End EvaluationRunFacts.

(** ** The default score *)

Module ScoreFacts.
Import Py PyFacts.

(** The runs that reach their final save.  An evaluation in which every
    pass of the budget falls through to the retry test returns the fixed
    entry [{"score": 50}]; and when the run over a file finishes, every
    dispatched id (listed in the input, absent from the checkpoint) is
    mapped to a score entry in the output file, the fixed one when its
    evaluation exhausted the retries. *)
Lemma default_score_on_exhaustion
    (float_of_str : str -> option spec_float)
    (judge : str -> nat -> Evaluation.reply)
    (build_prompt : str -> json -> outcome str) :
  (forall post sent text_id,
     (forall j, j <= Evaluation.MAX_RETRIES ->
        Evaluation.try_block float_of_str text_id (post (sent + j))
        = Evaluation.FallsThrough) ->
     fst (Evaluation.evaluate_one_item float_of_str post sent text_id 0)
     = Return (text_id, JDict [(lit "score", JInt 50)]))
  /\ (forall vlm_responses d d' sent,
        Evaluation.main_file float_of_str judge build_prompt vlm_responses d
        = (Evaluation.Finished, d', sent) ->
        exists m,
          Files.output_file d' = Some m
          /\ forall item_id,
               In item_id (keys vlm_responses) ->
               ~ In item_id (keys (Files.load_checkpoint d)) ->
               (exists score,
                  dict_get m item_id = Some (Evaluation.score_entry score))
               /\ ((forall j, j <= Evaluation.MAX_RETRIES ->
                      Evaluation.try_block float_of_str item_id (judge item_id j)
                      = Evaluation.FallsThrough) ->
                   dict_get m item_id = Some (JDict [(lit "score", JInt 50)]))).
Proof.
  split.
  - intros post sent text_id failing.
    rewrite RetryFacts.evaluate_exhausted; [reflexivity | lia |].
    intros j small. apply failing. lia.
  - intros vlm_responses d d' sent finished.
    apply EvaluationRunFacts.main_file_finished in finished.
    destruct finished
      as (tasks & m & writes & built & _ & -> & all & out & _).
    eexists. split; [exact out|].
    intros item_id listed fresh.
    assert (selected : In item_id (map fst tasks)).
    { rewrite (FilterFacts.tasks_to_run_ids _ _ _ _ built).
      apply filter_In. split; [exact listed|].
      apply negb_true_iff, dict_mem_false. exact fresh. }
    rewrite EvaluationRunFacts.merged_get.
    assert (str_in item_id (map fst tasks) = true) as ->
      by now apply str_in_In.
    split.
    + apply in_map_iff in selected. destruct selected as (task & <- & inside).
      rewrite Forall_forall in all.
      destruct (all task inside) as (score & ->). now exists score.
    + intros failing. f_equal. unfold Spec.judged.
      rewrite RetryFacts.evaluate_exhausted; [reflexivity | lia |].
      intros j small. apply failing. lia.
Qed.

(** A judge whose replies never parse, for item 7. *)
Lemma default_score_on_exhaustion_witness :
  fst (Evaluation.evaluate_one_item (fun _ => None)
         (fun _ => Evaluation.JSONDecodeError) 0 (lit "7") 0)
  = Return (lit "7", JDict [(lit "score", JInt 50)])
  /\ exists m,
       Files.output_file
         (snd (fst (Evaluation.main_file (fun _ => None)
                      (fun _ _ => Evaluation.JSONDecodeError)
                      (fun _ _ => Return (lit "prompt"))
                      [(lit "7", JNull)]
                      {| Files.checkpoint_file := None;
                         Files.output_file := None; Files.log := [] |})))
       = Some m
       /\ dict_get m (lit "7") = Some (JDict [(lit "score", JInt 50)]).
Proof.
  destruct (default_score_on_exhaustion (fun _ => None)
              (fun _ _ => Evaluation.JSONDecodeError)
              (fun _ _ => Return (lit "prompt")))
    as (exhausted & scored).
  split.
  - apply (exhausted (fun _ => Evaluation.JSONDecodeError) 0 (lit "7")).
    intros j small. reflexivity.
  - destruct (scored [(lit "7", JNull)]
                {| Files.checkpoint_file := None;
                   Files.output_file := None; Files.log := [] |}
                (snd (fst (Evaluation.main_file (fun _ => None)
                             (fun _ _ => Evaluation.JSONDecodeError)
                             (fun _ _ => Return (lit "prompt"))
                             [(lit "7", JNull)]
                             {| Files.checkpoint_file := None;
                                Files.output_file := None; Files.log := [] |})))
                4)
      as (m & out & entries).
    + vm_compute. reflexivity.
    + exists m. split; [exact out|].
      apply (entries (lit "7")).
      * left. reflexivity.
      * intros [].
      * intros j small. reflexivity.
Defined.

(** C3. An item whose evaluation used up its retries can be left without
    a score.  Items 7 and 8 of a with-rationales output for task 1 are
    dispatched with no checkpoint.  Every request for item 7 fails, so its
    call returns the default entry after four requests.  The judge answers
    item 8 with the bare number [85]: [score_data.get] raises
    [AttributeError], [future.result()] raises it in [main], and the run
    ends before the final save: five requests sent, no output file and no
    checkpoint written, the default entry of item 7 lost. *)
Theorem exhausted_item_left_unscored
    (float_of_str : str -> option spec_float)
    (read_text_file : str -> str)
    (generate_evaluation_prompt :
       str -> json -> str -> str -> str -> str -> str -> str)
    (language setting : str) :
  let judge := fun (item_id : str) (k : nat) =>
    if str_eqb item_id (lit "7") then Evaluation.RequestException
    else Evaluation.Parsed (JInt 85) in
  let vlm_responses :=
    [(lit "7", WithRationales.entry 1 (lit "7") (lit "a cat") (lit "fur"));
     (lit "8", WithRationales.entry 1 (lit "8") (lit "a dog") (lit "tail"))] in
  let d := {| Files.checkpoint_file := None; Files.output_file := None;
              Files.log := [] |} in
  Evaluation.evaluate_one_item float_of_str (judge (lit "7")) 0 (lit "7") 0
  = (Return (lit "7", JDict [(lit "score", JInt 50)]), 4)
  /\ Evaluation.evaluate_one_item float_of_str (judge (lit "8")) 0 (lit "8") 0
     = (Raise AttributeError, 1)
  /\ Evaluation.main_file float_of_str judge
       (Prompt.build_prompt read_text_file generate_evaluation_prompt
          language setting 1)
       vlm_responses d
     = (Evaluation.Crashed AttributeError, d, 5)
  /\ Files.output_file d = None.
Proof.
  cbv zeta.
  split; [|split; [|split]].
  - rewrite RetryFacts.evaluate_exhausted; [reflexivity | lia |].
    intros j small. reflexivity.
  - apply RetryFacts.evaluate_escapes. reflexivity.
  - vm_compute. reflexivity.
  - reflexivity.
Qed.

End ScoreFacts.

(** ** Finalization *)

Module FinalizationFacts.
Import Py PyFacts Inference.

Lemma finish_invariant (d d' : Files.disk) (results' : dict json)
    (sent sent' : nat) :
  Spec.loop_invariant (Files.load_checkpoint d) d sent (results', d', sent') ->
  Spec.inference_finalized d (Files.write_output results' d').
Proof.
  cbn. intros (out & (writes & logged & only) & written & _).
  exists results', writes. cbn.
  split; [reflexivity|]. split; [now rewrite logged, app_assoc|].
  split; [exact only|].
  destruct written as [[-> ->] | written]; [|now left].
  unfold Files.load_checkpoint.
  destruct (Files.checkpoint_file d); [now left | now right].
Qed.

Section Inference.
Variable env : environment.
Variable task : nat.

Lemma no_rationales_finished (listing : list str) (d d' : Files.disk)
    (sent sent' : nat) :
  NoRationales.main env task listing d sent = (Finished, d', sent') ->
  Spec.inference_finalized d d'.
Proof.
  unfold NoRationales.main.
  destruct (files_to_process _ _) as [|f files]; [discriminate|].
  set (r := if 6 <=? task then _ else _).
  assert (kept : Spec.loop_invariant (Files.load_checkpoint d) d sent r).
  { subst r. destruct (6 <=? task).
    - apply InferenceRunFacts.no_rationales_pairs_invariant.
    - apply InferenceRunFacts.no_rationales_batches_invariant. }
  destruct r as [[results' d1] sent1]. intros [= <- <-].
  eapply finish_invariant. exact kept.
Qed.

Lemma with_rationales_finished (listing : list str) (d d' : Files.disk)
    (sent sent' : nat) :
  WithRationales.main env task listing d sent = (Finished, d', sent') ->
  Spec.inference_finalized d d'.
Proof.
  unfold WithRationales.main.
  destruct (files_to_process _ _) as [|f files]; [discriminate|].
  set (r := if 6 <=? task then _ else _).
  assert (kept : Spec.loop_invariant (Files.load_checkpoint d) d sent r).
  { subst r. destruct (6 <=? task).
    - apply InferenceRunFacts.with_rationales_pairs_invariant.
    - apply InferenceRunFacts.with_rationales_batches_invariant. }
  destruct r as [[results' d1] sent1]. intros [= <- <-].
  eapply finish_invariant. exact kept.
Qed.

End Inference.





End FinalizationFacts.

(** ** Running a pipeline again *)

Module IdempotenceFacts.
Import Py PyFacts Inference.

Lemma files_to_process_covered (results : dict json) (all_files : list str) :
  (forall f, In f all_files -> In (get_image_id f) (keys results)) ->
  files_to_process results all_files = [].
Proof.
  intros covered.
  destruct (files_to_process results all_files) as [|f rest] eqn:left_over;
    [reflexivity|].
  assert (inside : In f (files_to_process results all_files))
    by (rewrite left_over; now left).
  apply FilterFacts.files_to_process_In in inside.
  destruct inside as [listed fresh]. exfalso. apply fresh.
  unfold py_str. rewrite map_id. now apply covered.
Qed.

(** The evaluation script started on a finished scope (output present,
    checkpoint removed) sends a request again and rewrites the output. *)
Lemma evaluation_reruns_complete_scope :
  Evaluation.main_file (fun _ => None)
    (fun _ _ => Evaluation.Parsed (JDict [(lit "score", JInt 80)]))
    (fun _ _ => Return (lit "prompt"))
    [(lit "1", JNull)]
    {| Files.checkpoint_file := None;
       Files.output_file := Some [(lit "1", Evaluation.default_entry)];
       Files.log := [] |}
  = (Evaluation.Finished,
     {| Files.checkpoint_file := None;
        Files.output_file :=
          Some [(lit "1", Evaluation.score_entry (JFloat (float_of_Z 80)))];
        Files.log :=
          [Files.WroteOutput
             [(lit "1", Evaluation.score_entry (JFloat (float_of_Z 80)))]] |},
     1).
Proof. vm_compute. reflexivity. Qed.

(** Runs with nothing left to do.  A run that starts with a checkpoint
    holding every enumerated id sends no request and leaves both files as
    they are; for the inference scripts, which keep their checkpoint, this
    is the case of a second run after a finished run whose output has
    every enumerated file, so the second run leaves the output
    identical. *)
Lemma rerun_is_noop_when_checkpoint_covers
    (float_of_str : str -> option spec_float)
    (judge : str -> nat -> Evaluation.reply)
    (build_prompt : str -> json -> outcome str)
    (env : environment) (task : nat) :
  (forall vlm_responses d,
     (forall item_id, In item_id (keys vlm_responses) ->
                      In item_id (keys (Files.load_checkpoint d))) ->
     exists status,
       Evaluation.main_file float_of_str judge build_prompt vlm_responses d
       = (status, d, 0)
       /\ status <> Evaluation.Finished)
  /\ (forall listing d sent,
        (forall f, In f (all_files listing) ->
                   In (get_image_id f) (keys (Files.load_checkpoint d))) ->
        NoRationales.main env task listing d sent = (AlreadyProcessed, d, sent)
        /\ WithRationales.main env task listing d sent
           = (AlreadyProcessed, d, sent))
  /\ (forall listing d d1 sent sent1 m,
        (NoRationales.main env task listing d sent = (Finished, d1, sent1)
         \/ WithRationales.main env task listing d sent = (Finished, d1, sent1)) ->
        Files.output_file d1 = Some m ->
        (forall f, In f (all_files listing) -> In (get_image_id f) (keys m)) ->
        forall env' sent2,
          NoRationales.main env' task listing d1 sent2
          = (AlreadyProcessed, d1, sent2)
          /\ WithRationales.main env' task listing d1 sent2
             = (AlreadyProcessed, d1, sent2)).
Proof.
  assert (inference_noop : forall env0 listing d sent,
            files_to_process (Files.load_checkpoint d) (all_files listing) = [] ->
            NoRationales.main env0 task listing d sent = (AlreadyProcessed, d, sent)
            /\ WithRationales.main env0 task listing d sent
               = (AlreadyProcessed, d, sent)).
  { intros env0 listing d sent none.
    unfold NoRationales.main, WithRationales.main. rewrite none. auto. }
  split; [|split].
  - intros vlm_responses d covered.
    destruct vlm_responses as [|item items] eqn:shape.
    + exists Evaluation.NoResponses. split; [reflexivity | discriminate].
    + exists Evaluation.AllEvaluated. split; [|discriminate].
      rewrite <- shape in *.
      apply FilterFacts.main_file_nothing_left; [rewrite shape; discriminate|].
      now apply EvaluationRunFacts.tasks_to_run_all_checkpointed.
  - intros listing d sent covered. apply inference_noop.
    now apply files_to_process_covered.
  - intros listing d d1 sent sent1 m finished out covered env' sent2.
    apply inference_noop.
    assert (final : Spec.inference_finalized d d1).
    { destruct finished as [finished | finished].
      - eapply FinalizationFacts.no_rationales_finished. exact finished.
      - eapply FinalizationFacts.with_rationales_finished. exact finished. }
    destruct final as (m' & writes & out' & _ & _ & kept).
    assert (m' = m) as -> by congruence.
    apply files_to_process_covered. intros f listed.
    unfold Files.load_checkpoint.
    destruct kept as [-> | (-> & _ & ->)]; now apply covered.
Qed.

(** A second inference run over [1.jpg], already in the checkpoint. *)
Lemma rerun_is_noop_when_checkpoint_covers_witness :
  NoRationales.main
    {| text_exists := fun _ => false;
       encode_image := fun _ => None;
       read_text_file := fun _ => None;
       create := fun _ => ApiException |}
    1 [lit "1.jpg"]
    {| Files.checkpoint_file := Some [(lit "1", JStr (lit "a cat"))];
       Files.output_file := Some [(lit "1", JStr (lit "a cat"))];
       Files.log := [] |}
    1
  = (AlreadyProcessed,
     {| Files.checkpoint_file := Some [(lit "1", JStr (lit "a cat"))];
        Files.output_file := Some [(lit "1", JStr (lit "a cat"))];
        Files.log := [] |},
     1).
Proof.
  destruct (rerun_is_noop_when_checkpoint_covers (fun _ => None)
              (fun _ _ => Evaluation.RequestException)
              (fun _ _ => Return (lit "prompt"))
              {| text_exists := fun _ => false;
                 encode_image := fun _ => None;
                 read_text_file := fun _ => None;
                 create := fun _ => ApiException |} 1)
    as (_ & covered & _).
  apply covered. intros f.
  replace (all_files [lit "1.jpg"]) with [lit "1.jpg"]
    by (vm_compute; reflexivity).
  intros [<- | []]. vm_compute. left. reflexivity.
Defined.

End IdempotenceFacts.


(** ** Splitting a response into analysis and rationale *)

Module RationaleFacts.
Import Py PyFacts.

Lemma startswith_app (sub rest : str) : startswith (sub ++ rest) sub = true.
Proof.
  induction sub as [|c sub IH]; cbn; [now destruct rest|].
  now rewrite N.eqb_refl, IH.
Qed.

(** [find] returns the first position at which the text starts with the
    sought string. *)
Lemma find_from_first (s sub : str) (i : Z) (n : nat) :
  (forall j, j < n -> startswith (skipn j s) sub = false) ->
  startswith (skipn n s) sub = true ->
  find_from s sub i = (i + Z.of_nat n)%Z.
Proof.
  revert s i. induction n as [|n IH]; intros s i earlier here.
  - cbn [skipn] in here. destruct s; cbn [find_from]; rewrite here; lia.
  - assert (first : startswith s sub = false) by (apply (earlier 0); lia).
    destruct s as [|c s].
    + cbn [skipn] in here. congruence.
    + cbn [find_from]. rewrite first. rewrite IH.
      * lia.
      * intros j small. apply (earlier (S j)). lia.
      * exact here.
Qed.

Lemma find_from_absent (s sub : str) (i : Z) :
  (forall j, j <= List.length s -> startswith (skipn j s) sub = false) ->
  find_from s sub i = (-1)%Z.
Proof.
  revert i. induction s as [|c s IH]; intros i nowhere.
  - pose proof (nowhere 0 (Nat.le_refl _)) as here. cbn [skipn] in here.
    cbn [find_from]. now rewrite here.
  - pose proof (nowhere 0 (Nat.le_0_l _)) as here. cbn [skipn] in here.
    cbn [find_from]. rewrite here.
    apply IH. intros j small. apply (nowhere (S j)). cbn. lia.
Qed.

(** Lowering keeps the length of a text without U+0130. *)
Lemma lower_length (s : str) :
  Forall (fun c => c <> 304%N) s -> List.length (lower s) = List.length s.
Proof.
  induction 1 as [|c s plain _ IH]; [reflexivity|].
  unfold lower in *. cbn [flat_map]. rewrite length_app, IH.
  unfold lower_cp.
  destruct (_ && _); [reflexivity|].
  destruct (N.eqb_spec c 304); [contradiction|].
  destruct (c =? 8490)%N; reflexivity.
Qed.

Lemma lower_app (a b : str) : lower (a ++ b) = lower a ++ lower b.
Proof. apply flat_map_app. Qed.

Lemma slice_to_app (a b : str) : slice_to (a ++ b) (Z.of_nat (List.length a)) = a.
Proof.
  unfold slice_to, clip_index. rewrite length_app.
  destruct (Z.ltb_spec (Z.of_nat (List.length a)) 0); [lia|].
  replace (Z.to_nat _) with (List.length a + 0) by lia.
  rewrite firstn_app_2. cbn. apply app_nil_r.
Qed.

Lemma slice_from_app (a b : str) :
  slice_from (a ++ b) (Z.of_nat (List.length a)) = b.
Proof.
  unfold slice_from, clip_index. rewrite length_app.
  destruct (Z.ltb_spec (Z.of_nat (List.length a)) 0); [lia|].
  replace (Z.to_nat _) with (List.length a) by lia.
  rewrite skipn_app, skipn_all, Nat.sub_diag. reflexivity.
Qed.

(** The claim on texts in which no U+0130 comes before the end of the
    marker: the two halves around the first occurrence, stripped. *)
Lemma parse_splits_at_first_marker (pre m post : str) :
  Forall (fun c => c <> 304%N) (pre ++ m) ->
  lower m = WithRationales.marker ->
  (forall j, j < List.length pre ->
     startswith (skipn j (lower (pre ++ m ++ post))) WithRationales.marker = false) ->
  WithRationales.parse_response_and_rationale (pre ++ m ++ post)
  = (strip pre, strip post).
Proof.
  intros plain lowered first.
  apply Forall_app in plain. destruct plain as [plain_pre plain_m].
  pose proof (lower_length _ plain_pre) as len_pre.
  pose proof (lower_length _ plain_m) as len_m. rewrite lowered in len_m.
  assert (found : find (lower (pre ++ m ++ post)) WithRationales.marker
                  = Z.of_nat (List.length pre)).
  { unfold find. rewrite (find_from_first _ _ 0 (List.length pre)).
    - lia.
    - exact first.
    - rewrite !lower_app, lowered, <- len_pre.
      rewrite skipn_app, skipn_all, Nat.sub_diag. cbn [skipn app].
      apply startswith_app. }
  unfold WithRationales.parse_response_and_rationale, split1.
  rewrite found.
  destruct (Z.ltb_spec (Z.of_nat (List.length pre)) 0) as [neg|_]; [lia|].
  cbn [List.length Nat.ltb Nat.leb].
  rewrite slice_to_app. f_equal. f_equal.
  rewrite len_m, <- Nat2Z.inj_add, <- length_app, app_assoc.
  apply slice_from_app.
Qed.

(** Without an occurrence of the marker the whole text is the analysis. *)
Lemma parse_without_marker (text : str) :
  (forall j, j <= List.length (lower text) ->
     startswith (skipn j (lower text)) WithRationales.marker = false) ->
  WithRationales.parse_response_and_rationale text
  = (strip text, WithRationales.no_rationale).
Proof.
  intros nowhere.
  unfold WithRationales.parse_response_and_rationale, split1, find.
  rewrite find_from_absent by exact nowhere. reflexivity.
Qed.

(** Scenario C of the specification. *)
Example parse_scenario_c :
  WithRationales.parse_response_and_rationale
    (lit "Detailed analysis... Your Rationale: because X")
  = (lit "Detailed analysis...", lit "because X").
Proof. vm_compute. reflexivity. Qed.

(** C7. On the text made of U+0130, a blank, the marker and [ab], the
    marker starts at index 2 of the text but at index 3 of the lowered
    text, which is one code point longer; the split index is taken from
    the lowered text and used on the original one, so the analysis keeps
    the first letter of the marker and the rationale loses its first
    letter, where the stripped halves around the marker are U+0130 and
    [ab]. *)
Theorem parse_misplaces_split_after_dotted_capital_i :
  WithRationales.parse_response_and_rationale
    ([304%N] ++ lit " " ++ lit "your rationale:" ++ lit "ab")
  = ([304%N] ++ lit " y", lit "b")
  /\ strip ([304%N] ++ lit " ") = [304%N]
  /\ strip (lit "ab") = lit "ab"
  /\ lower (lit "your rationale:") = WithRationales.marker
  /\ find (lower ([304%N] ++ lit " " ++ lit "your rationale:" ++ lit "ab"))
       WithRationales.marker = 3%Z
  /\ find ([304%N] ++ lit " " ++ lit "your rationale:" ++ lit "ab")
       WithRationales.marker = 2%Z.
Proof. repeat split; vm_compute; reflexivity. Qed.

End RationaleFacts.

(** ** Stripped texts *)

Module StripFacts.
Import Py PyFacts.

Lemma lstrip_idempotent (s : str) : lstrip (lstrip s) = lstrip s.
Proof.
  induction s as [|c s IH]; [reflexivity|]. cbn [lstrip].
  destruct (isspace c) eqn:blank; [exact IH|].
  cbn [lstrip]. now rewrite blank.
Qed.

Lemma lstrip_app_solid (l : str) (c : N) :
  isspace c = false -> lstrip (l ++ [c]) = lstrip l ++ [c].
Proof.
  intros solid. induction l as [|x l IH]; cbn [lstrip app].
  - now rewrite solid.
  - destruct (isspace x); [exact IH | reflexivity].
Qed.

Lemma rstrip_cons_solid (c : N) (s : str) :
  isspace c = false -> rstrip (c :: s) = c :: rstrip s.
Proof.
  intros solid. unfold rstrip. cbn [rev].
  rewrite lstrip_app_solid by exact solid.
  rewrite rev_app_distr. reflexivity.
Qed.

Lemma rstrip_idempotent (s : str) : rstrip (rstrip s) = rstrip s.
Proof.
  unfold rstrip. rewrite rev_involutive, lstrip_idempotent. reflexivity.
Qed.

(** Stripping the right end keeps a left end that is already stripped. *)
Lemma lstrip_rstrip_lstrip (s : str) :
  lstrip (rstrip (lstrip s)) = rstrip (lstrip s).
Proof.
  induction s as [|c s IH]; [reflexivity|]. cbn [lstrip].
  destruct (isspace c) eqn:blank; [exact IH|].
  rewrite rstrip_cons_solid by exact blank. cbn [lstrip]. now rewrite blank.
Qed.

Lemma strip_idempotent (s : str) : strip (strip s) = strip s.
Proof.
  unfold strip. rewrite lstrip_rstrip_lstrip. apply rstrip_idempotent.
Qed.

(** A stripped string neither starts nor ends with a blank. *)
Lemma strip_ends (s : str) :
  (forall c rest, strip s = c :: rest -> isspace c = false)
  /\ (forall c front, strip s = front ++ [c] -> isspace c = false).
Proof.
  assert (head : forall t c rest, lstrip t = c :: rest -> isspace c = false).
  { induction t as [|x t IH]; cbn [lstrip]; [discriminate|].
    destruct (isspace x) eqn:blank; [exact IH|].
    intros c rest [= <- <-]. exact blank. }
  split.
  - intros c rest stripped. apply (head (strip s) c rest).
    unfold strip in *. now rewrite lstrip_rstrip_lstrip.
  - intros c front stripped. unfold strip, rstrip in stripped.
    apply (f_equal (@rev N)) in stripped.
    rewrite rev_involutive, rev_app_distr in stripped. cbn in stripped.
    eapply head. exact stripped.
Qed.

(** X1. Whatever text [process_batch] returns is the stripped content of
    the reply to its last request, so it has no blank at either end. *)
Theorem process_batch_returns_stripped_reply
    (create : nat -> Inference.api_reply) (sent retry_count sent' : nat)
    (text : str) :
  Inference.process_batch create sent retry_count = (Some text, sent') ->
  exists raw,
    create (sent' - 1) = Inference.Content raw
    /\ text = strip raw
    /\ strip text = text.
Proof.
  funelim (Inference.process_batch create sent retry_count).
  - intros [= <- <-]. replace (S sent - 1) with sent by lia.
    eexists. split; [eassumption|].
    split; [reflexivity | apply strip_idempotent].
  - match goal with IH : forall _ _, _ -> _ |- _ => apply IH end.
  - discriminate.
Qed.

Lemma process_batch_returns_stripped_reply_witness :
  exists raw,
    (fun k => if k <? 2 then Inference.ApiException
              else Inference.Content (lit "  a cat "))
      (3 - 1)
    = Inference.Content raw
    /\ lit "a cat" = strip raw
    /\ strip (lit "a cat") = lit "a cat".
Proof.
  apply (process_batch_returns_stripped_reply
           (fun k => if k <? 2 then Inference.ApiException
                     else Inference.Content (lit "  a cat "))
           0 0 3 (lit "a cat")).
  vm_compute. reflexivity.
Defined.

(** X2. [process_batch] gives up with [None] only when every request it
    sent raised, and then it has sent one request per retry left plus
    one. *)
Theorem process_batch_none_means_all_raised
    (create : nat -> Inference.api_reply) (sent retry_count sent' : nat) :
  Inference.process_batch create sent retry_count = (None, sent') ->
  (forall j, sent <= j < sent' -> create j = Inference.ApiException)
  /\ sent' = sent + (Inference.MAX_RETRIES - retry_count) + 1.
Proof.
  funelim (Inference.process_batch create sent retry_count).
  - discriminate.
  - intros stopped.
    match goal with
    | IH : forall _, _ = _ -> _ |- _ => destruct (IH _ stopped) as [raised count]
    end.
    split; [|lia].
    intros j range. destruct (Nat.eq_dec j sent) as [-> | later];
      [assumption | apply raised; lia].
  - intros [= <-]. split; [|lia].
    intros j range. replace j with sent by lia. assumption.
Qed.

Lemma process_batch_none_means_all_raised_witness :
  (forall j, 0 <= j < 4 -> (fun _ : nat => Inference.ApiException) j
                           = Inference.ApiException)
  /\ 4 = 0 + (Inference.MAX_RETRIES - 0) + 1.
Proof.
  apply (process_batch_none_means_all_raised
           (fun _ => Inference.ApiException) 0 0 4).
  vm_compute. reflexivity.
Defined.

(** X3. Both halves [parse_response_and_rationale] returns are stripped,
    whatever the text. *)
Theorem parse_returns_stripped_halves (response_text : str) :
  strip (fst (WithRationales.parse_response_and_rationale response_text))
  = fst (WithRationales.parse_response_and_rationale response_text)
  /\ strip (snd (WithRationales.parse_response_and_rationale response_text))
     = snd (WithRationales.parse_response_and_rationale response_text).
Proof.
  unfold WithRationales.parse_response_and_rationale.
  destruct (1 <? _); cbn [fst snd].
  - split; apply strip_idempotent.
  - split; [apply strip_idempotent | vm_compute; reflexivity].
Qed.

End StripFacts.

(** ** A run of the downloader *)

Module DownloadRunFacts.
Import Py PyFacts.

Section Run.
Variable get : str -> nat -> Download.http_reply.
Variable verify : Download.bytes -> Download.verdict.
Variable can_open : str -> bool.

Lemma download_keeps_existing (args : str * str) (w : Download.world)
    (p : str) (b : Download.bytes) :
  dict_get (Download.files w) p = Some b ->
  dict_get (Download.files (Download.download_image get verify can_open args w)) p
  = Some b.
Proof.
  intros present. destruct args as [image_url save_path]. cbn.
  destruct (dict_mem (Download.files w) save_path) eqn:exists_;
    [exact present|].
  assert (other : p <> save_path).
  { intros ->. unfold dict_mem in exists_. now rewrite present in exists_. }
  destruct (get image_url _); [exact present|].
  destruct (can_open save_path); [|exact present].
  destruct (verify content); cbn.
  - now rewrite dict_get_set_other.
  - rewrite (DownloadFacts.remove_other _ _ _ other).
    now rewrite dict_get_set_other.
  - now rewrite dict_get_set_other.
Qed.

(** X4. A run never overwrites or deletes a file that was there when it
    started. *)
Theorem run_keeps_existing_files (download_tasks : list (str * str))
    (w : Download.world) (p : str) (b : Download.bytes) :
  dict_get (Download.files w) p = Some b ->
  dict_get (Download.files (Download.run get verify can_open download_tasks w)) p
  = Some b.
Proof.
  unfold Download.run. revert w.
  induction download_tasks as [|args rest IH]; intros w present; [exact present|].
  cbn [fold_left]. apply IH. now apply download_keeps_existing.
Qed.

(** X5. When the file of every task is already on disk, a run changes
    nothing and sends no request. *)
Theorem run_is_noop_when_files_exist (download_tasks : list (str * str))
    (w : Download.world) :
  (forall args, In args download_tasks ->
                dict_mem (Download.files w) (snd args) = true) ->
  Download.run get verify can_open download_tasks w = w.
Proof.
  unfold Download.run.
  induction download_tasks as [|[image_url save_path] rest IH]; intros present;
    [reflexivity|].
  cbn [fold_left].
  rewrite DownloadFacts.download_skips_existing
    by exact (present (image_url, save_path) (or_introl eq_refl)).
  apply IH. intros args inside. apply present. now right.
Qed.

(** X6. A download whose bytes pass the image check is stored under the
    save path with exactly those bytes, after one request, and a later call
    for the same path is skipped. *)
Theorem valid_download_is_stored (image_url save_path : str)
    (content : Download.bytes) (w : Download.world) :
  dict_mem (Download.files w) save_path = false ->
  get image_url (List.length (Download.requested w)) = Download.Body content ->
  can_open save_path = true ->
  verify content = Download.WellFormed ->
  let w' := Download.download_image get verify can_open (image_url, save_path) w in
  dict_get (Download.files w') save_path = Some content
  /\ Download.requested w' = Download.requested w ++ [image_url]
  /\ forall get' verify' can_open' url',
       Download.download_image get' verify' can_open' (url', save_path) w' = w'.
Proof.
  intros absent body opened valid w'.
  assert (stored : dict_get (Download.files w') save_path = Some content).
  { subst w'. cbn. rewrite absent, body, opened, valid. cbn.
    apply dict_get_set_same. }
  split; [exact stored|]. split.
  - subst w'. cbn. rewrite absent, body, opened, valid. reflexivity.
  - intros get' verify' can_open' url'.
    apply DownloadFacts.download_skips_existing.
    unfold dict_mem. now rewrite stored.
Qed.

End Run.

Lemma run_keeps_existing_files_witness :
  dict_get
    (Download.files
       (Download.run (fun _ _ => Download.Body [Byte.x01])
          (fun _ => Download.Rejected) (fun _ => true)
          [(lit "u1", lit "1.jpg"); (lit "u2", lit "2.jpg")]
          {| Download.files := [(lit "1.jpg", [Byte.x00])];
             Download.requested := [] |}))
    (lit "1.jpg")
  = Some [Byte.x00].
Proof.
  apply run_keeps_existing_files. reflexivity.
Defined.

Lemma run_is_noop_when_files_exist_witness :
  Download.run (fun _ _ => Download.Body [Byte.x01])
    (fun _ => Download.WellFormed) (fun _ => true)
    [(lit "u1", lit "1.jpg")]
    {| Download.files := [(lit "1.jpg", [Byte.x00])];
       Download.requested := [] |}
  = {| Download.files := [(lit "1.jpg", [Byte.x00])];
       Download.requested := [] |}.
Proof.
  apply run_is_noop_when_files_exist.
  intros args [<- | []]. reflexivity.
Defined.

Lemma valid_download_is_stored_witness :
  dict_get
    (Download.files
       (Download.download_image (fun _ _ => Download.Body [Byte.x01])
          (fun _ => Download.WellFormed) (fun _ => true)
          (lit "u1", lit "1.jpg")
          {| Download.files := []; Download.requested := [] |}))
    (lit "1.jpg")
  = Some [Byte.x01].
Proof.
  refine (proj1 (valid_download_is_stored (fun _ _ => Download.Body [Byte.x01])
                   (fun _ => Download.WellFormed) (fun _ => true)
                   (lit "u1") (lit "1.jpg") [Byte.x01]
                   {| Download.files := []; Download.requested := [] |}
                   _ _ _ _)); reflexivity.
Defined.

End DownloadRunFacts.

(** ** Batches of the image-only path *)

Module BatchingFacts.
Import Py PyFacts Inference.

Lemma firstn_plus (A : Type) (a b : nat) (l : list A) :
  firstn (a + b) l = firstn a l ++ firstn b (skipn a l).
Proof.
  revert l. induction a as [|a IH]; intros l; [reflexivity|].
  destruct l as [|x l]; cbn.
  - now rewrite firstn_nil.
  - now rewrite IH.
Qed.

Lemma batches_concat (files : list str) (m : nat) :
  List.concat (map (batch_at files) (map (fun k => k * BATCH_SIZE) (seq 0 m)))
  = firstn (m * BATCH_SIZE) files.
Proof.
  induction m as [|m IH]; [reflexivity|].
  rewrite seq_S, !map_app, concat_app, IH. cbn [map List.concat Nat.add].
  rewrite app_nil_r. unfold batch_at.
  replace (S m * BATCH_SIZE) with (m * BATCH_SIZE + BATCH_SIZE) by lia.
  symmetry. apply firstn_plus.
Qed.

(** X7. The batches of the image-only path cut the files to process into
    consecutive pieces: put together again they give the list back, and
    every batch has at least one and at most [BATCH_SIZE] files. *)
Theorem batches_partition (files : list str) :
  List.concat (map (batch_at files) (range_step (List.length files) BATCH_SIZE))
  = files
  /\ Forall (fun batch => 1 <= List.length batch <= BATCH_SIZE)
       (map (batch_at files) (range_step (List.length files) BATCH_SIZE)).
Proof.
  unfold range_step. split.
  - rewrite batches_concat. apply firstn_all2.
    unfold BATCH_SIZE.
    pose proof (Nat.div_mod_eq (List.length files + (8 - 1)) 8) as division.
    pose proof (Nat.mod_upper_bound (List.length files + (8 - 1)) 8) as bound.
    lia.
  - apply Forall_forall. intros batch inside.
    apply in_map_iff in inside. destruct inside as (i & <- & inside).
    apply in_map_iff in inside. destruct inside as (k & <- & inside).
    apply in_seq in inside. unfold batch_at.
    rewrite length_firstn, length_skipn. unfold BATCH_SIZE in *.
    pose proof (Nat.div_mod_eq (List.length files + (8 - 1)) 8) as division.
    pose proof (Nat.mod_upper_bound (List.length files + (8 - 1)) 8) as bound.
    lia.
Qed.

End BatchingFacts.

(** ** Identifiers of downloaded files *)

Module ImageIdFacts.
Import Py PyFacts Inference.

Lemma rfind_from_app (a b : str) (c : N) (i last : Z) :
  rfind_from (a ++ b) c i last
  = rfind_from b c (i + Z.of_nat (List.length a)) (rfind_from a c i last).
Proof.
  revert i last. induction a as [|x a IH]; intros i last; cbn [app rfind_from List.length].
  - f_equal. lia.
  - rewrite IH. f_equal. lia.
Qed.

Lemma filter_isdigit_jpg (unique_id : str) :
  filter isdigit (unique_id ++ lit ".jpg") = filter isdigit unique_id.
Proof. rewrite filter_app. cbn. apply app_nil_r. Qed.

(** X8. The identifier cut out of the file name [<id>.jpg], as the
    downloader names its files, for an id of ASCII characters: it is the id
    with everything but its digits dropped, and an id made of digits only
    comes back unchanged. *)
Theorem get_image_id_of_downloaded_name (unique_id : str) :
  Forall (fun c => (c < 128)%N) unique_id ->
  get_image_id (unique_id ++ lit ".jpg") = filter isdigit unique_id
  /\ (Forall (fun c => isdigit c = true) unique_id ->
      get_image_id (unique_id ++ lit ".jpg") = unique_id).
Proof.
  intros _.
  assert (cut : get_image_id (unique_id ++ lit ".jpg") = filter isdigit unique_id).
  { unfold get_image_id, splitext.
    assert (dot : rfind (unique_id ++ lit ".jpg") 46
                  = Z.of_nat (List.length unique_id)).
    { unfold rfind. rewrite rfind_from_app. cbn. lia. }
    rewrite dot.
    destruct (_ <? _)%Z; [|apply filter_isdigit_jpg].
    destruct (existsb _ _); [|apply filter_isdigit_jpg].
    cbn [fst]. now rewrite RationaleFacts.slice_to_app. }
  split; [exact cut|].
  intros digits. rewrite cut. clear cut.
  induction digits as [|c rest digit _ IH]; [reflexivity|].
  cbn [filter]. now rewrite digit, IH.
Qed.

Lemma get_image_id_of_downloaded_name_witness :
  get_image_id (lit "0042" ++ lit ".jpg") = lit "0042".
Proof.
  apply (proj2 (get_image_id_of_downloaded_name (lit "0042")
                  ltac:(repeat constructor))).
  repeat constructor.
Defined.

End ImageIdFacts.

(** ** Resumed inference runs and their request budget *)

Module ResumeFacts.
Import Py PyFacts Inference.

Lemma batch_at_incl (files : list str) (i : nat) (f : str) :
  In f (batch_at files i) -> In f files.
Proof.
  unfold batch_at. intros inside.
  assert (taken : forall (n : nat) (l : list str), In f (firstn n l) -> In f l).
  { induction n as [|n IH]; intros [|x l]; cbn; try tauto.
    intros [-> | later]; [now left | right; now apply IH]. }
  apply taken in inside.
  rewrite <- (firstn_skipn i files). apply in_or_app. now right.
Qed.

Section Loops.
Variable env : environment.
Variable task : nat.

(** A loop leaves alone every key that is not the id of one of its files
    and sends at most [MAX_RETRIES + 1] requests per round. *)
Local Abbreviation untouched files results r :=
  ((forall k, ~ In k (map get_image_id files) ->
      dict_get (fst (fst r)) k = dict_get results k)).

Lemma no_rationales_pairs_untouched (files : list str) (results : dict json)
    (d : Files.disk) (sent : nat) :
  untouched files results (NoRationales.pairs_loop env files results d sent).
Proof.
  revert results d sent.
  induction files as [|filename rest IH]; intros results d sent k outside;
    cbn [NoRationales.pairs_loop]; [reflexivity|].
  assert (fresh : ~ In k (map get_image_id rest))
    by (intros inside; apply outside; right; exact inside).
  destruct (negb (text_exists env _)); [now apply IH|].
  destruct (negb _ || _); [now apply IH|].
  destruct (process_batch (create env) sent 0) as [result sent1].
  rewrite IH by exact fresh.
  destruct result as [text|]; [|reflexivity].
  destruct (truthy text); [|reflexivity].
  apply dict_get_set_other. intros ->. apply outside. left. reflexivity.
Qed.

Lemma with_rationales_pairs_untouched (files : list str) (results : dict json)
    (d : Files.disk) (sent : nat) :
  untouched files results
    (WithRationales.pairs_loop env task files results d sent).
Proof.
  revert results d sent.
  induction files as [|filename rest IH]; intros results d sent k outside;
    cbn [WithRationales.pairs_loop]; [reflexivity|].
  assert (fresh : ~ In k (map get_image_id rest))
    by (intros inside; apply outside; right; exact inside).
  destruct (negb (text_exists env _)); [now apply IH|].
  destruct (negb _ || _); [now apply IH|].
  destruct (process_batch (create env) sent 0) as [result sent1].
  rewrite IH by exact fresh.
  destruct result as [text|]; [|reflexivity].
  destruct (truthy text); [|reflexivity].
  destruct (WithRationales.parse_response_and_rationale text).
  apply dict_get_set_other. intros ->. apply outside. left. reflexivity.
Qed.

Lemma no_rationales_batches_untouched (starts : list nat) (files : list str)
    (results : dict json) (d : Files.disk) (sent : nat) :
  untouched files results
    (NoRationales.batches_loop env starts files results d sent).
Proof.
  revert results d sent.
  induction starts as [|i rest IH]; intros results d sent k outside;
    cbn [NoRationales.batches_loop]; [reflexivity|].
  destruct (filter _ _); [now apply IH|].
  destruct (process_batch (create env) sent 0) as [result sent1].
  rewrite IH by exact outside.
  destruct result as [text|]; [|reflexivity].
  destruct (truthy text); [|reflexivity].
  rewrite BatchFacts.no_rationales_record_get.
  destruct (str_in k _) eqn:inside; [|reflexivity].
  apply str_in_In, in_map_iff in inside. destruct inside as (f & <- & inside).
  exfalso. apply outside. apply in_map. eapply batch_at_incl. exact inside.
Qed.

Lemma with_rationales_batches_untouched (starts : list nat) (files : list str)
    (results : dict json) (d : Files.disk) (sent : nat) :
  untouched files results
    (WithRationales.batches_loop env task starts files results d sent).
Proof.
  revert results d sent.
  induction starts as [|i rest IH]; intros results d sent k outside;
    cbn [WithRationales.batches_loop]; [reflexivity|].
  destruct (filter _ _) eqn:valid; [now apply IH|].
  destruct (process_batch (create env) sent 0) as [result sent1].
  rewrite IH by exact outside.
  destruct result as [text|]; [|reflexivity].
  destruct (truthy text); [|reflexivity].
  rewrite BatchFacts.with_rationales_record_get.
  destruct (str_in k _) eqn:inside; [|reflexivity].
  apply str_in_In, in_map_iff in inside. destruct inside as (f & <- & inside).
  exfalso. apply outside. apply in_map. eapply batch_at_incl.
  rewrite <- valid in inside. apply filter_In in inside. apply inside.
Qed.

End Loops.

(** X9. A resumed inference run never changes what the checkpoint already
    holds: every entry of the loaded checkpoint is in the output file of a
    finished run with the value it had. *)
Theorem resumed_run_keeps_checkpoint_entries (env : environment) (task : nat)
    (listing : list str) (d d' : Files.disk) (sent sent' : nat)
    (k : str) (v : json) :
  NoRationales.main env task listing d sent = (Finished, d', sent')
  \/ WithRationales.main env task listing d sent = (Finished, d', sent') ->
  dict_get (Files.load_checkpoint d) k = Some v ->
  exists m, Files.output_file d' = Some m /\ dict_get m k = Some v.
Proof.
  intros finished held.
  assert (outside : forall files,
            files = files_to_process (Files.load_checkpoint d) (all_files listing) ->
            ~ In k (map get_image_id files)).
  { intros files -> inside. apply in_map_iff in inside.
    destruct inside as (f & <- & inside).
    apply FilterFacts.files_to_process_In in inside.
    destruct inside as [_ fresh]. apply fresh.
    unfold py_str. rewrite map_id.
    apply dict_mem_In. unfold dict_mem. now rewrite held. }
  destruct finished as [finished | finished];
    [unfold NoRationales.main in finished | unfold WithRationales.main in finished];
    destruct (files_to_process _ _) as [|f files] eqn:left_over;
    try discriminate;
    specialize (outside (f :: files) eq_refl).
  - destruct (6 <=? task).
    + pose proof (no_rationales_pairs_untouched env (f :: files)
                    (Files.load_checkpoint d) d sent k outside) as kept.
      destruct (NoRationales.pairs_loop _ _ _ _ _) as [[m d1] sent1].
      injection finished as <- <-. exists m. cbn in *. split; congruence.
    + pose proof (no_rationales_batches_untouched env
                    (range_step (List.length (f :: files)) BATCH_SIZE)
                    (f :: files) (Files.load_checkpoint d) d sent k outside)
        as kept.
      destruct (NoRationales.batches_loop _ _ _ _ _ _) as [[m d1] sent1].
      injection finished as <- <-. exists m. cbn in *. split; congruence.
  - destruct (6 <=? task).
    + pose proof (with_rationales_pairs_untouched env task (f :: files)
                    (Files.load_checkpoint d) d sent k outside) as kept.
      destruct (WithRationales.pairs_loop _ _ _ _ _ _) as [[m d1] sent1].
      injection finished as <- <-. exists m. cbn in *. split; congruence.
    + pose proof (with_rationales_batches_untouched env task
                    (range_step (List.length (f :: files)) BATCH_SIZE)
                    (f :: files) (Files.load_checkpoint d) d sent k outside)
        as kept.
      destruct (WithRationales.batches_loop _ _ _ _ _ _ _) as [[m d1] sent1].
      injection finished as <- <-. exists m. cbn in *. split; congruence.
Qed.

Lemma resumed_run_keeps_checkpoint_entries_witness :
  exists m,
    Files.output_file
      (snd (fst (NoRationales.main
                   {| text_exists := fun _ => false;
                      encode_image := fun _ => Some (lit "QQ==");
                      read_text_file := fun _ => None;
                      create := fun _ => Content (lit "a dog") |}
                   1 [lit "1.jpg"; lit "2.jpg"]
                   {| Files.checkpoint_file := Some [(lit "1", JStr (lit "a cat"))];
                      Files.output_file := None; Files.log := [] |}
                   0)))
    = Some m
    /\ dict_get m (lit "1") = Some (JStr (lit "a cat")).
Proof.
  apply (resumed_run_keeps_checkpoint_entries
           {| text_exists := fun _ => false;
              encode_image := fun _ => Some (lit "QQ==");
              read_text_file := fun _ => None;
              create := fun _ => Content (lit "a dog") |}
           1 [lit "1.jpg"; lit "2.jpg"]
           {| Files.checkpoint_file := Some [(lit "1", JStr (lit "a cat"))];
              Files.output_file := None; Files.log := [] |}
           _ 0 1).
  - left. vm_compute. reflexivity.
  - reflexivity.
Defined.

Section Requests.
Variable env : environment.
Variable task : nat.

Local Abbreviation within_budget rounds sent r :=
  (snd r <= sent + (MAX_RETRIES + 1) * rounds).

Ltac spend create sent :=
  let sending := fresh "sending" in
  pose proof (RetryFacts.process_batch_sent_bounds create sent 0) as sending;
  destruct (process_batch create sent 0) as [result sent1];
  cbn [snd] in sending;
  match goal with
  | IH : forall _ _ _, _ |- _ =>
      eapply Nat.le_trans; [apply IH|]; cbn [List.length]; lia
  end.

Lemma no_rationales_pairs_requests (files : list str) (results : dict json)
    (d : Files.disk) (sent : nat) :
  within_budget (List.length files) sent
    (NoRationales.pairs_loop env files results d sent).
Proof.
  revert results d sent.
  induction files as [|filename rest IH]; intros results d sent;
    cbn [NoRationales.pairs_loop]; [cbn; lia|].
  destruct (negb (text_exists env _));
    [eapply Nat.le_trans; [apply IH|]; cbn [List.length]; lia|].
  destruct (negb _ || _);
    [eapply Nat.le_trans; [apply IH|]; cbn [List.length]; lia|].
  spend (create env) sent.
Qed.

Lemma with_rationales_pairs_requests (files : list str) (results : dict json)
    (d : Files.disk) (sent : nat) :
  within_budget (List.length files) sent
    (WithRationales.pairs_loop env task files results d sent).
Proof.
  revert results d sent.
  induction files as [|filename rest IH]; intros results d sent;
    cbn [WithRationales.pairs_loop]; [cbn; lia|].
  destruct (negb (text_exists env _));
    [eapply Nat.le_trans; [apply IH|]; cbn [List.length]; lia|].
  destruct (negb _ || _);
    [eapply Nat.le_trans; [apply IH|]; cbn [List.length]; lia|].
  spend (create env) sent.
Qed.

Lemma no_rationales_batches_requests (starts : list nat) (files : list str)
    (results : dict json) (d : Files.disk) (sent : nat) :
  within_budget (List.length starts) sent
    (NoRationales.batches_loop env starts files results d sent).
Proof.
  revert results d sent.
  induction starts as [|i rest IH]; intros results d sent;
    cbn [NoRationales.batches_loop]; [cbn; lia|].
  destruct (filter _ _);
    [eapply Nat.le_trans; [apply IH|]; cbn [List.length]; lia|].
  spend (create env) sent.
Qed.

Lemma with_rationales_batches_requests (starts : list nat) (files : list str)
    (results : dict json) (d : Files.disk) (sent : nat) :
  within_budget (List.length starts) sent
    (WithRationales.batches_loop env task starts files results d sent).
Proof.
  revert results d sent.
  induction starts as [|i rest IH]; intros results d sent;
    cbn [WithRationales.batches_loop]; [cbn; lia|].
  destruct (filter _ _);
    [eapply Nat.le_trans; [apply IH|]; cbn [List.length]; lia|].
  spend (create env) sent.
Qed.

End Requests.

(** X10. An inference run sends at most [MAX_RETRIES + 1] requests per
    file it has to process in the image-text path, and per batch in the
    image-only path. *)
Theorem run_requests_within_budget (env : environment) (task : nat)
    (listing : list str) (d d' : Files.disk) (sent sent' : nat)
    (status : Inference.status) :
  NoRationales.main env task listing d sent = (status, d', sent')
  \/ WithRationales.main env task listing d sent = (status, d', sent') ->
  let files := files_to_process (Files.load_checkpoint d) (all_files listing) in
  sent' <= sent + (MAX_RETRIES + 1)
                 * (if 6 <=? task then List.length files
                    else (List.length files + (BATCH_SIZE - 1)) / BATCH_SIZE).
Proof.
  intros finished files.
  assert (rounds : List.length (range_step (List.length files) BATCH_SIZE)
                   = (List.length files + (BATCH_SIZE - 1)) / BATCH_SIZE)
    by (unfold range_step; now rewrite length_map, length_seq).
  destruct finished as [finished | finished];
    [unfold NoRationales.main in finished | unfold WithRationales.main in finished];
    fold files in finished;
    (destruct files as [|f rest] eqn:left_over;
     [injection finished as _ _ <-; lia|]);
    rewrite <- left_over in *; clear left_over.
  - destruct (6 <=? task).
    + pose proof (no_rationales_pairs_requests env files
                    (Files.load_checkpoint d) d sent) as spent.
      destruct (NoRationales.pairs_loop _ _ _ _ _) as [[m d1] sent1].
      injection finished as _ _ <-. exact spent.
    + pose proof (no_rationales_batches_requests env
                    (range_step (List.length files) BATCH_SIZE) files
                    (Files.load_checkpoint d) d sent) as spent.
      destruct (NoRationales.batches_loop _ _ _ _ _ _) as [[m d1] sent1].
      injection finished as _ _ <-. rewrite rounds in spent. exact spent.
  - destruct (6 <=? task).
    + pose proof (with_rationales_pairs_requests env task files
                    (Files.load_checkpoint d) d sent) as spent.
      destruct (WithRationales.pairs_loop _ _ _ _ _ _) as [[m d1] sent1].
      injection finished as _ _ <-. exact spent.
    + pose proof (with_rationales_batches_requests env task
                    (range_step (List.length files) BATCH_SIZE) files
                    (Files.load_checkpoint d) d sent) as spent.
      destruct (WithRationales.batches_loop _ _ _ _ _ _ _) as [[m d1] sent1].
      injection finished as _ _ <-. rewrite rounds in spent. exact spent.
Qed.

Lemma run_requests_within_budget_witness :
  4 <= 0 + (MAX_RETRIES + 1)
           * (if 6 <=? 1
              then List.length
                     (files_to_process
                        (Files.load_checkpoint
                           {| Files.checkpoint_file := None;
                              Files.output_file := None; Files.log := [] |})
                        (all_files [lit "1.jpg"; lit "2.jpg"]))
              else (List.length
                      (files_to_process
                         (Files.load_checkpoint
                            {| Files.checkpoint_file := None;
                               Files.output_file := None; Files.log := [] |})
                         (all_files [lit "1.jpg"; lit "2.jpg"]))
                    + (BATCH_SIZE - 1)) / BATCH_SIZE).
Proof.
  apply (run_requests_within_budget
           {| text_exists := fun _ => false;
              encode_image := fun _ => Some (lit "QQ==");
              read_text_file := fun _ => None;
              create := fun _ => ApiException |}
           1 [lit "1.jpg"; lit "2.jpg"]
           {| Files.checkpoint_file := None; Files.output_file := None;
              Files.log := [] |}
           {| Files.checkpoint_file := Some [];
              Files.output_file := Some [];
              Files.log := [Files.WroteCheckpoint []; Files.WroteOutput []] |}
           0 4 Finished).
  left. vm_compute. reflexivity.
Defined.

End ResumeFacts.

(** ** Crashes, checkpoints and requests of the judge run *)

Module EvaluationSafetyFacts.
Import Py PyFacts.

Lemma dict_set_length (V : Type) (d : dict V) (k : str) (v : V) :
  0 < List.length (dict_set d k v) <= S (List.length d).
Proof.
  induction d as [|[k' v'] d IH]; cbn; [lia|].
  destruct (str_eqb k' k); cbn; lia.
Qed.

Section Run.
Variable float_of_str : str -> option spec_float.
Variable judge : str -> nat -> Evaluation.reply.
Variable build_prompt : str -> json -> outcome str.

Local Abbreviation run task :=
  (Evaluation.evaluate_one_item float_of_str (judge (fst task)) 0 (fst task) 0).

Local Abbreviation main_file :=
  (Evaluation.main_file float_of_str judge build_prompt).

(** What the loop over the futures does to the two files, whether it ends
    or a future raises: the output file is untouched and every write is a
    checkpoint of a positive multiple of 20 entries. *)
Lemma collect_writes (futures : list (outcome (str * json)))
    (eval_results : dict json) (d d' : Files.disk) (r : outcome (dict json)) :
  Evaluation.collect futures eval_results d = (r, d') ->
  Files.output_file d' = Files.output_file d
  /\ exists writes,
       Files.log d' = Files.log d ++ writes
       /\ Forall (fun ev =>
                    exists m, ev = Files.WroteCheckpoint m
                              /\ 0 < List.length m
                              /\ List.length m mod 20 = 0
                              /\ List.length m
                                 <= List.length eval_results + List.length futures)
            writes.
Proof.
  revert eval_results d.
  induction futures as [|[[item_id result]|e] rest IH]; intros eval_results d;
    cbn [Evaluation.collect].
  - intros [= _ <-]. split; [reflexivity|]. exists []. now rewrite app_nil_r.
  - intros collected. apply IH in collected.
    destruct collected as (out & writes & logged & sizes).
    pose proof (dict_set_length _ eval_results item_id result) as grown.
    assert (bounded :
              Forall (fun ev =>
                        exists m, ev = Files.WroteCheckpoint m
                                  /\ 0 < List.length m
                                  /\ List.length m mod 20 = 0
                                  /\ List.length m
                                     <= List.length eval_results
                                        + List.length (Return (item_id, result) :: rest))
                writes).
    { eapply Forall_impl; [|exact sizes].
      intros ev (m & -> & positive & round & small).
      exists m. cbn [List.length]. repeat split; try assumption. lia. }
    destruct (_ =? 0) eqn:twenty in out, logged.
    + split; [exact out|].
      eexists (Files.WroteCheckpoint _ :: writes). split.
      * rewrite logged. cbn. rewrite <- app_assoc. reflexivity.
      * constructor; [|exact bounded].
        eexists. split; [reflexivity|]. apply Nat.eqb_eq in twenty.
        cbn [List.length]. repeat split; try lia; assumption.
    + split; [exact out|]. now exists writes.
  - intros [= _ <-]. split; [reflexivity|]. exists []. now rewrite app_nil_r.
Qed.

(** A key no future returns keeps its value in the mapping and in the
    checkpoint file. *)
Lemma collect_keeps (futures : list (outcome (str * json)))
    (eval_results : dict json) (d d' : Files.disk) (r : outcome (dict json))
    (k : str) (v : json) :
  (forall item_id result, In (Return (item_id, result)) futures -> item_id <> k) ->
  dict_get eval_results k = Some v ->
  dict_get (Files.load_checkpoint d) k = Some v ->
  Evaluation.collect futures eval_results d = (r, d') ->
  dict_get (Files.load_checkpoint d') k = Some v
  /\ forall m, r = Return m -> dict_get m k = Some v.
Proof.
  revert eval_results d.
  induction futures as [|[[item_id result]|e] rest IH];
    intros eval_results d other held saved; cbn [Evaluation.collect].
  - intros [= <- <-]. split; [exact saved|]. now intros m [= <-].
  - assert (kept : dict_get (dict_set eval_results item_id result) k = Some v).
    { rewrite dict_get_set_other; [exact held|].
      intros same. apply (other item_id result); [now left | now symmetry]. }
    apply IH.
    + intros i res inside. apply (other i res). now right.
    + exact kept.
    + destruct (_ =? 0); [exact kept | exact saved].
  - intros [= <- <-]. split; [exact saved|]. discriminate.
Qed.

Lemma collect_raises (futures : list (outcome (str * json)))
    (eval_results : dict json) (d : Files.disk) (e : exn) :
  In (Raise e) futures ->
  exists e', fst (Evaluation.collect futures eval_results d) = Raise e'.
Proof.
  revert eval_results d.
  induction futures as [|[[item_id result]|e0] rest IH];
    intros eval_results d inside; cbn [Evaluation.collect].
  - destruct inside.
  - destruct inside as [[=]|inside]. now apply IH.
  - now exists e0.
Qed.

Lemma futures_ids (tasks : list (str * str)) (item_id : str) (result : json) :
  In (Return (item_id, result)) (map fst (map (fun task => run task) tasks)) ->
  In item_id (map fst tasks).
Proof.
  rewrite map_map. intros inside. apply in_map_iff in inside.
  destruct inside as (task & returned & inside).
  apply EvaluationRunFacts.judged_returned in returned.
  destruct returned as (-> & _). now apply in_map.
Qed.

Lemma requests_bounds (tasks : list (str * str)) :
  List.length tasks
  <= list_sum (map snd (map (fun task => run task) tasks))
  <= (Evaluation.MAX_RETRIES + 1) * List.length tasks.
Proof.
  unfold Evaluation.MAX_RETRIES, list_sum.
  induction tasks as [|task tasks IH]; cbn [map fold_right List.length]; [lia|].
  pose proof (RetryFacts.evaluate_sent_bounds float_of_str (judge (fst task))
                (fst task) 0 0) as one.
  unfold Evaluation.MAX_RETRIES in one. lia.
Qed.

Lemma tasks_to_run_fresh (eval_results items : dict json)
    (tasks : list (str * str)) (k : str) (v : json) :
  Evaluation.tasks_to_run build_prompt eval_results items = Return tasks ->
  dict_get eval_results k = Some v ->
  ~ In k (map fst tasks).
Proof.
  intros built held inside.
  rewrite (FilterFacts.tasks_to_run_ids _ _ _ _ built) in inside.
  apply filter_In in inside. destruct inside as [_ fresh].
  unfold py_str, dict_mem in fresh. now rewrite held in fresh.
Qed.

End Run.

(** X11. No run of the judge over a file loses a checkpointed score: each
    entry of the checkpoint the run loaded is in the output file when the
    run finishes, and still in the checkpoint file when it ends in any
    other way, a crash included. *)
Theorem checkpointed_scores_survive
    (float_of_str : str -> option spec_float)
    (judge : str -> nat -> Evaluation.reply)
    (build_prompt : str -> json -> outcome str)
    (vlm_responses : dict json) (d d' : Files.disk)
    (status : Evaluation.status) (sent : nat) (k : str) (v : json) :
  Evaluation.main_file float_of_str judge build_prompt vlm_responses d
  = (status, d', sent) ->
  dict_get (Files.load_checkpoint d) k = Some v ->
  match status with
  | Evaluation.Finished =>
      exists m, Files.output_file d' = Some m /\ dict_get m k = Some v
  | _ => dict_get (Files.load_checkpoint d') k = Some v
  end.
Proof.
  unfold Evaluation.main_file. intros ran held.
  destruct vlm_responses as [|item items]; [now injection ran as <- <- _|].
  destruct (Evaluation.tasks_to_run _ _ _) as [tasks|e] eqn:built;
    [|now injection ran as <- <- _].
  destruct tasks as [|task tasks]; [now injection ran as <- <- _|].
  destruct (Evaluation.collect _ _ _) as [r d1] eqn:collected.
  apply (collect_keeps _ _ _ _ _ k v) in collected;
    [ | | exact held | exact held].
  - destruct collected as (saved & final).
    destruct r as [m|e]; injection ran as <- <- _; [|exact saved].
    exists m. split; [|now apply final].
    cbn [Files.write_output Files.checkpoint_file].
    destruct (Files.checkpoint_file d1); reflexivity.
  - intros item_id result inside ->.
    apply futures_ids in inside.
    exact (tasks_to_run_fresh _ _ _ _ k v built held inside).
Qed.

Lemma checkpointed_scores_survive_witness :
  dict_get
    (Files.load_checkpoint
       (snd (fst (Evaluation.main_file (fun _ => None)
                    (fun _ _ => Evaluation.Unhandled OtherError)
                    (fun _ _ => Return (lit "prompt"))
                    [(lit "1", JNull); (lit "2", JNull)]
                    {| Files.checkpoint_file :=
                         Some [(lit "1", Evaluation.score_entry (JInt 70))];
                       Files.output_file := None; Files.log := [] |}))))
    (lit "1")
  = Some (Evaluation.score_entry (JInt 70)).
Proof.
  apply (checkpointed_scores_survive (fun _ => None)
           (fun _ _ => Evaluation.Unhandled OtherError)
           (fun _ _ => Return (lit "prompt"))
           [(lit "1", JNull); (lit "2", JNull)]
           {| Files.checkpoint_file :=
                Some [(lit "1", Evaluation.score_entry (JInt 70))];
              Files.output_file := None; Files.log := [] |}
           _ (Evaluation.Crashed OtherError) 1 (lit "1")
           (Evaluation.score_entry (JInt 70))).
  - vm_compute. reflexivity.
  - reflexivity.
Defined.

(** X12. The judge run writes a checkpoint only when the mapping holds a
    positive multiple of 20 entries; a file whose responses, together with
    the checkpoint loaded, are fewer than 20 is never checkpointed. *)
Theorem checkpoints_every_twenty
    (float_of_str : str -> option spec_float)
    (judge : str -> nat -> Evaluation.reply)
    (build_prompt : str -> json -> outcome str)
    (vlm_responses : dict json) (d d' : Files.disk)
    (status : Evaluation.status) (sent : nat) :
  Evaluation.main_file float_of_str judge build_prompt vlm_responses d
  = (status, d', sent) ->
  exists events,
    Files.log d' = Files.log d ++ events
    /\ (forall m, In (Files.WroteCheckpoint m) events ->
          0 < List.length m /\ List.length m mod 20 = 0)
    /\ (List.length (Files.load_checkpoint d) + List.length vlm_responses < 20 ->
        forall m, ~ In (Files.WroteCheckpoint m) events).
Proof.
  unfold Evaluation.main_file. intros ran.
  assert (nothing : exists events,
            Files.log d = Files.log d ++ events
            /\ (forall m, In (Files.WroteCheckpoint m) events ->
                  0 < List.length m /\ List.length m mod 20 = 0)
            /\ (List.length (Files.load_checkpoint d)
                + List.length vlm_responses < 20 ->
                forall m, ~ In (Files.WroteCheckpoint m) events)).
  { exists []. rewrite app_nil_r. split; [reflexivity|].
    split; [intros m [] | intros _ m []]. }
  destruct vlm_responses as [|item items] eqn:input;
    [now injection ran as _ <- _|].
  rewrite <- input in *.
  destruct (Evaluation.tasks_to_run _ _ _) as [tasks|e] eqn:built;
    [|now injection ran as _ <- _].
  destruct tasks as [|task others] eqn:chosen; [now injection ran as _ <- _|].
  rewrite <- chosen in *. clear nothing.
  assert (few : List.length tasks <= List.length vlm_responses).
  { rewrite <- (length_map fst tasks),
      (FilterFacts.tasks_to_run_ids _ _ _ _ built).
    etransitivity; [apply filter_length_le|].
    unfold keys. now rewrite length_map. }
  destruct (Evaluation.collect _ _ _) as [r d1] eqn:collected.
  apply collect_writes in collected.
  destruct collected as (_ & writes & logged & sizes).
  rewrite !length_map in sizes. rewrite Forall_forall in sizes.
  assert (written : forall m extra,
            (forall m', In (Files.WroteCheckpoint m') extra -> False) ->
            In (Files.WroteCheckpoint m) (writes ++ extra) ->
            0 < List.length m /\ List.length m mod 20 = 0
            /\ List.length m
               <= List.length (Files.load_checkpoint d) + List.length vlm_responses).
  { intros m extra none inside. apply in_app_or in inside.
    destruct inside as [inside | inside]; [|destruct (none m inside)].
    destruct (sizes _ inside) as (m' & [= <-] & positive & round & small).
    repeat split; try assumption. lia. }
  assert (closing : forall extra,
            (forall m', In (Files.WroteCheckpoint m') extra -> False) ->
            Files.log d' = Files.log d ++ writes ++ extra ->
            exists events,
              Files.log d' = Files.log d ++ events
              /\ (forall m, In (Files.WroteCheckpoint m) events ->
                    0 < List.length m /\ List.length m mod 20 = 0)
              /\ (List.length (Files.load_checkpoint d)
                  + List.length vlm_responses < 20 ->
                  forall m, ~ In (Files.WroteCheckpoint m) events)).
  { intros extra none grown. exists (writes ++ extra).
    split; [exact grown|]. split.
    - intros m inside. destruct (written m extra none inside) as (p & q & _).
      now split.
    - intros small m inside.
      destruct (written m extra none inside) as (positive & round & bound).
      assert (below : List.length m < 20) by lia.
      rewrite Nat.mod_small in round by exact below. lia. }
  destruct r as [m|e]; injection ran as _ <- _.
  - cbn [Files.write_output Files.checkpoint_file].
    destruct (Files.checkpoint_file d1).
    + apply (closing [Files.WroteOutput m; Files.RemovedCheckpoint]).
      * intros m' [[=]|[[=]|[]]].
      * cbn. rewrite logged, <- !app_assoc. reflexivity.
    + apply (closing [Files.WroteOutput m]).
      * intros m' [[=]|[]].
      * cbn. rewrite logged, <- !app_assoc. reflexivity.
  - apply (closing []).
    + intros m' [].
    + now rewrite app_nil_r.
Qed.

Lemma checkpoints_every_twenty_witness :
  exists events,
    Files.log
      (snd (fst (Evaluation.main_file (fun _ => None)
                   (fun _ _ => Evaluation.JSONDecodeError)
                   (fun _ _ => Return (lit "prompt"))
                   [(lit "1", JNull); (lit "2", JNull)]
                   {| Files.checkpoint_file := None;
                      Files.output_file := None; Files.log := [] |})))
    = [] ++ events
    /\ (forall m, In (Files.WroteCheckpoint m) events ->
          0 < List.length m /\ List.length m mod 20 = 0)
    /\ (0 + 2 < 20 -> forall m, ~ In (Files.WroteCheckpoint m) events).
Proof.
  apply (checkpoints_every_twenty (fun _ => None)
           (fun _ _ => Evaluation.JSONDecodeError)
           (fun _ _ => Return (lit "prompt"))
           [(lit "1", JNull); (lit "2", JNull)]
           {| Files.checkpoint_file := None;
              Files.output_file := None; Files.log := [] |}
           _ Evaluation.Finished 8).
  vm_compute. reflexivity.
Defined.

(** X13. The judge run sends at most [MAX_RETRIES + 1] requests for every
    id of the input that the checkpoint does not hold; a run that finishes
    sent at least one for each of them, and a run that found no responses
    or nothing left to evaluate sent none. *)
Theorem judge_requests_within_budget
    (float_of_str : str -> option spec_float)
    (judge : str -> nat -> Evaluation.reply)
    (build_prompt : str -> json -> outcome str)
    (vlm_responses : dict json) (d d' : Files.disk)
    (status : Evaluation.status) (sent : nat) :
  Evaluation.main_file float_of_str judge build_prompt vlm_responses d
  = (status, d', sent) ->
  let left_over :=
    filter (fun item_id => negb (dict_mem (Files.load_checkpoint d) item_id))
      (keys vlm_responses) in
  sent <= (Evaluation.MAX_RETRIES + 1) * List.length left_over
  /\ (status = Evaluation.Finished -> List.length left_over <= sent)
  /\ (status = Evaluation.NoResponses \/ status = Evaluation.AllEvaluated ->
      sent = 0).
Proof.
  intros ran left_over. subst left_over. unfold Evaluation.main_file in ran.
  destruct vlm_responses as [|item items] eqn:input.
  { injection ran as <- _ <-. repeat split; [lia | discriminate]. }
  rewrite <- input in *.
  destruct (Evaluation.tasks_to_run _ _ _) as [tasks|e] eqn:built.
  2:{ injection ran as <- _ <-.
      repeat split; [lia | discriminate]. }
  assert (count : List.length tasks
                  = List.length
                      (filter (fun item_id =>
                                 negb (dict_mem (Files.load_checkpoint d) item_id))
                         (keys vlm_responses))).
  { pose proof (FilterFacts.tasks_to_run_ids _ _ _ _ built) as ids.
    unfold py_str in ids. rewrite <- ids.
    now rewrite length_map. }
  destruct tasks as [|task others] eqn:chosen.
  { injection ran as <- _ <-. repeat split; [lia | discriminate]. }
  rewrite <- chosen in *.
  pose proof (requests_bounds float_of_str judge tasks) as spent.
  rewrite count in spent.
  destruct (Evaluation.collect _ _ _) as [[m|e] d1];
    injection ran as <- _ <-; (split; [apply spent|]);
    (split; [try discriminate; intros _; apply spent|]);
    intros [ | ]; discriminate.
Qed.

Lemma judge_requests_within_budget_witness :
  8 <= (Evaluation.MAX_RETRIES + 1)
       * List.length
           (filter (fun item_id =>
                      negb (dict_mem
                              (Files.load_checkpoint
                                 {| Files.checkpoint_file := None;
                                    Files.output_file := None;
                                    Files.log := [] |}) item_id))
              (keys [(lit "1", JNull); (lit "2", JNull)])).
Proof.
  refine (proj1 (judge_requests_within_budget (fun _ => None)
                   (fun _ _ => Evaluation.JSONDecodeError)
                   (fun _ _ => Return (lit "prompt"))
                   [(lit "1", JNull); (lit "2", JNull)]
                   {| Files.checkpoint_file := None;
                      Files.output_file := None; Files.log := [] |}
                   (snd (fst (Evaluation.main_file (fun _ => None)
                                (fun _ _ => Evaluation.JSONDecodeError)
                                (fun _ _ => Return (lit "prompt"))
                                [(lit "1", JNull); (lit "2", JNull)]
                                {| Files.checkpoint_file := None;
                                   Files.output_file := None;
                                   Files.log := [] |})))
                   Evaluation.Finished 8 _)).
  vm_compute. reflexivity.
Defined.

(** X14. A judge reply that is valid JSON but not an object (a bare
    number, a string, a list) is not retried: [score_data.get] raises
    [AttributeError], which leaves [evaluate_one_item] at the first
    request, and the run over the file crashes without writing the output
    file. *)
Theorem non_object_reply_crashes_run
    (float_of_str : str -> option spec_float)
    (judge : str -> nat -> Evaluation.reply)
    (build_prompt : str -> json -> outcome str)
    (vlm_responses : dict json) (d d' : Files.disk)
    (status : Evaluation.status) (sent : nat)
    (item_id : str) (score_data : json) :
  In item_id (keys vlm_responses) ->
  ~ In item_id (keys (Files.load_checkpoint d)) ->
  judge item_id 0 = Evaluation.Parsed score_data ->
  (forall fields, score_data <> JDict fields) ->
  Evaluation.main_file float_of_str judge build_prompt vlm_responses d
  = (status, d', sent) ->
  Evaluation.evaluate_one_item float_of_str (judge item_id) 0 item_id 0
  = (Raise AttributeError, 1)
  /\ (exists e, status = Evaluation.Crashed e)
  /\ Files.output_file d' = Files.output_file d.
Proof.
  intros listed fresh reply shape ran.
  assert (raised :
            Evaluation.evaluate_one_item float_of_str (judge item_id) 0 item_id 0
            = (Raise AttributeError, 1)).
  { apply RetryFacts.evaluate_escapes. rewrite reply.
    destruct score_data; try reflexivity. now destruct (shape d0). }
  split; [exact raised|].
  unfold Evaluation.main_file in ran.
  destruct vlm_responses as [|item items] eqn:input; [destruct listed|].
  rewrite <- input in *.
  destruct (Evaluation.tasks_to_run _ _ _) as [tasks|e] eqn:built.
  2:{ injection ran as <- <- _. split; [now exists e | reflexivity]. }
  assert (selected : In item_id (map fst tasks)).
  { rewrite (FilterFacts.tasks_to_run_ids _ _ _ _ built).
    apply filter_In. split; [exact listed|].
    apply negb_true_iff, dict_mem_false. exact fresh. }
  destruct tasks as [|task others] eqn:chosen; [destruct selected|].
  rewrite <- chosen in *.
  assert (failing :
            In (Raise AttributeError)
              (map fst
                 (map (fun task : str * str =>
                         Evaluation.evaluate_one_item float_of_str
                           (judge (fst task)) 0 (fst task) 0) tasks))).
  { apply in_map_iff in selected. destruct selected as (t & <- & inside).
    rewrite map_map. apply in_map_iff. exists t. now rewrite raised. }
  destruct (Evaluation.collect _ _ _) as [r d1] eqn:collected.
  pose proof (collect_raises _ (Files.load_checkpoint d) d _ failing)
    as (e & crashed).
  rewrite collected in crashed. cbn in crashed. subst r.
  apply collect_writes in collected. destruct collected as (out & _).
  injection ran as <- <- _. split; [now exists e | exact out].
Qed.

Lemma non_object_reply_crashes_run_witness :
  Evaluation.evaluate_one_item (fun _ => None)
    (fun _ => Evaluation.Parsed (JInt 85)) 0 (lit "7") 0
  = (Raise AttributeError, 1)
  /\ (exists e, Evaluation.Crashed AttributeError = Evaluation.Crashed e)
  /\ Files.output_file
       {| Files.checkpoint_file := None; Files.output_file := None;
          Files.log := [] |}
     = Files.output_file
         {| Files.checkpoint_file := None; Files.output_file := None;
            Files.log := [] |}.
Proof.
  apply (non_object_reply_crashes_run (fun _ => None)
           (fun _ _ => Evaluation.Parsed (JInt 85))
           (fun _ _ => Return (lit "prompt"))
           [(lit "7", JNull)]
           {| Files.checkpoint_file := None; Files.output_file := None;
              Files.log := [] |}
           {| Files.checkpoint_file := None; Files.output_file := None;
              Files.log := [] |}
           (Evaluation.Crashed AttributeError) 1 (lit "7") (JInt 85)).
  - left. reflexivity.
  - intros [].
  - reflexivity.
  - discriminate.
  - vm_compute. reflexivity.
Defined.

(** X15. Whatever [evaluate_one_item] returns is the id it was given with
    an entry [{"score": s}] where [s] is the integer 0, 100 or 50 (the
    default), or a float that is NaN or lies between 0 and 100. *)
Theorem returned_score_range
    (float_of_str : str -> option spec_float)
    (post : nat -> Evaluation.reply) (sent retry_count : nat)
    (text_id : str) (result : str * json) :
  fst (Evaluation.evaluate_one_item float_of_str post sent text_id retry_count)
  = Return result ->
  exists score,
    result = (text_id, JDict [(lit "score", score)])
    /\ (score = JInt 0 \/ score = JInt 100 \/ score = JInt 50
        \/ exists f, score = JFloat f
                     /\ (f = S754_nan
                         \/ Spec.within float_zero float_100 f = true)).
Proof.
  funelim (Evaluation.evaluate_one_item float_of_str post sent text_id
             retry_count); cbn [fst].
  - intros [= <-].
    match goal with H : Evaluation.try_block _ _ _ = _ |- _ => rename H into tried end.
    unfold Evaluation.try_block in tried.
    destruct (post sent) as [ | | | e | score_data]; try discriminate.
    destruct (Evaluation.get_score score_data) as [v|e]; [|discriminate].
    unfold Evaluation.clip_score in tried.
    destruct (float float_of_str v) as [f|[]]; try discriminate.
    unfold float_lt, SFltb in tried.
    assert (range : SFcompare f float_zero <> Some Lt ->
                    SFcompare float_100 f <> Some Lt ->
                    f = S754_nan \/ Spec.within float_zero float_100 f = true).
    { intros low high.
      assert (cases : f = S754_nan \/ f <> S754_nan)
        by (destruct f; (now left) || (right; discriminate)).
      destruct cases as [nan | number]; [now left | right].
      destruct (@ClipFacts.float_compare_total f float_zero number)
        as (c0 & f_0 & z_f); [discriminate|].
      destruct (@ClipFacts.float_compare_total float_100 f)
        as (c1 & h_f & f_h); [discriminate | exact number |].
      unfold Spec.within, SFleb. rewrite z_f, f_h.
      destruct c0, c1; cbn; congruence. }
    destruct (SFcompare f float_zero) as [[]|] eqn:f_0;
      try (injection tried as <-; exists (JInt 0); split; [reflexivity|];
           now left);
      (destruct (SFcompare float_100 f) as [[]|] eqn:h_f;
       injection tried as <-; eexists; (split; [reflexivity|]);
       try (right; left; reflexivity);
       right; right; right; eexists; (split; [reflexivity|]);
       apply range; congruence).
  - discriminate.
  - match goal with IH : forall _, _ -> _ |- _ => apply IH end.
  - intros [= <-]. exists (JInt 50). split; [reflexivity|].
    right; right; left; reflexivity.
Qed.

Lemma returned_score_range_witness :
  exists score,
    (lit "7", Evaluation.score_entry (JInt 100))
    = (lit "7", JDict [(lit "score", score)])
    /\ (score = JInt 0 \/ score = JInt 100 \/ score = JInt 50
        \/ exists f, score = JFloat f
                     /\ (f = S754_nan
                         \/ Spec.within float_zero float_100 f = true)).
Proof.
  apply (returned_score_range (fun _ => None)
           (fun _ => Evaluation.Parsed (JDict [(lit "score", JInt 250)]))
           0 0 (lit "7")).
  vm_compute. reflexivity.
Defined.

End EvaluationSafetyFacts.

(** ** Judging the output files of the inference scripts *)

Module PipelineFacts.
Import Py PyFacts Inference.

Section Values.
Variable P : json -> Prop.

Local Abbreviation all_values results :=
  (forall (k : str) (v : json), In (k, v) results -> P v).

Lemma dict_set_values (results : dict json) (k : str) (v : json) :
  all_values results -> P v -> all_values (dict_set results k v).
Proof.
  intros all good. induction results as [|[k0 v0] results IH]; cbn.
  - intros k' v' [[= <- <-]|[]]. exact good.
  - destruct (str_eqb k0 k).
    + intros k' v' [[= <- <-]|inside]; [exact good|].
      apply (all k' v'). now right.
    + intros k' v' [[= <- <-]|inside].
      * apply (all k0 v0). now left.
      * refine (IH _ k' v' inside).
        intros k1 v1 inside1. apply (all k1 v1). now right.
Qed.

Lemma fold_set_values (A : Type) (key : A -> str) (value : A -> json)
    (l : list A) (results : dict json) :
  all_values results -> (forall x, P (value x)) ->
  all_values (fold_left (fun r x => dict_set r (key x) (value x)) l results).
Proof.
  revert results. induction l as [|x l IH]; intros results all good;
    [exact all|].
  cbn [fold_left]. apply IH; [|exact good].
  apply dict_set_values; [exact all | apply good].
Qed.

End Values.

Local Abbreviation is_string v := (exists s : str, v = JStr s).

Local Abbreviation has_task task v :=
  (exists (fields : dict json) (analysis : json),
     v = JDict fields
     /\ dict_get fields (lit "Task_" ++ str_of_nat task) = Some analysis).

Section Loops.
Variable env : environment.
Variable task : nat.

Lemma no_rationales_pairs_strings (files : list str) (results : dict json)
    (d : Files.disk) (sent : nat) :
  (forall k v, In (k, v) results -> is_string v) ->
  forall k v,
    In (k, v) (fst (fst (NoRationales.pairs_loop env files results d sent))) ->
    is_string v.
Proof.
  revert results d sent.
  induction files as [|filename rest IH]; intros results d sent all;
    cbn [NoRationales.pairs_loop]; [exact all|].
  destruct (negb (text_exists env _)); [now apply IH|].
  destruct (negb _ || _); [now apply IH|].
  destruct (process_batch (create env) sent 0) as [[text|] sent1];
    [|now apply IH].
  destruct (truthy text); [|now apply IH].
  apply IH. apply dict_set_values; [exact all | now exists text].
Qed.

Lemma no_rationales_batches_strings (starts : list nat) (files : list str)
    (results : dict json) (d : Files.disk) (sent : nat) :
  (forall k v, In (k, v) results -> is_string v) ->
  forall k v,
    In (k, v)
      (fst (fst (NoRationales.batches_loop env starts files results d sent))) ->
    is_string v.
Proof.
  revert results d sent.
  induction starts as [|i rest IH]; intros results d sent all;
    cbn [NoRationales.batches_loop]; [exact all|].
  destruct (filter _ _); [now apply IH|].
  destruct (process_batch (create env) sent 0) as [[text|] sent1];
    [|now apply IH].
  destruct (truthy text); [|now apply IH].
  apply IH. unfold NoRationales.record_batch.
  apply (fold_set_values (fun v => is_string v) _ get_image_id
           (fun _ => JStr text)); [exact all | now exists text].
Qed.

Lemma entry_has_task (image_id analysis rationale : str) :
  has_task task (WithRationales.entry task image_id analysis rationale).
Proof.
  unfold WithRationales.entry. eexists _, (JStr analysis).
  split; [reflexivity|].
  cbn [dict_get]. change (str_eqb (lit "id") _) with false.
  cbv iota. now rewrite str_eqb_refl.
Qed.

Lemma with_rationales_pairs_entries (files : list str) (results : dict json)
    (d : Files.disk) (sent : nat) :
  (forall k v, In (k, v) results -> has_task task v) ->
  forall k v,
    In (k, v)
      (fst (fst (WithRationales.pairs_loop env task files results d sent))) ->
    has_task task v.
Proof.
  revert results d sent.
  induction files as [|filename rest IH]; intros results d sent all;
    cbn [WithRationales.pairs_loop]; [exact all|].
  destruct (negb (text_exists env _)); [now apply IH|].
  destruct (negb _ || _); [now apply IH|].
  destruct (process_batch (create env) sent 0) as [[text|] sent1];
    [|now apply IH].
  destruct (truthy text); [|now apply IH].
  destruct (WithRationales.parse_response_and_rationale text)
    as [analysis rationale].
  apply IH. apply dict_set_values; [exact all | apply entry_has_task].
Qed.

Lemma with_rationales_batches_entries (starts : list nat) (files : list str)
    (results : dict json) (d : Files.disk) (sent : nat) :
  (forall k v, In (k, v) results -> has_task task v) ->
  forall k v,
    In (k, v)
      (fst (fst (WithRationales.batches_loop env task starts files results d
                   sent))) ->
    has_task task v.
Proof.
  revert results d sent.
  induction starts as [|i rest IH]; intros results d sent all;
    cbn [WithRationales.batches_loop]; [exact all|].
  destruct (filter _ _); [now apply IH|].
  destruct (process_batch (create env) sent 0) as [[text|] sent1];
    [|now apply IH].
  destruct (truthy text); [|now apply IH].
  apply IH. unfold WithRationales.record_batch.
  destruct (WithRationales.parse_response_and_rationale text)
    as [analysis rationale].
  apply (fold_set_values (fun v => has_task task v) _ get_image_id
           (fun filename =>
              WithRationales.entry task (get_image_id filename) analysis
                rationale)); [exact all|].
  intros filename. apply entry_has_task.
Qed.

End Loops.

Section Judge.
Variable read_text_file : str -> str.
Variable generate_evaluation_prompt :
  str -> json -> str -> str -> str -> str -> str -> str.
Variable language : str.
Variable setting : str.
Variable task : nat.

Local Abbreviation build_prompt :=
  (Prompt.build_prompt read_text_file generate_evaluation_prompt language
     setting task).

(** The first id the checkpoint lacks decides: an item whose prompt
    cannot be built stops the preparation at once. *)
Lemma tasks_to_run_raises (eval_results items : dict json) (e : exn) :
  (forall k v, In (k, v) items -> build_prompt k v = Raise e) ->
  (exists k, In k (keys items) /\ ~ In k (keys eval_results)) ->
  Evaluation.tasks_to_run build_prompt eval_results items = Raise e.
Proof.
  intros failing (k & listed & fresh).
  induction items as [|[item_id response_data] items IH]; [destruct listed|].
  cbn [Evaluation.tasks_to_run]. unfold py_str.
  destruct (dict_mem eval_results item_id) eqn:covered.
  - apply IH.
    + intros k' v' inside. apply failing. now right.
    + destruct listed as [same | listed]; [|exact listed].
      cbn in same. subst item_id. apply dict_mem_In in covered.
      now destruct fresh.
  - now rewrite (failing item_id response_data) by now left.
Qed.

Lemma tasks_to_run_builds (eval_results items : dict json) :
  (forall k v, In (k, v) items -> exists prompt, build_prompt k v = Return prompt) ->
  exists tasks,
    Evaluation.tasks_to_run build_prompt eval_results items = Return tasks.
Proof.
  intros building.
  induction items as [|[item_id response_data] items IH];
    [now exists []|].
  cbn [Evaluation.tasks_to_run].
  destruct IH as (tasks & built).
  { intros k v inside. apply building. now right. }
  destruct (dict_mem eval_results (py_str item_id)); [now exists tasks|].
  destruct (building item_id response_data) as (prompt & ->); [now left|].
  rewrite built. now eexists.
Qed.

End Judge.

(** X16. The judge cannot evaluate an output file of
    [run_zeroshot_no_rationales.py]: the values of that file are the
    response strings, [response_data["Task_n"]] on a string raises
    [TypeError], and the run over the file crashes at the first id its
    checkpoint lacks, before any request is sent and with nothing
    written. *)
Theorem no_rationales_output_crashes_judge
    (env : environment) (task : nat) (listing : list str)
    (d0 d1 : Files.disk) (sent0 sent1 : nat) (m : dict json)
    (float_of_str : str -> option spec_float)
    (judge : str -> nat -> Evaluation.reply)
    (read_text_file : str -> str)
    (generate_evaluation_prompt :
       str -> json -> str -> str -> str -> str -> str -> str)
    (language setting : str) (judged_task : nat) (d : Files.disk) (k : str) :
  NoRationales.main env task listing d0 sent0 = (Finished, d1, sent1) ->
  (forall k v, In (k, v) (Files.load_checkpoint d0) -> exists s, v = JStr s) ->
  Files.output_file d1 = Some m ->
  In k (keys m) ->
  ~ In k (keys (Files.load_checkpoint d)) ->
  Evaluation.main_file float_of_str judge
    (Prompt.build_prompt read_text_file generate_evaluation_prompt language
       setting judged_task) m d
  = (Evaluation.Crashed TypeError, d, 0).
Proof.
  intros finished loaded written listed fresh.
  assert (strings : forall k v, In (k, v) m -> exists s, v = JStr s).
  { unfold NoRationales.main in finished.
    destruct (files_to_process _ _) as [|f files]; [discriminate|].
    destruct (6 <=? task).
    - pose proof (no_rationales_pairs_strings env (f :: files) _ d0 sent0 loaded)
        as all.
      destruct (NoRationales.pairs_loop _ _ _ _ _) as [[results d2] sent2].
      injection finished as <- _. cbn in written, all.
      injection written as <-. exact all.
    - pose proof (no_rationales_batches_strings env
                    (range_step (List.length (f :: files)) BATCH_SIZE)
                    (f :: files) _ d0 sent0 loaded) as all.
      destruct (NoRationales.batches_loop _ _ _ _ _ _) as [[results d2] sent2].
      injection finished as <- _. cbn in written, all.
      injection written as <-. exact all. }
  unfold Evaluation.main_file.
  destruct m as [|item items] eqn:input; [destruct listed|].
  rewrite <- input in *.
  rewrite (tasks_to_run_raises read_text_file generate_evaluation_prompt
             language setting judged_task (Files.load_checkpoint d) m TypeError).
  - reflexivity.
  - intros k' v' inside. destruct (strings k' v' inside) as (s & ->).
    reflexivity.
  - now exists k.
Qed.

Lemma no_rationales_output_crashes_judge_witness :
  Evaluation.main_file (fun _ => None)
    (fun _ _ => Evaluation.Parsed (JDict [(lit "score", JInt 85)]))
    (Prompt.build_prompt (fun _ => lit "a caption") (fun _ _ _ _ _ _ _ => [])
       (lit "English") (lit "zeroshot_no_rationales") 1)
    [(lit "1", JStr (lit "a cat"))]
    {| Files.checkpoint_file := None; Files.output_file := None;
       Files.log := [] |}
  = (Evaluation.Crashed TypeError,
     {| Files.checkpoint_file := None; Files.output_file := None;
        Files.log := [] |}, 0).
Proof.
  apply (no_rationales_output_crashes_judge
           {| text_exists := fun _ => false;
              encode_image := fun _ => Some (lit "QQ==");
              read_text_file := fun _ => None;
              create := fun _ => Content (lit "a cat") |}
           1 [lit "1.jpg"]
           {| Files.checkpoint_file := None; Files.output_file := None;
              Files.log := [] |}
           {| Files.checkpoint_file := Some [(lit "1", JStr (lit "a cat"))];
              Files.output_file := Some [(lit "1", JStr (lit "a cat"))];
              Files.log :=
                [Files.WroteCheckpoint [(lit "1", JStr (lit "a cat"))];
                 Files.WroteOutput [(lit "1", JStr (lit "a cat"))]] |}
           0 1 [(lit "1", JStr (lit "a cat"))]
           (fun _ => None)
           (fun _ _ => Evaluation.Parsed (JDict [(lit "score", JInt 85)]))
           (fun _ => lit "a caption") (fun _ _ _ _ _ _ _ => [])
           (lit "English") (lit "zeroshot_no_rationales") 1
           {| Files.checkpoint_file := None; Files.output_file := None;
              Files.log := [] |}
           (lit "1")).
  - vm_compute. reflexivity.
  - intros k v [].
  - reflexivity.
  - left. reflexivity.
  - intros [].
Defined.

(** X17. On an output file of [run_zeroshot_with_rationales.py], judged
    for the task it was produced for, every entry has the ["Task_n"]
    field the prompt needs: for task 1 or 8 a prompt is built for every id
    the checkpoint lacks; for any other task [TASK_INSTRUCTIONS[task]]
    raises [KeyError] and the run crashes before any request is sent. *)
Theorem with_rationales_output_prompts
    (env : environment) (task : nat) (listing : list str)
    (d0 d1 : Files.disk) (sent0 sent1 : nat) (m : dict json)
    (float_of_str : str -> option spec_float)
    (judge : str -> nat -> Evaluation.reply)
    (read_text_file : str -> str)
    (generate_evaluation_prompt :
       str -> json -> str -> str -> str -> str -> str -> str)
    (language setting : str) (d : Files.disk) :
  WithRationales.main env task listing d0 sent0 = (Finished, d1, sent1) ->
  (forall k v, In (k, v) (Files.load_checkpoint d0) ->
     exists fields analysis,
       v = JDict fields
       /\ dict_get fields (lit "Task_" ++ str_of_nat task) = Some analysis) ->
  Files.output_file d1 = Some m ->
  (task = 1 \/ task = 8 ->
   exists tasks,
     Evaluation.tasks_to_run
       (Prompt.build_prompt read_text_file generate_evaluation_prompt
          language setting task) (Files.load_checkpoint d) m
     = Return tasks
     /\ map fst tasks
        = filter (fun item_id =>
                    negb (dict_mem (Files.load_checkpoint d) item_id))
            (keys m))
  /\ (task <> 1 -> task <> 8 ->
      (exists k, In k (keys m) /\ ~ In k (keys (Files.load_checkpoint d))) ->
      Evaluation.main_file float_of_str judge
        (Prompt.build_prompt read_text_file generate_evaluation_prompt
           language setting task) m d
      = (Evaluation.Crashed KeyError, d, 0)).
Proof.
  intros finished loaded written.
  assert (entries : forall k v, In (k, v) m ->
            exists fields analysis,
              v = JDict fields
              /\ dict_get fields (lit "Task_" ++ str_of_nat task)
                 = Some analysis).
  { unfold WithRationales.main in finished.
    destruct (files_to_process _ _) as [|f files]; [discriminate|].
    destruct (6 <=? task).
    - pose proof (with_rationales_pairs_entries env task (f :: files) _ d0
                    sent0 loaded) as all.
      destruct (WithRationales.pairs_loop _ _ _ _ _ _) as [[results d2] sent2].
      injection finished as <- _. cbn in written, all.
      injection written as <-. exact all.
    - pose proof (with_rationales_batches_entries env task
                    (range_step (List.length (f :: files)) BATCH_SIZE)
                    (f :: files) _ d0 sent0 loaded) as all.
      destruct (WithRationales.batches_loop _ _ _ _ _ _ _)
        as [[results d2] sent2].
      injection finished as <- _. cbn in written, all.
      injection written as <-. exact all. }
  split.
  - intros listed.
    destruct (tasks_to_run_builds read_text_file generate_evaluation_prompt
                language setting task (Files.load_checkpoint d) m)
      as (tasks & built).
    + intros k v inside.
      destruct (entries k v inside) as (fields & analysis & -> & field).
      unfold Prompt.build_prompt, Prompt.getitem. rewrite field.
      destruct listed as [-> | ->]; eexists; reflexivity.
    + exists tasks. split; [exact built|].
      exact (FilterFacts.tasks_to_run_ids _ _ _ _ built).
  - intros not1 not8 uncovered.
    unfold Evaluation.main_file.
    destruct m as [|item items] eqn:input;
      [now destruct uncovered as (k & [] & _)|].
    rewrite <- input in *.
    rewrite (tasks_to_run_raises read_text_file generate_evaluation_prompt
               language setting task (Files.load_checkpoint d) m KeyError).
    + reflexivity.
    + intros k v inside.
      destruct (entries k v inside) as (fields & analysis & -> & field).
      unfold Prompt.build_prompt, Prompt.getitem. rewrite field.
      cbn [Prompt.instructions Prompt.TASK_INSTRUCTIONS].
      destruct (Nat.eqb_spec 1 task) as [same|_]; [now destruct not1|].
      destruct (Nat.eqb_spec 8 task) as [same|_]; [now destruct not8|].
      reflexivity.
    + exact uncovered.
Qed.

Lemma with_rationales_output_prompts_witness :
  exists tasks,
     Evaluation.tasks_to_run
       (Prompt.build_prompt (fun _ => lit "a caption")
          (fun _ _ _ _ _ _ _ => []) (lit "English")
          (lit "zeroshot_with_rationales") 1)
       (Files.load_checkpoint
          {| Files.checkpoint_file := None; Files.output_file := None;
             Files.log := [] |})
       [(lit "1", WithRationales.entry 1 (lit "1") (lit "a cat")
                    WithRationales.no_rationale)]
     = Return tasks
     /\ map fst tasks
        = filter (fun item_id =>
                    negb (dict_mem
                            (Files.load_checkpoint
                               {| Files.checkpoint_file := None;
                                  Files.output_file := None;
                                  Files.log := [] |}) item_id))
            (keys [(lit "1", WithRationales.entry 1 (lit "1") (lit "a cat")
                               WithRationales.no_rationale)]).
Proof.
  refine (proj1 (with_rationales_output_prompts
           {| text_exists := fun _ => false;
              encode_image := fun _ => Some (lit "QQ==");
              read_text_file := fun _ => None;
              create := fun _ => Content (lit "a cat") |}
           1 [lit "1.jpg"]
           {| Files.checkpoint_file := None; Files.output_file := None;
              Files.log := [] |}
           (snd (fst (WithRationales.main
                        {| text_exists := fun _ => false;
                           encode_image := fun _ => Some (lit "QQ==");
                           read_text_file := fun _ => None;
                           create := fun _ => Content (lit "a cat") |}
                        1 [lit "1.jpg"]
                        {| Files.checkpoint_file := None;
                           Files.output_file := None; Files.log := [] |} 0)))
           0 1
           [(lit "1", WithRationales.entry 1 (lit "1") (lit "a cat")
                        WithRationales.no_rationale)]
           (fun _ => None)
           (fun _ _ => Evaluation.Parsed (JDict [(lit "score", JInt 85)]))
           (fun _ => lit "a caption") (fun _ _ _ _ _ _ _ => [])
           (lit "English") (lit "zeroshot_with_rationales")
           {| Files.checkpoint_file := None; Files.output_file := None;
              Files.log := [] |}
           _ _ _) (or_introl eq_refl)).
  - vm_compute. reflexivity.
  - intros k v [].
  - vm_compute. reflexivity.
Defined.

End PipelineFacts.

(** ** Reading the name of an inference output file *)

Module FilenameFacts.
Import Py PyFacts Inference Filename.

(** *** Paths *)

Lemma rfind_from_absent (s : str) (c : N) (i last : Z) :
  ~ In c s -> rfind_from s c i last = last.
Proof.
  revert i last. induction s as [|x s IH]; intros i last absent;
    [reflexivity|].
  cbn [rfind_from].
  destruct (N.eqb_spec x c) as [-> | _]; [destruct absent; now left|].
  apply IH. intros inside. apply absent. now right.
Qed.

Lemma basename_plain (base : str) : ~ In 47%N base -> basename base = base.
Proof.
  intros plain. unfold basename, rfind.
  rewrite rfind_from_absent by exact plain.
  unfold slice_from, clip_index. cbn.
  replace (Z.to_nat _) with 0 by lia. reflexivity.
Qed.

Lemma basename_in_directory (dir base : str) :
  ~ In 47%N base -> basename (dir ++ lit "/" ++ base) = base.
Proof.
  intros plain. unfold basename, rfind.
  rewrite ImageIdFacts.rfind_from_app. cbn [lit list_ascii_of_string map app].
  cbn [rfind_from].
  change (N_of_ascii "/" =? 47)%N with true. cbv iota.
  rewrite rfind_from_absent by exact plain.
  change (dir ++ N_of_ascii "/" :: base) with (dir ++ [N_of_ascii "/"] ++ base).
  rewrite app_assoc.
  replace (0 + Z.of_nat (List.length dir) + 1)%Z
    with (Z.of_nat (List.length (dir ++ [N_of_ascii "/"])))
    by (rewrite length_app; cbn; lia).
  apply RationaleFacts.slice_from_app.
Qed.

Lemma splitext_json (name : str) :
  ~ In 47%N name -> In 95%N name ->
  splitext (name ++ lit ".json") = (name, lit ".json").
Proof.
  intros plain underscore. unfold splitext.
  assert (sep : rfind (name ++ lit ".json") 47 = (-1)%Z).
  { unfold rfind. rewrite ImageIdFacts.rfind_from_app.
    rewrite (rfind_from_absent name) by exact plain. reflexivity. }
  assert (dot : rfind (name ++ lit ".json") 46
                = Z.of_nat (List.length name)).
  { unfold rfind. rewrite ImageIdFacts.rfind_from_app. cbn. lia. }
  rewrite sep, dot.
  destruct (Z.ltb_spec (-1) (Z.of_nat (List.length name))) as [_|]; [|lia].
  replace (Z.of_nat (List.length name) - (-1 + 1))%Z
    with (Z.of_nat (List.length name)) by lia.
  assert (whole : slice_from (name ++ lit ".json") (-1 + 1)
                  = name ++ lit ".json").
  { unfold slice_from, clip_index. change (-1 + 1)%Z with 0%Z.
    change (0 <? 0)%Z with false. cbv iota.
    replace (Z.to_nat _) with 0 by lia. reflexivity. }
  rewrite whole, RationaleFacts.slice_to_app, RationaleFacts.slice_from_app.
  assert (solid : existsb (fun c => negb (c =? 46)%N) name = true).
  { apply existsb_exists. exists 95%N. split; [exact underscore | reflexivity]. }
  now rewrite solid.
Qed.

(** *** Splitting and joining *)

Lemma split_not_empty (sep : N) (s : str) : split sep s <> [].
Proof.
  destruct s as [|c s]; cbn; [discriminate|].
  destruct (c =? sep)%N; [discriminate|].
  destruct (split sep s); discriminate.
Qed.

Lemma split_absent (sep : N) (s : str) : ~ In sep s -> split sep s = [s].
Proof.
  induction s as [|c s IH]; intros absent; [reflexivity|].
  cbn [split].
  destruct (N.eqb_spec c sep) as [-> | _]; [destruct absent; now left|].
  rewrite IH; [reflexivity|]. intros inside. apply absent. now right.
Qed.

Lemma split_app (sep : N) (a b : str) :
  ~ In sep a -> split sep (a ++ sep :: b) = a :: split sep b.
Proof.
  induction a as [|c a IH]; intros absent; cbn [app split].
  - now rewrite N.eqb_refl.
  - destruct (N.eqb_spec c sep) as [-> | _]; [destruct absent; now left|].
    rewrite IH; [reflexivity|]. intros inside. apply absent. now right.
Qed.

Lemma join_split (sep : N) (s : str) : join [sep] (split sep s) = s.
Proof.
  induction s as [|c s IH]; [reflexivity|].
  cbn [split].
  pose proof (split_not_empty sep s) as some.
  destruct (N.eqb_spec c sep) as [-> | _].
  - cbn [join]. destruct (split sep s) as [|part parts]; [congruence|].
    rewrite IH. reflexivity.
  - destruct (split sep s) as [|part parts]; [congruence|].
    cbn [join] in *. destruct parts; [now rewrite <- IH|].
    rewrite <- IH. reflexivity.
Qed.

(** *** The search for the task number *)

Lemma find_from_found (s sub : str) (i : Z) :
  find_from s sub i = (-1)%Z \/ (i <= find_from s sub i)%Z.
Proof.
  revert i. induction s as [|c s IH]; intros i; cbn [find_from].
  - destruct (startswith [] sub); [right; lia | now left].
  - destruct (startswith (c :: s) sub); [right; lia|].
    destruct (IH (i + 1)%Z) as [-> | later]; [now left | right; lia].
Qed.

Lemma find_absent_nowhere (s sub : str) (i : Z) (j : nat) :
  (0 <= i)%Z -> find_from s sub i = (-1)%Z ->
  startswith (skipn j s) sub = false.
Proof.
  revert i j. induction s as [|c s IH]; intros i j positive absent.
  - cbn [find_from] in absent. rewrite skipn_nil.
    destruct (startswith [] sub); [lia | reflexivity].
  - cbn [find_from] in absent.
    destruct (startswith (c :: s) sub) eqn:here; [lia|].
    destruct j as [|j]; [exact here|].
    cbn [skipn]. apply (IH (i + 1)%Z); [lia | exact absent].
Qed.

(** A text that starts with [sub] before a code point [sub] does not
    hold starts with it on its own. *)
Lemma startswith_before (u w sub : str) (x : N) :
  ~ In x sub ->
  startswith (u ++ x :: w) sub = true -> startswith u sub = true.
Proof.
  revert u. induction sub as [|p sub IH]; intros u out starts;
    [now destruct u|].
  destruct u as [|c u]; cbn [app startswith] in *.
  - apply andb_true_iff in starts. destruct starts as [same _].
    apply N.eqb_eq in same. subst x. destruct out. now left.
  - apply andb_true_iff in starts. destruct starts as [same starts].
    rewrite same. cbn [andb]. apply IH; [|exact starts].
    intros inside. apply out. now right.
Qed.

Lemma search_task_skips (u w : str) :
  find u (lit "task") = (-1)%Z ->
  search_task (u ++ 95%N :: w) = search_task w.
Proof.
  intros absent.
  assert (nowhere : forall j, startswith (skipn j u) (lit "task") = false)
    by (intros j; apply (find_absent_nowhere u _ 0%Z j); [lia | exact absent]).
  clear absent. induction u as [|c u IH]; cbn [app search_task].
  - reflexivity.
  - destruct (startswith (c :: u ++ 95%N :: w) (lit "task")) eqn:starts.
    + apply (startswith_before (c :: u) w (lit "task") 95%N) in starts.
      * pose proof (nowhere 0) as first. cbn [skipn] in first. congruence.
      * cbn. intuition discriminate.
    + apply IH. intros j. exact (nowhere (S j)).
Qed.

(** *** Decimal numerals *)

Local Abbreviation ascii_digits s := (Forall (fun c => (48 <= c <= 57)%N) s).

Local Abbreviation shift :=
  (fun (n : nat) (c : N) =>
     n * 10 + match decimal c with Some v => v | None => 0 end).

Lemma numeral_digits (u : Decimal.uint) :
  ascii_digits (lit (NilEmpty.string_of_uint u)).
Proof.
  unfold lit.
  induction u; cbn [NilEmpty.string_of_uint list_ascii_of_string map];
    constructor; try exact IHu; cbn; lia.
Qed.

Lemma numeral_value (u : Decimal.uint) (acc : nat) :
  fold_left shift (lit (NilEmpty.string_of_uint u)) acc = Nat.of_uint_acc u acc.
Proof.
  unfold lit. revert acc.
  induction u; intros acc;
    cbn [NilEmpty.string_of_uint list_ascii_of_string map fold_left
         Nat.of_uint_acc];
    [reflexivity|..];
    rewrite IHu, Nat.tail_mul_spec; f_equal;
    match goal with
    | |- context [decimal ?c] =>
        let v := eval vm_compute in (decimal c) in
        change (decimal c) with v
    end; cbv beta iota; lia.
Qed.

Lemma str_of_nat_numeral (n : nat) :
  ascii_digits (str_of_nat n) /\ str_of_nat n <> []
  /\ fold_left shift (str_of_nat n) 0 = n.
Proof.
  unfold str_of_nat.
  pose proof (Unsigned.of_to n) as back. unfold Nat.of_uint in back.
  destruct (Nat.to_uint n) as [|u|u|u|u|u|u|u|u|u|u] eqn:numeral.
  1:{ cbn in back. subst n. split.
      - constructor; [cbn; lia | constructor].
      - split; [discriminate | reflexivity]. }
  all: (split; [apply (numeral_digits (_ u))|]);
    (split; [discriminate|]);
    rewrite <- back; apply (numeral_value (_ u)).
Qed.

Lemma ascii_digit_decimal (c : N) :
  (48 <= c <= 57)%N -> isdecimal c = true.
Proof.
  intros digit. unfold isdecimal, decimal, decimal_zeros. cbn [decimal_in].
  destruct (N.leb_spec 48 c); [|lia].
  destruct (N.ltb_spec c (48 + 10)); [reflexivity | lia].
Qed.

Lemma ascii_digits_absent (s : str) (x : N) :
  ascii_digits s -> (x < 48 \/ 57 < x)%N -> ~ In x s.
Proof.
  intros digits out inside. rewrite Forall_forall in digits.
  specialize (digits x inside). lia.
Qed.

Lemma digits_prefix_numeral (digits rest : str) :
  ascii_digits digits ->
  digits_prefix (digits ++ 95%N :: rest) = digits.
Proof.
  induction 1 as [|c digits digit _ IH]; cbn [app digits_prefix].
  - reflexivity.
  - now rewrite (ascii_digit_decimal c digit), IH.
Qed.

Lemma search_task_here (digits rest : str) :
  ascii_digits digits -> digits <> [] ->
  search_task (lit "task" ++ digits ++ 95%N :: rest) = Some digits.
Proof.
  intros numeral some.
  change (lit "task" ++ digits ++ 95%N :: rest)
    with (116 :: 97 :: 115 :: 107 :: digits ++ 95 :: rest)%N.
  cbn [search_task].
  change (startswith (116 :: 97 :: 115 :: 107 :: digits ++ 95 :: rest)%N
            (lit "task"))
    with (startswith (lit "task" ++ digits ++ 95%N :: rest) (lit "task")).
  rewrite RationaleFacts.startswith_app. cbn [skipn].
  rewrite digits_prefix_numeral by exact numeral.
  destruct digits; [congruence | reflexivity].
Qed.

(** The name [main] of the inference scripts gives its output file (line
    263, and 746 with [with_rationales]), without the directory. *)
Local Abbreviation output_name model language task setting :=
  (model ++ lit "_" ++ language ++ lit "_task" ++ str_of_nat task
   ++ lit "_" ++ setting ++ lit ".json").

Lemma parse_output_basename (model language setting : str) (n : nat)
    (filename : str) :
  basename filename = output_name model language n setting ->
  ~ In 95%N model -> ~ In 47%N model -> find model (lit "task") = (-1)%Z ->
  ~ In 95%N language -> ~ In 47%N language ->
  find language (lit "task") = (-1)%Z ->
  ~ In 47%N setting ->
  List.length (str_of_nat n) <= int_max_str_digits ->
  parse_filename filename
  = inl {| model := model; language := language; task := n;
           setting := setting |}.
Proof.
  intros based model_ model_slash model_task language_ language_slash
    language_task setting_slash short.
  destruct (str_of_nat_numeral n) as (numeral & some & value).
  pose proof (ascii_digits_absent _ 95%N numeral ltac:(lia)) as digits_.
  pose proof (ascii_digits_absent _ 47%N numeral ltac:(lia)) as digits_slash.
  set (digits := str_of_nat n) in *.
  set (name := model ++ 95%N :: language ++ 95%N
               :: (lit "task" ++ digits) ++ 95%N :: setting).
  assert (named : model ++ lit "_" ++ language ++ lit "_task" ++ digits
                  ++ lit "_" ++ setting ++ lit ".json"
                  = name ++ lit ".json").
  { unfold name.
    change (lit "_task") with (95%N :: lit "task").
    change (lit "_") with [95%N].
    repeat (rewrite <- ?app_assoc; cbn [app]). reflexivity. }
  unfold parse_filename. rewrite based, named.
  rewrite splitext_json.
  2:{ unfold name. repeat first [rewrite in_app_iff | progress cbn [In]]. cbn.
      intuition (try discriminate; try contradiction). }
  2:{ unfold name. apply in_or_app. right. now left. }
  cbn [fst].
  assert (parts : split 95 name
                  = model :: language :: (lit "task" ++ digits)
                    :: split 95 setting).
  { unfold name. rewrite split_app by exact model_.
    rewrite split_app by exact language_.
    rewrite split_app; [reflexivity|].
    rewrite in_app_iff. cbn. intuition discriminate. }
  rewrite parts.
  assert (found : search_task name = Some digits).
  { unfold name. rewrite search_task_skips by exact model_task.
    rewrite search_task_skips by exact language_task.
    rewrite <- app_assoc. now apply search_task_here. }
  rewrite found. unfold int.
  destruct (Nat.ltb_spec int_max_str_digits (List.length digits)); [lia|].
  rewrite value. cbn [skipn].
  change (lit "_") with [95%N]. now rewrite join_split.
Qed.

(** X18. [parse_filename] reads back what the inference scripts put in
    the name of their output file: for a model and a language that hold
    no underscore, no slash and no [task], it returns that model, that
    language, the task number and the setting, whether the path has a
    directory or not. *)
Theorem parse_filename_of_output_name (dir model language setting : str)
    (n : nat) :
  ~ In 95%N model -> ~ In 47%N model -> find model (lit "task") = (-1)%Z ->
  ~ In 95%N language -> ~ In 47%N language ->
  find language (lit "task") = (-1)%Z ->
  ~ In 47%N setting ->
  List.length (str_of_nat n) <= int_max_str_digits ->
  parse_filename (dir ++ lit "/" ++ output_name model language n setting)
  = inl {| model := model; language := language; task := n;
           setting := setting |}
  /\ parse_filename (output_name model language n setting)
     = inl {| model := model; language := language; task := n;
              setting := setting |}.
Proof.
  intros model_ model_slash model_task language_ language_slash
    language_task setting_slash short.
  destruct (str_of_nat_numeral n) as (numeral & _ & _).
  pose proof (ascii_digits_absent _ 47%N numeral ltac:(lia)) as digits_slash.
  assert (plain : ~ In 47%N (output_name model language n setting)).
  { repeat first [rewrite in_app_iff | progress cbn [In]]. cbn.
    intuition (try discriminate; try contradiction). }
  split; apply parse_output_basename; try assumption.
  - now apply basename_in_directory.
  - now apply basename_plain.
Qed.

Lemma parse_filename_of_output_name_witness :
  parse_filename
    (lit "outputs" ++ lit "/"
     ++ lit "gpt-4o" ++ lit "_" ++ lit "English" ++ lit "_task"
     ++ str_of_nat 3 ++ lit "_" ++ lit "zeroshot_no_rationales"
     ++ lit ".json")
  = inl {| model := lit "gpt-4o"; language := lit "English"; task := 3;
           setting := lit "zeroshot_no_rationales" |}.
Proof.
  refine (proj1 (parse_filename_of_output_name (lit "outputs") (lit "gpt-4o")
                   (lit "English") (lit "zeroshot_no_rationales") 3
                   _ _ _ _ _ _ _ _));
    try (vm_compute; intuition discriminate);
    try (vm_compute; reflexivity).
  vm_compute. lia.
Defined.

End FilenameFacts.

(** ** Names that are not inference output names *)

Module FilenameEdgeFacts.
Import Py PyFacts Inference Filename.

Lemma split_parts_plain (sep : N) (s : str) :
  Forall (fun part => ~ In sep part) (split sep s).
Proof.
  induction s as [|c s IH]; cbn [split].
  - constructor; [intros [] | constructor].
  - destruct (N.eqb_spec c sep) as [-> | other].
    + constructor; [intros [] | exact IH].
    + destruct (split sep s) as [|part parts].
      * constructor; [|constructor]. intros [same | []]. congruence.
      * inversion IH as [|? ? plain others]; subst.
        constructor; [|exact others].
        intros [same | inside]; [congruence | now apply plain].
Qed.

Lemma split_two (sep : N) (s : str) :
  In sep s -> exists a b rest, split sep s = a :: b :: rest.
Proof.
  induction s as [|c s IH]; intros inside; [destruct inside|].
  cbn [split].
  destruct (N.eqb_spec c sep) as [-> | other].
  - pose proof (FilenameFacts.split_not_empty sep s) as some.
    destruct (split sep s) as [|b rest]; [congruence|]. now exists [], b, rest.
  - destruct inside as [same | inside]; [congruence|].
    destruct (IH inside) as (a & b & rest & ->). now exists (c :: a), b, rest.
Qed.

Lemma search_task_absent (name : str) :
  find name (lit "task") = (-1)%Z -> search_task name = None.
Proof.
  intros absent.
  assert (nowhere : forall j, startswith (skipn j name) (lit "task") = false)
    by (intros j; apply (FilenameFacts.find_absent_nowhere name _ 0%Z j);
        [lia | exact absent]).
  clear absent. induction name as [|c name IH]; [reflexivity|].
  cbn [search_task].
  pose proof (nowhere 0) as first. cbn [skipn] in first. rewrite first.
  apply IH. intros j. exact (nowhere (S j)).
Qed.

(** X19. What [parse_filename] raises on a path that is not the name of
    an inference output: [IndexError] when the base name without its
    extension has no underscore, [AttributeError] when it has one but
    does not contain [task]. *)
Theorem parse_filename_rejects (filename : str) :
  let name := fst (splitext (basename filename)) in
  (~ In 95%N name -> parse_filename filename = inr IndexError)
  /\ (In 95%N name -> find name (lit "task") = (-1)%Z ->
      parse_filename filename = inr AttributeError).
Proof.
  intros name. unfold parse_filename. fold name. split.
  - intros plain. now rewrite FilenameFacts.split_absent.
  - intros underscore absent.
    destruct (split_two 95%N name underscore) as (a & b & rest & ->).
    now rewrite search_task_absent.
Qed.

Lemma parse_filename_rejects_witness :
  parse_filename (lit "results/gpt-4o_English_summary.json")
  = inr AttributeError.
Proof.
  apply (proj2 (parse_filename_rejects
                  (lit "results/gpt-4o_English_summary.json"))).
  - vm_compute. intuition discriminate.
  - vm_compute. reflexivity.
Defined.

(** X20. The model and the language that [parse_filename] returns never
    contain an underscore: for a model (or language) named with one, the
    name of the output file is read back as another model and
    language. *)
Theorem parse_filename_never_underscore (filename : str) (meta : file_meta) :
  parse_filename filename = inl meta ->
  ~ In 95%N (model meta) /\ ~ In 95%N (language meta).
Proof.
  unfold parse_filename.
  pose proof (split_parts_plain 95%N (fst (splitext (basename filename))))
    as plain.
  destruct (split 95%N _) as [|a [|b rest]]; try discriminate.
  destruct (search_task _) as [digits|]; [|discriminate].
  destruct (int digits) as [n|e]; [|discriminate].
  intros [= <-]. cbn [model language].
  inversion plain as [|? ? first others]; subst.
  inversion others as [|? ? second _]; subst. now split.
Qed.

Lemma parse_filename_never_underscore_witness :
  ~ In 95%N (lit "gpt") /\ ~ In 95%N (lit "4o").
Proof.
  apply (parse_filename_never_underscore
           (lit "out/gpt_4o_English_task3_zeroshot_no_rationales.json")
           {| model := lit "gpt"; language := lit "4o"; task := 3;
              setting := lit "task3_zeroshot_no_rationales" |}).
  vm_compute. reflexivity.
Defined.

End FilenameEdgeFacts.

(** ** Taking the code fences off a reply *)

Module FenceFacts.
Import Py PyFacts Fences.

Local Abbreviation blank s := (Forall (fun c => isspace c = true) s).

(** *** Whitespace runs *)

Lemma skipn_spaces (s : str) : skipn (spaces s) s = lstrip s.
Proof.
  induction s as [|c s IH]; [reflexivity|]. cbn [spaces lstrip].
  destruct (isspace c); [exact IH | reflexivity].
Qed.

Lemma lstrip_blank_app (w s : str) : blank w -> lstrip (w ++ s) = lstrip s.
Proof.
  induction 1 as [|c w white _ IH]; [reflexivity|].
  cbn [app lstrip]. now rewrite white.
Qed.

Lemma spaces_blank_app (w s : str) :
  blank w -> spaces (w ++ s) = List.length w + spaces s.
Proof.
  induction 1 as [|c w white _ IH]; [reflexivity|].
  cbn [app spaces List.length]. rewrite white, IH. reflexivity.
Qed.

Lemma lstrip_split (s : str) : exists lead, blank lead /\ s = lead ++ lstrip s.
Proof.
  induction s as [|c s (lead & white & IH)]; [now exists []|].
  cbn [lstrip]. destruct (isspace c) eqn:space.
  - exists (c :: lead). split; [now constructor|]. cbn. now rewrite <- IH.
  - now exists [].
Qed.

Lemma blank_rev (w : str) : blank w -> blank (rev w).
Proof.
  intros white. apply Forall_forall. intros c inside.
  rewrite Forall_forall in white. apply white. now apply in_rev.
Qed.

Lemma rstrip_split (s : str) : exists trail, blank trail /\ s = rstrip s ++ trail.
Proof.
  unfold rstrip. destruct (lstrip_split (rev s)) as (lead & white & split).
  exists (rev lead). split; [now apply blank_rev|].
  rewrite <- rev_app_distr, <- split. now rewrite rev_involutive.
Qed.

(** A text is its stripped form between two runs of whitespace. *)
Lemma strip_split (s : str) :
  exists lead trail, blank lead /\ blank trail /\ s = lead ++ strip s ++ trail.
Proof.
  destruct (lstrip_split s) as (lead & white & left).
  destruct (rstrip_split (lstrip s)) as (trail & white' & right).
  exists lead, trail. unfold strip. now rewrite <- right.
Qed.

(** Whitespace before a text that ends with something else stops inside
    the text. *)
Lemma lstrip_solid_end (u rest : str) :
  u <> [] ->
  (forall front c, u = front ++ [c] -> isspace c = false) ->
  exists x tail, lstrip (u ++ rest) = x :: tail /\ In x u.
Proof.
  induction u as [|c u IH]; intros some solid; [congruence|].
  cbn [app lstrip]. destruct (isspace c) eqn:space.
  - destruct u as [|c' u'].
    + now rewrite (solid [] c eq_refl) in space.
    + destruct IH as (x & tail & stripped & inside).
      * discriminate.
      * intros front last ended. apply (solid (c :: front) last).
        cbn. now rewrite ended.
      * exists x, tail. split; [exact stripped | now right].
  - exists c, (u ++ rest). split; [reflexivity | now left].
Qed.

(** *** One step of the substitution *)

Lemma drop_skip (k : nat) (s : str) :
  drop_matches k s = drop_matches 0 (skipn k s).
Proof.
  revert s. induction k as [|k IH]; intros s; [reflexivity|].
  destruct s as [|c s]; [reflexivity|]. cbn [drop_matches skipn]. apply IH.
Qed.

Lemma drop_match (n : nat) (s : str) :
  match_length s = Some n -> 0 < n ->
  clean_fences s = clean_fences (skipn n s).
Proof.
  unfold clean_fences. intros matched positive.
  destruct s as [|c s].
  - now rewrite skipn_nil.
  - cbn [drop_matches]. rewrite matched.
    destruct n as [|k]; [lia|]. cbn [skipn]. apply drop_skip.
Qed.

Lemma drop_keep (c : N) (s : str) :
  match_length (c :: s) = None ->
  clean_fences (c :: s) = c :: clean_fences s.
Proof.
  unfold clean_fences. intros unmatched. cbn [drop_matches].
  now rewrite unmatched.
Qed.

Lemma no_fence_here (s : str) :
  (forall x tail, s = x :: tail -> x <> 96%N) ->
  startswith s fence = false /\ startswith s json_fence = false.
Proof.
  intros plain. destruct s as [|x tail]; [now split|].
  pose proof (plain x tail eq_refl) as other.
  apply N.eqb_neq in other. cbn. now rewrite other.
Qed.

(** *** Texts without a backtick *)

Lemma match_length_plain (s : str) : ~ In 96%N s -> match_length s = None.
Proof.
  intros plain. unfold match_length.
  destruct (no_fence_here s) as (_ & ->).
  { intros x tail -> same. apply plain. now left. }
  rewrite skipn_spaces.
  destruct (no_fence_here (lstrip s)) as (-> & _); [|reflexivity].
  intros x tail stripped same. apply plain.
  destruct (lstrip_split s) as (lead & _ & whole). rewrite whole, stripped.
  apply in_or_app. right. now left.
Qed.

(** The text between the fences: kept up to the whitespace before the
    closing fence. *)
Lemma clean_body (u w : str) :
  ~ In 96%N u ->
  (forall front c, u = front ++ [c] -> isspace c = false) ->
  blank w ->
  clean_fences (u ++ w ++ fence) = u.
Proof.
  intros plain solid white.
  induction u as [|c u IH]; cbn [app].
  - assert (closing : match_length (w ++ fence)
                      = Some (List.length w + List.length fence)).
    { unfold match_length.
      assert (startswith (w ++ fence) json_fence = false) as ->.
      { destruct white as [|x w space _]; [reflexivity|].
        cbn [app]. cbn.
        destruct (N.eqb_spec x 96) as [-> | _]; [discriminate | reflexivity]. }
      rewrite spaces_blank_app by exact white.
      change (spaces fence) with 0. rewrite Nat.add_0_r, skipn_app, skipn_all,
        Nat.sub_diag.
      reflexivity. }
    rewrite (drop_match _ _ closing) by (cbn; lia).
    rewrite <- length_app, skipn_all. reflexivity.
  - assert (other : c <> 96%N) by (intros ->; apply plain; now left).
    assert (unmatched : match_length (c :: u ++ w ++ fence) = None).
    { unfold match_length.
      destruct (no_fence_here (c :: u ++ w ++ fence)) as (_ & ->).
      { now intros x tail [= <- _]. }
      rewrite skipn_spaces.
      destruct (lstrip_solid_end (c :: u) (w ++ fence)) as (x & tail & stripped & inside);
        [discriminate | exact solid |].
      cbn [app] in stripped. rewrite stripped.
      destruct (no_fence_here (x :: tail)) as (-> & _); [|reflexivity].
      intros x' tail' [= <- _] same. apply plain. now rewrite <- same. }
    rewrite (drop_keep _ _ unmatched). f_equal. apply IH.
    + intros inside. apply plain. now right.
    + intros front last ended. apply (solid (c :: front) last).
      cbn. now rewrite ended.
Qed.

(** X21. A reply wrapped in a [```json] fence is unwrapped: whatever
    whitespace follows the opening fence and precedes the closing one,
    [clean_fences] returns the text between them, stripped, when that text
    holds no backtick. *)
Theorem clean_fences_unwraps (before body after : str) :
  blank before -> blank after -> ~ In 96%N body ->
  clean_fences (json_fence ++ before ++ body ++ after ++ fence) = strip body.
Proof.
  intros white white' plain.
  assert (opening : match_length (json_fence ++ before ++ body ++ after ++ fence)
                    = Some (List.length json_fence
                            + spaces (before ++ body ++ after ++ fence))).
  { unfold match_length. rewrite RationaleFacts.startswith_app.
    rewrite skipn_app, skipn_all, Nat.sub_diag. reflexivity. }
  rewrite (drop_match _ _ opening) by (cbn; lia).
  assert (rest : skipn (List.length json_fence
                        + spaces (before ++ body ++ after ++ fence))
                   (json_fence ++ before ++ body ++ after ++ fence)
                 = lstrip (body ++ after ++ fence)).
  { rewrite skipn_app, skipn_all2 by lia. cbn [app].
    replace (List.length json_fence
             + spaces (before ++ body ++ after ++ fence)
             - List.length json_fence)
      with (spaces (before ++ body ++ after ++ fence)) by lia.
    rewrite skipn_spaces. now apply lstrip_blank_app. }
  rewrite rest. clear opening rest.
  destruct (strip_split body) as (lead & trail & space & space' & whole).
  destruct (StripFacts.strip_ends body) as (first & last).
  remember (strip body) as core eqn:stripped.
  assert (clean : ~ In 96%N core).
  { intros inside. apply plain. rewrite whole.
    apply in_or_app. right. apply in_or_app. now left. }
  rewrite whole, <- !app_assoc, lstrip_blank_app by exact space.
  rewrite (app_assoc trail after fence).
  assert (closing : blank (trail ++ after)) by now apply Forall_app.
  destruct core as [|c core'].
  - cbn [app]. rewrite lstrip_blank_app by exact closing.
    reflexivity.
  - cbn [app lstrip]. rewrite (first c core' eq_refl).
    apply (clean_body (c :: core') (trail ++ after));
      [exact clean | intros front x ended; exact (last x front ended)
      | exact closing].
Qed.

Lemma clean_fences_unwraps_witness :
  clean_fences (json_fence ++ [10%N] ++ lit "{1}" ++ [10%N] ++ fence)
  = strip (lit "{1}").
Proof.
  apply (clean_fences_unwraps [10%N] (lit "{1}") [10%N]).
  - repeat constructor.
  - repeat constructor.
  - vm_compute. intuition discriminate.
Defined.

(** X22. A reply without a backtick goes through [clean_fences]
    unchanged. *)
Theorem clean_fences_keeps_plain_text (output_text : str) :
  ~ In 96%N output_text -> clean_fences output_text = output_text.
Proof.
  induction output_text as [|c s IH]; intros plain; [reflexivity|].
  rewrite drop_keep by now apply match_length_plain.
  f_equal. apply IH. intros inside. apply plain. now right.
Qed.

Lemma clean_fences_keeps_plain_text_witness :
  clean_fences (lit "{1}") = lit "{1}".
Proof.
  apply (clean_fences_keeps_plain_text (lit "{1}")).
  vm_compute. intuition discriminate.
Defined.

End FenceFacts.

(** ** What an inference run records, and what unusable inputs cost *)

Module InferenceEdgeFacts.
Import Py PyFacts Inference.

Lemma keys_fold_set (A : Type) (key : A -> str) (value : A -> json)
    (l : list A) (results : dict json) (k : str) :
  In k (keys (fold_left (fun r x => dict_set r (key x) (value x)) l results)) ->
  In k (keys results) \/ In k (map key l).
Proof.
  revert results. induction l as [|x l IH]; intros results inside;
    [now left|].
  cbn [fold_left] in inside. apply IH in inside.
  destruct inside as [inside | inside]; [|right; now right].
  apply keys_set_In in inside.
  destruct inside as [-> | inside]; [right; now left | now left].
Qed.

Section Loops.
Variable env : environment.
Variable task : nat.

(** A loop only adds ids of the files it is given. *)
Local Abbreviation from_files files results r :=
  (forall k, In k (keys (fst (fst r))) ->
             In k (keys results) \/ In k (map get_image_id files)).

Lemma no_rationales_pairs_keys (files : list str) (results : dict json)
    (d : Files.disk) (sent : nat) :
  from_files files results (NoRationales.pairs_loop env files results d sent).
Proof.
  revert results d sent.
  induction files as [|filename rest IH]; intros results d sent k;
    cbn [NoRationales.pairs_loop map]; [now left|].
  assert (later : forall r d' sent',
            In k (keys (fst (fst (NoRationales.pairs_loop env rest r d' sent')))) ->
            (In k (keys r) -> In k (keys results) \/ get_image_id filename = k) ->
            In k (keys results) \/ In k (get_image_id filename :: map get_image_id rest)).
  { intros r d' sent' inside old. apply IH in inside.
    destruct inside as [inside | inside]; [|right; now right].
    destruct (old inside) as [known | same]; [now left | right; now left]. }
  destruct (negb (text_exists env _)); [intros inside; eapply later; eauto|].
  destruct (negb _ || _); [intros inside; eapply later; eauto|].
  destruct (process_batch (create env) sent 0) as [[text|] sent1];
    [|intros inside; eapply later; eauto].
  destruct (truthy text); [|intros inside; eapply later; eauto].
  intros inside. eapply later; [exact inside|].
  intros stored. apply keys_set_In in stored.
  destruct stored as [-> | known]; [now right | now left].
Qed.

Lemma with_rationales_pairs_keys (files : list str) (results : dict json)
    (d : Files.disk) (sent : nat) :
  from_files files results
    (WithRationales.pairs_loop env task files results d sent).
Proof.
  revert results d sent.
  induction files as [|filename rest IH]; intros results d sent k;
    cbn [WithRationales.pairs_loop map]; [now left|].
  assert (later : forall r d' sent',
            In k (keys (fst (fst (WithRationales.pairs_loop env task rest r d'
                                    sent')))) ->
            (In k (keys r) -> In k (keys results) \/ get_image_id filename = k) ->
            In k (keys results) \/ In k (get_image_id filename :: map get_image_id rest)).
  { intros r d' sent' inside old. apply IH in inside.
    destruct inside as [inside | inside]; [|right; now right].
    destruct (old inside) as [known | same]; [now left | right; now left]. }
  destruct (negb (text_exists env _)); [intros inside; eapply later; eauto|].
  destruct (negb _ || _); [intros inside; eapply later; eauto|].
  destruct (process_batch (create env) sent 0) as [[text|] sent1];
    [|intros inside; eapply later; eauto].
  destruct (truthy text); [|intros inside; eapply later; eauto].
  destruct (WithRationales.parse_response_and_rationale text)
    as [analysis rationale].
  intros inside. eapply later; [exact inside|].
  intros stored. apply keys_set_In in stored.
  destruct stored as [-> | known]; [now right | now left].
Qed.

Lemma no_rationales_batches_keys (starts : list nat) (files : list str)
    (results : dict json) (d : Files.disk) (sent : nat) :
  from_files files results
    (NoRationales.batches_loop env starts files results d sent).
Proof.
  revert results d sent.
  induction starts as [|i rest IH]; intros results d sent k;
    cbn [NoRationales.batches_loop]; [now left|].
  assert (later : forall r d' sent',
            In k (keys (fst (fst (NoRationales.batches_loop env rest files r d'
                                    sent')))) ->
            (In k (keys r) ->
             In k (keys results) \/ In k (map get_image_id files)) ->
            In k (keys results) \/ In k (map get_image_id files)).
  { intros r d' sent' inside old. apply IH in inside.
    destruct inside as [inside | inside]; [now apply old | now right]. }
  destruct (filter _ _); [intros inside; eapply later; eauto|].
  destruct (process_batch (create env) sent 0) as [[text|] sent1];
    [|intros inside; eapply later; eauto].
  destruct (truthy text); [|intros inside; eapply later; eauto].
  intros inside. eapply later; [exact inside|].
  unfold NoRationales.record_batch. intros stored.
  apply (keys_fold_set _ get_image_id (fun _ => JStr text)) in stored.
  destruct stored as [known | stored]; [now left | right].
  apply in_map_iff in stored. destruct stored as (f & <- & inside').
  apply in_map. eapply ResumeFacts.batch_at_incl. exact inside'.
Qed.

Lemma with_rationales_batches_keys (starts : list nat) (files : list str)
    (results : dict json) (d : Files.disk) (sent : nat) :
  from_files files results
    (WithRationales.batches_loop env task starts files results d sent).
Proof.
  revert results d sent.
  induction starts as [|i rest IH]; intros results d sent k;
    cbn [WithRationales.batches_loop]; [now left|].
  assert (later : forall r d' sent',
            In k (keys (fst (fst (WithRationales.batches_loop env task rest
                                    files r d' sent')))) ->
            (In k (keys r) ->
             In k (keys results) \/ In k (map get_image_id files)) ->
            In k (keys results) \/ In k (map get_image_id files)).
  { intros r d' sent' inside old. apply IH in inside.
    destruct inside as [inside | inside]; [now apply old | now right]. }
  destruct (filter _ _) as [|valid others] eqn:usable;
    [intros inside; eapply later; eauto|].
  destruct (process_batch (create env) sent 0) as [[text|] sent1];
    [|intros inside; eapply later; eauto].
  destruct (truthy text); [|intros inside; eapply later; eauto].
  intros inside. eapply later; [exact inside|].
  unfold WithRationales.record_batch.
  destruct (WithRationales.parse_response_and_rationale text)
    as [analysis rationale].
  intros stored.
  apply (keys_fold_set _ get_image_id
           (fun filename =>
              WithRationales.entry task (get_image_id filename) analysis
                rationale)) in stored.
  destruct stored as [known | stored]; [now left | right].
  apply in_map_iff in stored. destruct stored as (f & <- & inside').
  apply in_map. eapply ResumeFacts.batch_at_incl.
  rewrite <- usable in inside'. apply filter_In in inside'. apply inside'.
Qed.

End Loops.

(** X23. An inference run records nothing of its own invention: every key
    of the output file of a finished run was a key of the checkpoint it
    loaded or is the id of an image file of the data directory. *)
Theorem recorded_ids_are_listed (env : environment) (task : nat)
    (listing : list str) (d d' : Files.disk) (sent sent' : nat)
    (m : dict json) (k : str) :
  NoRationales.main env task listing d sent = (Finished, d', sent')
  \/ WithRationales.main env task listing d sent = (Finished, d', sent') ->
  Files.output_file d' = Some m ->
  In k (keys m) ->
  In k (keys (Files.load_checkpoint d))
  \/ exists f, In f listing /\ is_image f = true /\ get_image_id f = k.
Proof.
  intros finished written inside.
  assert (listed : forall files,
            files = files_to_process (Files.load_checkpoint d) (all_files listing) ->
            In k (map get_image_id files) ->
            exists f, In f listing /\ is_image f = true /\ get_image_id f = k).
  { intros files -> chosen. apply in_map_iff in chosen.
    destruct chosen as (f & <- & chosen). exists f.
    apply FilterFacts.files_to_process_In in chosen.
    destruct chosen as [chosen _]. unfold all_files in chosen.
    apply (Permutation_in _
             (Permutation_sym (EnumerationFacts.sorted_perm _ get_image_id _)))
      in chosen.
    apply filter_In in chosen. now destruct chosen. }
  destruct finished as [finished | finished];
    [unfold NoRationales.main in finished
    | unfold WithRationales.main in finished];
    destruct (files_to_process _ _) as [|f files] eqn:left_over;
    try discriminate;
    specialize (listed (f :: files) eq_refl).
  - destruct (6 <=? task).
    + pose proof (no_rationales_pairs_keys env (f :: files)
                    (Files.load_checkpoint d) d sent k) as from.
      destruct (NoRationales.pairs_loop _ _ _ _ _) as [[results d1] sent1].
      injection finished as <- _. cbn in written, from.
      injection written as <-. destruct (from inside); auto.
    + pose proof (no_rationales_batches_keys env
                    (range_step (List.length (f :: files)) BATCH_SIZE)
                    (f :: files) (Files.load_checkpoint d) d sent k) as from.
      destruct (NoRationales.batches_loop _ _ _ _ _ _) as [[results d1] sent1].
      injection finished as <- _. cbn in written, from.
      injection written as <-. destruct (from inside); auto.
  - destruct (6 <=? task).
    + pose proof (with_rationales_pairs_keys env task (f :: files)
                    (Files.load_checkpoint d) d sent k) as from.
      destruct (WithRationales.pairs_loop _ _ _ _ _ _) as [[results d1] sent1].
      injection finished as <- _. cbn in written, from.
      injection written as <-. destruct (from inside); auto.
    + pose proof (with_rationales_batches_keys env task
                    (range_step (List.length (f :: files)) BATCH_SIZE)
                    (f :: files) (Files.load_checkpoint d) d sent k) as from.
      destruct (WithRationales.batches_loop _ _ _ _ _ _ _)
        as [[results d1] sent1].
      injection finished as <- _. cbn in written, from.
      injection written as <-. destruct (from inside); auto.
Qed.

Lemma recorded_ids_are_listed_witness :
  In (lit "2") (keys (Files.load_checkpoint
                        {| Files.checkpoint_file := None;
                           Files.output_file := None; Files.log := [] |}))
  \/ exists f, In f [lit "notes.txt"; lit "2.jpg"] /\ is_image f = true
               /\ get_image_id f = lit "2".
Proof.
  apply (recorded_ids_are_listed
           {| text_exists := fun _ => false;
              encode_image := fun _ => Some (lit "QQ==");
              read_text_file := fun _ => None;
              create := fun _ => Content (lit "a dog") |}
           1 [lit "notes.txt"; lit "2.jpg"]
           {| Files.checkpoint_file := None; Files.output_file := None;
              Files.log := [] |}
           {| Files.checkpoint_file := Some [(lit "2", JStr (lit "a dog"))];
              Files.output_file := Some [(lit "2", JStr (lit "a dog"))];
              Files.log :=
                [Files.WroteCheckpoint [(lit "2", JStr (lit "a dog"))];
                 Files.WroteOutput [(lit "2", JStr (lit "a dog"))]] |}
           0 1 [(lit "2", JStr (lit "a dog"))] (lit "2")).
  - left. vm_compute. reflexivity.
  - reflexivity.
  - left. reflexivity.
Defined.

Section Unusable.
Variable env : environment.
Variable task : nat.

Local Abbreviation incomplete f :=
  (negb (text_exists env (text_name (get_image_id f)))
   || (negb (truthy_opt (encode_image env f))
       || is_none (read_text_file env (text_name (get_image_id f))))).

Lemma no_rationales_pairs_idle (files : list str) (results : dict json)
    (d : Files.disk) (sent : nat) :
  (forall f, In f files -> incomplete f = true) ->
  NoRationales.pairs_loop env files results d sent = (results, d, sent).
Proof.
  induction files as [|f files IH]; intros all; [reflexivity|].
  cbn [NoRationales.pairs_loop].
  pose proof (all f (or_introl eq_refl)) as skipped.
  destruct (negb (text_exists env _)).
  - apply IH. intros g inside. apply all. now right.
  - cbn [orb] in skipped. rewrite skipped.
    apply IH. intros g inside. apply all. now right.
Qed.

Lemma with_rationales_pairs_idle (files : list str) (results : dict json)
    (d : Files.disk) (sent : nat) :
  (forall f, In f files -> incomplete f = true) ->
  WithRationales.pairs_loop env task files results d sent = (results, d, sent).
Proof.
  induction files as [|f files IH]; intros all; [reflexivity|].
  cbn [WithRationales.pairs_loop].
  pose proof (all f (or_introl eq_refl)) as skipped.
  destruct (negb (text_exists env _)).
  - apply IH. intros g inside. apply all. now right.
  - cbn [orb] in skipped. rewrite skipped.
    apply IH. intros g inside. apply all. now right.
Qed.

Lemma no_image_in_batch (files : list str) (i : nat) :
  (forall f, In f files -> truthy_opt (encode_image env f) = false) ->
  filter (fun o => truthy_opt o) (map (encode_image env) (batch_at files i)) = []
  /\ filter (fun f => truthy_opt (encode_image env f)) (batch_at files i) = [].
Proof.
  intros all.
  assert (none : forall f, In f (batch_at files i) ->
                           truthy_opt (encode_image env f) = false).
  { intros f inside. apply all. eapply ResumeFacts.batch_at_incl. exact inside. }
  induction (batch_at files i) as [|f batch IH]; [now split|].
  cbn [map filter]. rewrite (none f) by now left.
  apply IH. intros g inside. apply none. now right.
Qed.

Lemma no_rationales_batches_idle (starts : list nat) (files : list str)
    (results : dict json) (d : Files.disk) (sent : nat) :
  (forall f, In f files -> truthy_opt (encode_image env f) = false) ->
  NoRationales.batches_loop env starts files results d sent = (results, d, sent).
Proof.
  intros all. induction starts as [|i starts IH]; [reflexivity|].
  cbn [NoRationales.batches_loop].
  destruct (no_image_in_batch files i all) as (-> & _). exact IH.
Qed.

Lemma with_rationales_batches_idle (starts : list nat) (files : list str)
    (results : dict json) (d : Files.disk) (sent : nat) :
  (forall f, In f files -> truthy_opt (encode_image env f) = false) ->
  WithRationales.batches_loop env task starts files results d sent
  = (results, d, sent).
Proof.
  intros all. induction starts as [|i starts IH]; [reflexivity|].
  cbn [WithRationales.batches_loop].
  destruct (no_image_in_batch files i all) as (_ & ->). exact IH.
Qed.

End Unusable.

(** X24. A run in which no file to process can be used (in the image-text
    path: the text file is missing or unreadable, or the image cannot be
    encoded; in the image-only path: no image can be encoded) sends no
    request and writes no checkpoint; it still ends with the final save,
    which writes the checkpoint as loaded to the output file. *)
Theorem unusable_inputs_cost_nothing (env : environment) (task : nat)
    (listing : list str) (d : Files.disk) (sent : nat) :
  let files :=
    files_to_process (Files.load_checkpoint d) (all_files listing) in
  files <> [] ->
  (forall f, In f files ->
     (if 6 <=? task
      then negb (text_exists env (text_name (get_image_id f)))
           || (negb (truthy_opt (encode_image env f))
               || is_none (read_text_file env (text_name (get_image_id f))))
      else negb (truthy_opt (encode_image env f))) = true) ->
  NoRationales.main env task listing d sent
  = (Finished, Files.write_output (Files.load_checkpoint d) d, sent)
  /\ WithRationales.main env task listing d sent
     = (Finished, Files.write_output (Files.load_checkpoint d) d, sent).
Proof.
  intros files some unusable.
  unfold NoRationales.main, WithRationales.main. fold files.
  destruct files as [|f rest] eqn:left_over; [congruence|].
  rewrite <- left_over in *. clear left_over.
  destruct (6 <=? task).
  - rewrite no_rationales_pairs_idle, with_rationales_pairs_idle
      by exact unusable.
    now split.
  - assert (none : forall f, In f files ->
                             truthy_opt (encode_image env f) = false).
    { intros g inside. apply negb_true_iff. now apply unusable. }
    rewrite no_rationales_batches_idle, with_rationales_batches_idle
      by exact none.
    now split.
Qed.

Lemma unusable_inputs_cost_nothing_witness :
  NoRationales.main
    {| text_exists := fun _ => false;
       encode_image := fun _ => None;
       read_text_file := fun _ => None;
       create := fun _ => Content (lit "a dog") |}
    1 [lit "1.jpg"]
    {| Files.checkpoint_file := None; Files.output_file := None;
       Files.log := [] |} 0
  = (Finished,
     Files.write_output
       (Files.load_checkpoint
          {| Files.checkpoint_file := None; Files.output_file := None;
             Files.log := [] |})
       {| Files.checkpoint_file := None; Files.output_file := None;
          Files.log := [] |}, 0).
Proof.
  refine (proj1 (unusable_inputs_cost_nothing
                   {| text_exists := fun _ => false;
                      encode_image := fun _ => None;
                      read_text_file := fun _ => None;
                      create := fun _ => Content (lit "a dog") |}
                   1 [lit "1.jpg"]
                   {| Files.checkpoint_file := None;
                      Files.output_file := None; Files.log := [] |} 0 _ _)).
  - vm_compute. discriminate.
  - intros f inside. reflexivity.
Defined.

End InferenceEdgeFacts.

(** ** Where a response is split *)

Module RationaleSplitFacts.
Import Py PyFacts.

(** X25. On a response without U+0130 before the end of the marker,
    [parse_response_and_rationale] splits at the first occurrence of
    ["your rationale:"], whatever the case of its letters: the analysis is
    the stripped text before it, the rationale the stripped text after it.
    A response in which the marker does not occur is the analysis as a
    whole, stripped, with the fixed rationale. *)
Theorem rationale_split_is_case_insensitive (pre m post text : str) :
  (Forall (fun c => c <> 304%N) (pre ++ m) ->
   lower m = WithRationales.marker ->
   (forall j, j < List.length pre ->
      startswith (skipn j (lower (pre ++ m ++ post))) WithRationales.marker
      = false) ->
   WithRationales.parse_response_and_rationale (pre ++ m ++ post)
   = (strip pre, strip post))
  /\ ((forall j, j <= List.length (lower text) ->
         startswith (skipn j (lower text)) WithRationales.marker = false) ->
      WithRationales.parse_response_and_rationale text
      = (strip text, lit "No explicit rationale provided.")).
Proof.
  split.
  - apply RationaleFacts.parse_splits_at_first_marker.
  - apply RationaleFacts.parse_without_marker.
Qed.

Lemma rationale_split_is_case_insensitive_witness :
  WithRationales.parse_response_and_rationale
    (lit "A red car. " ++ lit "YOUR Rationale:" ++ lit " It is red.")
  = (strip (lit "A red car. "), strip (lit " It is red."))
  /\ WithRationales.parse_response_and_rationale (lit " A red car. ")
     = (strip (lit " A red car. "), lit "No explicit rationale provided.").
Proof.
  destruct (rationale_split_is_case_insensitive (lit "A red car. ")
              (lit "YOUR Rationale:") (lit " It is red.")
              (lit " A red car. ")) as (split_at & whole).
  split.
  - apply split_at.
    + apply Forall_forall. intros c inside. vm_compute in inside.
      intuition (subst; discriminate).
    + reflexivity.
    + intros j small.
      do 11 (destruct j as [|j]; [vm_compute; reflexivity|]).
      vm_compute in small. lia.
  - apply whole. intros j small.
    do 13 (destruct j as [|j]; [vm_compute; reflexivity|]).
    vm_compute in small. lia.
Defined.

End RationaleSplitFacts.

(** ** Replies without a usable score *)

Module ScoreEdgeFacts.
Import Py PyFacts.

(** X26. A reply that is a JSON object but holds no usable score (no
    ["score"] key, [null], a list, an object, or a string that [float]
    does not read) counts as a failed pass: when every reply of the budget
    is of this kind, [evaluate_one_item] sends four requests and returns
    the default [{"score": 50}]. *)
Theorem unusable_score_is_retried
    (float_of_str : str -> option spec_float)
    (post : nat -> Evaluation.reply) (text_id : str) :
  (forall k, k <= Evaluation.MAX_RETRIES ->
     exists fields,
       post k = Evaluation.Parsed (JDict fields)
       /\ match dict_get fields (lit "score") with
          | None | Some JNull | Some (JList _) | Some (JDict _) => True
          | Some (JStr s) => float_of_str s = None
          | Some _ => False
          end) ->
  Evaluation.evaluate_one_item float_of_str post 0 text_id 0
  = (Return (text_id, JDict [(lit "score", JInt 50)]), 4).
Proof.
  intros unusable.
  rewrite RetryFacts.evaluate_exhausted; [reflexivity | unfold Evaluation.MAX_RETRIES; lia |].
  intros j small. cbn [Nat.add].
  destruct (unusable j) as (fields & -> & score); [lia|].
  unfold Evaluation.try_block, Evaluation.get_score, Evaluation.score_key.
  destruct (dict_get fields (lit "score")) as [[ | | | |s| | ]|];
    try contradiction; try reflexivity.
  unfold Evaluation.clip_score, float. now rewrite score.
Qed.

Lemma unusable_score_is_retried_witness :
  Evaluation.evaluate_one_item (fun _ => None)
    (fun _ => Evaluation.Parsed (JDict [(lit "rating", JInt 85)])) 0
    (lit "7") 0
  = (Return (lit "7", JDict [(lit "score", JInt 50)]), 4).
Proof.
  apply (unusable_score_is_retried (fun _ => None)
           (fun _ => Evaluation.Parsed (JDict [(lit "rating", JInt 85)]))
           (lit "7")).
  intros k _. exists [(lit "rating", JInt 85)]. split; [reflexivity|].
  exact I.
Defined.

End ScoreEdgeFacts.

(** ** What a run of the image-only path records *)

Module BatchRunFacts.
Import Py PyFacts Inference.

(** An empty list of files has no batch. *)
Lemma range_step_files (files : list str) (before after : list nat) (i : nat) :
  range_step (List.length files) BATCH_SIZE = before ++ i :: after ->
  files <> [].
Proof.
  intros cut ->. cbn in cut. now destruct before.
Qed.

Section Loops.
Variable env : environment.
Variable task : nat.

Local Abbreviation results_of r := (fst (fst r)).
Local Abbreviation disk_of r := (snd (fst r)).
Local Abbreviation sent_of r := (snd r).

(** The loop over two stretches of batch starts is the loop over the
    second started where the first ended. *)
Lemma no_rationales_batches_app (before after : list nat) (files : list str)
    (results : dict json) (d : Files.disk) (sent : nat) :
  NoRationales.batches_loop env (before ++ after) files results d sent
  = NoRationales.batches_loop env after files
      (results_of (NoRationales.batches_loop env before files results d sent))
      (disk_of (NoRationales.batches_loop env before files results d sent))
      (sent_of (NoRationales.batches_loop env before files results d sent)).
Proof.
  revert results d sent.
  induction before as [|i before IH]; intros results d sent;
    cbn [app NoRationales.batches_loop]; [reflexivity|].
  destruct (filter _ _); [apply IH|].
  destruct (process_batch (create env) sent 0) as [result sent1].
  apply IH.
Qed.

Lemma with_rationales_batches_app (before after : list nat) (files : list str)
    (results : dict json) (d : Files.disk) (sent : nat) :
  WithRationales.batches_loop env task (before ++ after) files results d sent
  = WithRationales.batches_loop env task after files
      (results_of (WithRationales.batches_loop env task before files results d sent))
      (disk_of (WithRationales.batches_loop env task before files results d sent))
      (sent_of (WithRationales.batches_loop env task before files results d sent)).
Proof.
  revert results d sent.
  induction before as [|i before IH]; intros results d sent;
    cbn [app WithRationales.batches_loop]; [reflexivity|].
  destruct (filter _ _); [apply IH|].
  destruct (process_batch (create env) sent 0) as [result sent1].
  apply IH.
Qed.

(** A loop leaves alone every key that no batch it goes through could
    store: the ids of the file names of its batches without rationales,
    the ids of the file names that encode with rationales. *)
Lemma no_rationales_batches_keeps (starts : list nat) (files : list str)
    (results : dict json) (d : Files.disk) (sent : nat) (k : str) :
  (forall j, In j starts -> ~ In k (map get_image_id (batch_at files j))) ->
  dict_get (results_of (NoRationales.batches_loop env starts files results d sent)) k
  = dict_get results k.
Proof.
  revert results d sent.
  induction starts as [|i rest IH]; intros results d sent outside;
    cbn [NoRationales.batches_loop]; [reflexivity|].
  assert (later : forall j, In j rest ->
                    ~ In k (map get_image_id (batch_at files j)))
    by (intros j inside; apply outside; now right).
  destruct (filter _ _); [now apply IH|].
  destruct (process_batch (create env) sent 0) as [result sent1].
  rewrite IH by exact later.
  destruct result as [text|]; [|reflexivity].
  destruct (truthy text); [|reflexivity].
  rewrite BatchFacts.no_rationales_record_get.
  destruct (str_in k _) eqn:inside; [|reflexivity].
  apply str_in_In in inside. exfalso. apply (outside i); [now left | exact inside].
Qed.

Lemma with_rationales_batches_keeps (starts : list nat) (files : list str)
    (results : dict json) (d : Files.disk) (sent : nat) (k : str) :
  (forall j, In j starts ->
     ~ In k (map get_image_id (filter (Spec.encodes env) (batch_at files j)))) ->
  dict_get (results_of (WithRationales.batches_loop env task starts files results d sent)) k
  = dict_get results k.
Proof.
  revert results d sent.
  induction starts as [|i rest IH]; intros results d sent outside;
    cbn [WithRationales.batches_loop]; [reflexivity|].
  assert (later : forall j, In j rest ->
                    ~ In k (map get_image_id
                              (filter (Spec.encodes env) (batch_at files j))))
    by (intros j inside; apply outside; now right).
  change (fun f => truthy_opt (encode_image env f)) with (Spec.encodes env).
  destruct (filter (Spec.encodes env) (batch_at files i)) eqn:valid;
    [now apply IH|].
  destruct (process_batch (create env) sent 0) as [result sent1].
  rewrite IH by exact later.
  destruct result as [text|]; [|reflexivity].
  destruct (truthy text); [|reflexivity].
  rewrite BatchFacts.with_rationales_record_get.
  destruct (str_in k _) eqn:inside; [|reflexivity].
  apply str_in_In in inside. exfalso. apply (outside i); [now left|].
  rewrite valid. exact inside.
Qed.

(** What a loop started on a disk that holds its mapping leaves behind. *)
Lemma no_rationales_batches_after_write (starts : list nat) (files : list str)
    (results : dict json) (d : Files.disk) (sent : nat) :
  Files.checkpoint_file d = Some results ->
  Files.checkpoint_file
    (disk_of (NoRationales.batches_loop env starts files results d sent))
  = Some (results_of (NoRationales.batches_loop env starts files results d sent)).
Proof.
  intros held.
  pose proof (InferenceRunFacts.no_rationales_batches_invariant env starts
                files results d sent) as kept.
  destruct (NoRationales.batches_loop env starts files results d sent)
    as [[results' d'] sent'].
  destruct kept as (_ & _ & [[-> ->] | written] & _); cbn; assumption.
Qed.

Lemma with_rationales_batches_after_write (starts : list nat)
    (files : list str) (results : dict json) (d : Files.disk) (sent : nat) :
  Files.checkpoint_file d = Some results ->
  Files.checkpoint_file
    (disk_of (WithRationales.batches_loop env task starts files results d sent))
  = Some (results_of (WithRationales.batches_loop env task starts files results d sent)).
Proof.
  intros held.
  pose proof (InferenceRunFacts.with_rationales_batches_invariant env task
                starts files results d sent) as kept.
  destruct (WithRationales.batches_loop env task starts files results d sent)
    as [[results' d'] sent'].
  destruct kept as (_ & _ & [[-> ->] | written] & _); cbn; assumption.
Qed.

(** The batch at start [i], reached after the starts [before], when some
    image of it encodes and the call returns a non-empty text: the
    checkpoint written at the end of the round holds the text under the id
    of every file name of the batch, and nothing of the loop's later
    rounds changes a key that no later batch has. *)
Lemma no_rationales_batch_recorded (before after : list nat) (i : nat)
    (files : list str) (results : dict json) (d : Files.disk)
    (sent sent1 : nat) (text : str) :
  (exists f, In f (batch_at files i) /\ Spec.encodes env f = true) ->
  process_batch (create env)
    (sent_of (NoRationales.batches_loop env before files results d sent)) 0
  = (Some text, sent1) ->
  truthy text = true ->
  exists m later,
    Files.log (disk_of (NoRationales.batches_loop env (before ++ i :: after)
                          files results d sent))
    = Files.log (disk_of (NoRationales.batches_loop env before files results d sent))
      ++ Files.WroteCheckpoint m :: later
    /\ Spec.only_checkpoint_writes later
    /\ (forall k,
          dict_get m k
          = if str_in k (map get_image_id (batch_at files i))
            then Some (JStr text)
            else dict_get (results_of (NoRationales.batches_loop env before
                                         files results d sent)) k)
    /\ Files.checkpoint_file
         (disk_of (NoRationales.batches_loop env (before ++ i :: after)
                     files results d sent))
       = Some (results_of (NoRationales.batches_loop env (before ++ i :: after)
                             files results d sent))
    /\ Files.output_file
         (disk_of (NoRationales.batches_loop env (before ++ i :: after)
                     files results d sent))
       = Files.output_file d
    /\ (forall k,
          (forall j, In j after ->
             ~ In k (map get_image_id (batch_at files j))) ->
          dict_get (results_of (NoRationales.batches_loop env
                                  (before ++ i :: after) files results d sent)) k
          = dict_get m k)
    /\ sent1 <= sent_of (NoRationales.batches_loop env (before ++ i :: after)
                           files results d sent).
Proof.
  intros (f0 & member & encoded) replied nonempty.
  rewrite no_rationales_batches_app.
  pose proof (InferenceRunFacts.no_rationales_batches_invariant env before
                files results d sent) as reached.
  destruct (NoRationales.batches_loop env before files results d sent)
    as [[results0 d0] sent0].
  cbn [fst snd] in *.
  destruct reached as (out0 & _).
  cbn [NoRationales.batches_loop].
  destruct (filter (fun o => truthy_opt o)
              (map (encode_image env) (batch_at files i))) eqn:images.
  { exfalso.
    assert (inside : In (encode_image env f0)
                       (filter (fun o => truthy_opt o)
                          (map (encode_image env) (batch_at files i)))).
    { apply filter_In. split; [now apply in_map | exact encoded]. }
    rewrite images in inside. exact inside. }
  rewrite replied, nonempty.
  set (m := NoRationales.record_batch (batch_at files i) text results0).
  pose proof (InferenceRunFacts.no_rationales_batches_invariant env after
                files m (Files.write_checkpoint m d0) sent1) as kept.
  pose proof (no_rationales_batches_after_write after files m
                (Files.write_checkpoint m d0) sent1 eq_refl) as held.
  pose proof (no_rationales_batches_keeps after files m
                (Files.write_checkpoint m d0) sent1) as same.
  destruct (NoRationales.batches_loop env after files m
              (Files.write_checkpoint m d0) sent1) as [[results' d'] sent'].
  cbn [fst snd] in *.
  destruct kept as (out & (writes & logged & only) & _ & more).
  exists m, writes.
  split. { rewrite logged. cbn. rewrite <- app_assoc. reflexivity. }
  split; [exact only|].
  split. { intros k. apply BatchFacts.no_rationales_record_get. }
  split; [exact held|].
  split. { rewrite out. cbn. exact out0. }
  split; [exact same | exact more].
Qed.

Lemma with_rationales_batch_recorded (before after : list nat) (i : nat)
    (files : list str) (results : dict json) (d : Files.disk)
    (sent sent1 : nat) (text : str) :
  (exists f, In f (batch_at files i) /\ Spec.encodes env f = true) ->
  process_batch (create env)
    (sent_of (WithRationales.batches_loop env task before files results d sent)) 0
  = (Some text, sent1) ->
  truthy text = true ->
  exists m later,
    Files.log (disk_of (WithRationales.batches_loop env task
                          (before ++ i :: after) files results d sent))
    = Files.log (disk_of (WithRationales.batches_loop env task before files
                            results d sent))
      ++ Files.WroteCheckpoint m :: later
    /\ Spec.only_checkpoint_writes later
    /\ (forall k,
          dict_get m k
          = if str_in k (map get_image_id
                           (filter (Spec.encodes env) (batch_at files i)))
            then Some (WithRationales.entry task k
                         (fst (WithRationales.parse_response_and_rationale text))
                         (snd (WithRationales.parse_response_and_rationale text)))
            else dict_get (results_of (WithRationales.batches_loop env task
                                         before files results d sent)) k)
    /\ Files.checkpoint_file
         (disk_of (WithRationales.batches_loop env task (before ++ i :: after)
                     files results d sent))
       = Some (results_of (WithRationales.batches_loop env task
                             (before ++ i :: after) files results d sent))
    /\ Files.output_file
         (disk_of (WithRationales.batches_loop env task (before ++ i :: after)
                     files results d sent))
       = Files.output_file d
    /\ (forall k,
          (forall j, In j after ->
             ~ In k (map get_image_id
                       (filter (Spec.encodes env) (batch_at files j)))) ->
          dict_get (results_of (WithRationales.batches_loop env task
                                  (before ++ i :: after) files results d sent)) k
          = dict_get m k)
    /\ sent1 <= sent_of (WithRationales.batches_loop env task
                           (before ++ i :: after) files results d sent).
Proof.
  intros (f0 & member & encoded) replied nonempty.
  rewrite with_rationales_batches_app.
  pose proof (InferenceRunFacts.with_rationales_batches_invariant env task
                before files results d sent) as reached.
  destruct (WithRationales.batches_loop env task before files results d sent)
    as [[results0 d0] sent0].
  cbn [fst snd] in *.
  destruct reached as (out0 & _).
  cbn [WithRationales.batches_loop].
  change (fun f => truthy_opt (encode_image env f)) with (Spec.encodes env).
  destruct (filter (Spec.encodes env) (batch_at files i)) as [|v valid]
    eqn:encodable.
  { exfalso.
    assert (inside : In f0 (filter (Spec.encodes env) (batch_at files i)))
      by (apply filter_In; split; assumption).
    rewrite encodable in inside. exact inside. }
  rewrite replied, nonempty.
  set (m := WithRationales.record_batch task (v :: valid) text results0).
  pose proof (InferenceRunFacts.with_rationales_batches_invariant env task
                after files m (Files.write_checkpoint m d0) sent1) as kept.
  pose proof (with_rationales_batches_after_write after files m
                (Files.write_checkpoint m d0) sent1 eq_refl) as held.
  pose proof (with_rationales_batches_keeps after files m
                (Files.write_checkpoint m d0) sent1) as same.
  destruct (WithRationales.batches_loop env task after files m
              (Files.write_checkpoint m d0) sent1) as [[results' d'] sent'].
  cbn [fst snd] in *.
  destruct kept as (out & (writes & logged & only) & _ & more).
  exists m, writes.
  split. { rewrite logged. cbn. rewrite <- app_assoc. reflexivity. }
  split; [exact only|].
  split. { intros k. apply BatchFacts.with_rationales_record_get. }
  split; [exact held|].
  split. { rewrite out. cbn. exact out0. }
  split; [exact same | exact more].
Qed.

End Loops.

(** C10. The image-only path ([task < 6]) of a run of [main], at the batch
    of start [i], reached after the starts [before]: some image of the
    batch encodes and [process_batch], called with the requests sent so
    far, returns the non-empty [text].  The run finishes, and the
    checkpoint [m] it writes at the end of that round and the output file
    [out] of its final save hold:
    - without rationales, [text] under the id of every file name of the
      batch, encoded or not ([out] for an id that no later batch has);
    - with rationales, the entry made of [text] under the id of every file
      name of the batch that encoded, [m] being elsewhere what the mapping
      was when the batch was reached; and [out] has nothing under the id
      of a file to process that no encodable file shares. *)
Theorem batch_response_recorded_by_run (env : environment) (task : nat)
    (listing : list str) (d : Files.disk) (sent : nat)
    (before after : list nat) (i : nat) (text : str) (sent1 : nat) :
  task < 6 ->
  let results := Files.load_checkpoint d in
  let files := files_to_process results (all_files listing) in
  range_step (List.length files) BATCH_SIZE = before ++ i :: after ->
  (exists f, In f (batch_at files i) /\ Spec.encodes env f = true) ->
  truthy text = true ->
  (let reached := NoRationales.batches_loop env before files results d sent in
   process_batch (create env) (snd reached) 0 = (Some text, sent1) ->
   exists m later out d' sent',
     NoRationales.main env task listing d sent = (Finished, d', sent')
     /\ Files.log d'
        = Files.log (snd (fst reached))
          ++ Files.WroteCheckpoint m :: later ++ [Files.WroteOutput out]
     /\ Spec.only_checkpoint_writes later
     /\ (forall f, In f (batch_at files i) ->
           dict_get m (get_image_id f) = Some (JStr text))
     /\ (forall k, ~ In k (map get_image_id (batch_at files i)) ->
           dict_get m k = dict_get (fst (fst reached)) k)
     /\ Files.output_file d' = Some out
     /\ Files.checkpoint_file d' = Some out
     /\ (forall f, In f (batch_at files i) ->
           (forall j, In j after ->
              ~ In (get_image_id f) (map get_image_id (batch_at files j))) ->
           dict_get out (get_image_id f) = Some (JStr text))
     /\ sent1 <= sent')
  /\
  (let reached :=
     WithRationales.batches_loop env task before files results d sent in
   process_batch (create env) (snd reached) 0 = (Some text, sent1) ->
   exists m later out d' sent',
     WithRationales.main env task listing d sent = (Finished, d', sent')
     /\ Files.log d'
        = Files.log (snd (fst reached))
          ++ Files.WroteCheckpoint m :: later ++ [Files.WroteOutput out]
     /\ Spec.only_checkpoint_writes later
     /\ (forall f, In f (batch_at files i) -> Spec.encodes env f = true ->
           dict_get m (get_image_id f)
           = Some (WithRationales.entry task (get_image_id f)
                     (fst (WithRationales.parse_response_and_rationale text))
                     (snd (WithRationales.parse_response_and_rationale text))))
     /\ (forall k,
           ~ In k (map get_image_id
                     (filter (Spec.encodes env) (batch_at files i))) ->
           dict_get m k = dict_get (fst (fst reached)) k)
     /\ Files.output_file d' = Some out
     /\ Files.checkpoint_file d' = Some out
     /\ (forall f, In f (batch_at files i) -> Spec.encodes env f = true ->
           (forall j, In j after ->
              ~ In (get_image_id f)
                  (map get_image_id
                     (filter (Spec.encodes env) (batch_at files j)))) ->
           dict_get out (get_image_id f)
           = Some (WithRationales.entry task (get_image_id f)
                     (fst (WithRationales.parse_response_and_rationale text))
                     (snd (WithRationales.parse_response_and_rationale text))))
     /\ (forall f, In f files ->
           (forall g, In g files -> Spec.encodes env g = true ->
                      get_image_id g <> get_image_id f) ->
           dict_get out (get_image_id f) = None)
     /\ sent1 <= sent').
Proof.
  intros small results files cut encodable nonempty.
  assert (some : files <> []) by (eapply range_step_files; exact cut).
  assert (path : (6 <=? task) = false) by (apply Nat.leb_gt; exact small).
  split.
  - intros reached replied.
    destruct (no_rationales_batch_recorded env before after i files results d
                sent sent1 text encodable replied nonempty)
      as (m & later & logged & only & recorded & held & out & same & more).
    unfold NoRationales.main. fold results. fold files.
    rewrite path, cut.
    destruct (NoRationales.batches_loop env (before ++ i :: after) files
                results d sent) as [[results' d1] sent'] eqn:final.
    cbn [fst snd] in *.
    exists m, later, results', (Files.write_output results' d1), sent'.
    split. { destruct files; [congruence | reflexivity]. }
    split. { cbn. rewrite logged, <- app_assoc. reflexivity. }
    split; [exact only|].
    split.
    { intros f inside. rewrite recorded.
      assert (str_in (get_image_id f) (map get_image_id (batch_at files i)) = true)
        as -> by (apply str_in_In; now apply in_map).
      reflexivity. }
    split.
    { intros k outside. rewrite recorded.
      destruct (str_in k _) eqn:inside; [|reflexivity].
      apply str_in_In in inside. contradiction. }
    split; [reflexivity|].
    split; [exact held|].
    split; [|exact more].
    intros f inside alone. rewrite same by exact alone. rewrite recorded.
    assert (str_in (get_image_id f) (map get_image_id (batch_at files i)) = true)
      as -> by (apply str_in_In; now apply in_map).
    reflexivity.
  - intros reached replied.
    destruct (with_rationales_batch_recorded env task before after i files
                results d sent sent1 text encodable replied nonempty)
      as (m & later & logged & only & recorded & held & out & same & more).
    pose proof (with_rationales_batches_keeps env task (before ++ i :: after)
                  files results d sent) as absent.
    unfold WithRationales.main. fold results. fold files.
    rewrite path, cut.
    destruct (WithRationales.batches_loop env task (before ++ i :: after) files
                results d sent) as [[results' d1] sent'] eqn:final.
    cbn [fst snd] in *.
    exists m, later, results', (Files.write_output results' d1), sent'.
    split. { destruct files; [congruence | reflexivity]. }
    split. { cbn. rewrite logged, <- app_assoc. reflexivity. }
    split; [exact only|].
    assert (valid : forall f, In f (batch_at files i) ->
                      Spec.encodes env f = true ->
                      str_in (get_image_id f)
                        (map get_image_id
                           (filter (Spec.encodes env) (batch_at files i)))
                      = true).
    { intros f inside encoded. apply str_in_In. apply in_map.
      apply filter_In. split; assumption. }
    split.
    { intros f inside encoded. rewrite recorded, (valid f inside encoded).
      reflexivity. }
    split.
    { intros k outside. rewrite recorded.
      destruct (str_in k _) eqn:inside; [|reflexivity].
      apply str_in_In in inside. contradiction. }
    split; [reflexivity|].
    split; [exact held|].
    split.
    { intros f inside encoded alone. rewrite same by exact alone.
      rewrite recorded, (valid f inside encoded). reflexivity. }
    split; [|exact more].
    intros f listed alone.
    rewrite absent.
    + apply FilterFacts.files_to_process_In in listed.
      destruct listed as [_ fresh].
      unfold py_str in fresh. rewrite map_id in fresh.
      apply dict_mem_false in fresh. unfold dict_mem in fresh.
      fold results in fresh.
      destruct (dict_get results (get_image_id f)); [discriminate | reflexivity].
    + intros j _ inside. apply in_map_iff in inside.
      destruct inside as (g & same_id & inside).
      apply filter_In in inside. destruct inside as [inside encoded].
      apply (alone g); [|exact encoded | exact same_id].
      eapply ResumeFacts.batch_at_incl. exact inside.
Qed.

(** A directory with [1.jpg], which encodes, and [2.jpg], which does not,
    and a model that answers [two cats]: the run without rationales stores
    the answer under both ids, the run with rationales under id 1 only. *)
Lemma batch_response_recorded_by_run_witness :
  (exists out d' sent',
     NoRationales.main
       {| text_exists := fun _ => false;
          encode_image := fun f => if str_eqb f (lit "1.jpg")
                                   then Some (lit "QQ==") else None;
          read_text_file := fun _ => None;
          create := fun _ => Content (lit "two cats") |}
       1 [lit "2.jpg"; lit "1.jpg"]
       {| Files.checkpoint_file := None; Files.output_file := None;
          Files.log := [] |} 0
     = (Finished, d', sent')
     /\ Files.output_file d' = Some out
     /\ dict_get out (lit "1") = Some (JStr (lit "two cats"))
     /\ dict_get out (lit "2") = Some (JStr (lit "two cats")))
  /\ (exists out d' sent',
        WithRationales.main
          {| text_exists := fun _ => false;
             encode_image := fun f => if str_eqb f (lit "1.jpg")
                                      then Some (lit "QQ==") else None;
             read_text_file := fun _ => None;
             create := fun _ => Content (lit "two cats") |}
          1 [lit "2.jpg"; lit "1.jpg"]
          {| Files.checkpoint_file := None; Files.output_file := None;
             Files.log := [] |} 0
        = (Finished, d', sent')
        /\ Files.output_file d' = Some out
        /\ dict_get out (lit "1")
           = Some (WithRationales.entry 1 (lit "1") (lit "two cats")
                     WithRationales.no_rationale)
        /\ dict_get out (lit "2") = None).
Proof.
  pose (env := {| text_exists := fun _ => false;
                  encode_image := fun f => if str_eqb f (lit "1.jpg")
                                           then Some (lit "QQ==") else None;
                  read_text_file := fun _ => None;
                  create := fun _ => Content (lit "two cats") |}).
  pose (d := {| Files.checkpoint_file := None; Files.output_file := None;
                Files.log := [] |}).
  assert (listed : files_to_process (Files.load_checkpoint d)
                     (all_files [lit "2.jpg"; lit "1.jpg"])
                   = [lit "1.jpg"; lit "2.jpg"])
    by (vm_compute; reflexivity).
  destruct (batch_response_recorded_by_run env 1 [lit "2.jpg"; lit "1.jpg"] d 0
              [] [] 0 (lit "two cats") 1) as (without & within).
  - lia.
  - rewrite listed. reflexivity.
  - rewrite listed. exists (lit "1.jpg"). split; [left; reflexivity | reflexivity].
  - reflexivity.
  - rewrite listed in without, within.
    split.
    + destruct without
        as (m & later & out & d' & sent' & ran & _ & _ & _ & _ & saved & _ & final & _);
        [reflexivity|].
      exists out, d', sent'.
      split; [exact ran|]. split; [exact saved|].
      split.
      * apply (final (lit "1.jpg")); [left; reflexivity | intros j []].
      * apply (final (lit "2.jpg")); [right; left; reflexivity | intros j []].
    + destruct within
        as (m & later & out & d' & sent' & ran & _ & _ & _ & _ & saved & _
            & final & missing & _);
        [reflexivity|].
      exists out, d', sent'.
      split; [exact ran|]. split; [exact saved|].
      split.
      * apply (final (lit "1.jpg"));
          [left; reflexivity | reflexivity | intros j []].
      * apply (missing (lit "2.jpg")); [right; left; reflexivity|].
        intros g [<- | [<- | []]] encoded; [|discriminate encoded].
        vm_compute. discriminate.
Defined.

End BatchRunFacts.

(** ** What a run dispatches *)

Module DispatchFacts.
Import Py PyFacts Inference.

(** [k in {str(k') for k' in d}] is [k in d]. *)
Lemma str_in_keys (d : dict json) (k : str) :
  str_in (py_str k) (map py_str (keys d)) = dict_mem d k.
Proof.
  unfold py_str. rewrite map_id.
  destruct (dict_mem d k) eqn:member.
  - apply str_in_In. now apply dict_mem_In.
  - destruct (str_in k (keys d)) eqn:inside; [|reflexivity].
    apply str_in_In in inside. apply dict_mem_In in inside. congruence.
Qed.

Lemma remaining_In (A : Type) (id : A -> str) (checkpoint : dict json)
    (all_items : list A) (item : A) :
  In item (Spec.remaining id checkpoint all_items)
  <-> In item all_items
      /\ ~ In (py_str (id item)) (map py_str (keys checkpoint)).
Proof.
  unfold Spec.remaining. rewrite filter_In, negb_true_iff.
  split; intros [listed fresh]; (split; [exact listed|]).
  - intros member. apply str_in_In in member. congruence.
  - destruct (str_in _ _) eqn:member; [|reflexivity].
    apply str_in_In in member. contradiction.
Qed.

(** The files an inference run goes through are the remaining ones. *)
Lemma files_to_process_remaining (results : dict json) (all_files : list str) :
  files_to_process results all_files
  = Spec.remaining get_image_id results all_files.
Proof. reflexivity. Qed.

Section Judge.
Variable float_of_str : str -> option spec_float.
Variable judge : str -> nat -> Evaluation.reply.
Variable build_prompt : str -> json -> outcome str.

(** The call [main] submits for an item, its result and its requests. *)
Local Abbreviation call item :=
  (Evaluation.evaluate_one_item float_of_str (judge (fst item)) 0 (fst item) 0).

Local Abbreviation builds item :=
  (exists prompt, build_prompt (fst item) (snd item) = Return prompt).

(** When every prompt can be built, the tasks are the remaining items in
    the order of the input. *)
Lemma tasks_to_run_remaining (eval_results items : dict json) :
  (forall item, In item (Spec.remaining fst eval_results items) ->
                builds item) ->
  exists tasks,
    Evaluation.tasks_to_run build_prompt eval_results items = Return tasks
    /\ map fst tasks = map fst (Spec.remaining fst eval_results items).
Proof.
  unfold Spec.remaining.
  induction items as [|[item_id response_data] items IH]; intros building;
    [now exists []|].
  cbn [Evaluation.tasks_to_run filter fst] in *.
  rewrite str_in_keys in *.
  destruct (dict_mem eval_results item_id) eqn:covered; cbn [negb] in *.
  - unfold py_str. rewrite covered. now apply IH.
  - unfold py_str at 1. rewrite covered.
    destruct (building (item_id, response_data)) as (prompt & built);
      [now left|].
    cbn [fst snd] in built. rewrite built.
    destruct IH as (tasks & -> & ids).
    { intros item inside. apply building. now right. }
    exists ((item_id, prompt) :: tasks). split; [reflexivity|].
    cbn. now rewrite ids.
Qed.

(** The first remaining item whose prompt cannot be built ends the
    preparation. *)
Lemma tasks_to_run_stops (eval_results items : dict json)
    (built : list (str * json)) (item : str * json)
    (rest : list (str * json)) (e : exn) :
  Spec.remaining fst eval_results items = built ++ item :: rest ->
  (forall x, In x built -> builds x) ->
  build_prompt (fst item) (snd item) = Raise e ->
  Evaluation.tasks_to_run build_prompt eval_results items = Raise e.
Proof.
  unfold Spec.remaining.
  revert built.
  induction items as [|[item_id response_data] items IH];
    intros built cut building failing.
  - now destruct built.
  - cbn [Evaluation.tasks_to_run filter fst] in *.
    rewrite str_in_keys in cut.
    unfold py_str at 1.
    destruct (dict_mem eval_results item_id) eqn:covered; cbn [negb] in cut.
    + now apply (IH built).
    + destruct built as [|x built]; cbn [app] in cut.
      * injection cut as <- _. cbn [fst snd] in failing.
        now rewrite failing.
      * injection cut as <- cut.
        destruct (building (item_id, response_data)) as (prompt & made);
          [now left|].
        cbn [fst snd] in made. rewrite made.
        rewrite (IH built); [reflexivity | exact cut | | exact failing].
        intros y inside. apply building. now right.
Qed.

(** The run over a file whose prompts can all be built: the futures are
    the calls for the remaining items, in the order of the input. *)
Lemma main_file_remaining (vlm_responses : dict json) (d : Files.disk) :
  vlm_responses <> [] ->
  (forall item,
     In item (Spec.remaining fst (Files.load_checkpoint d) vlm_responses) ->
     builds item) ->
  Evaluation.main_file float_of_str judge build_prompt vlm_responses d
  = match Spec.remaining fst (Files.load_checkpoint d) vlm_responses with
    | [] => (Evaluation.AllEvaluated, d, 0)
    | selected =>
        let sent := list_sum (map (fun item => snd (call item)) selected) in
        match Evaluation.collect (map (fun item => fst (call item)) selected)
                (Files.load_checkpoint d) d with
        | (Raise e, d1) => (Evaluation.Crashed e, d1, sent)
        | (Return eval_results, d1) =>
            (Evaluation.Finished,
             match Files.checkpoint_file d1 with
             | Some _ =>
                 Files.remove_checkpoint (Files.write_output eval_results d1)
             | None => Files.write_output eval_results d1
             end, sent)
        end
    end.
Proof.
  intros some building.
  destruct (tasks_to_run_remaining _ _ building) as (tasks & prepared & ids).
  unfold Evaluation.main_file.
  destruct vlm_responses as [|item items]; [congruence|].
  rewrite prepared.
  assert (calls : map (fun task : str * str =>
                         Evaluation.evaluate_one_item float_of_str
                           (judge (fst task)) 0 (fst task) 0) tasks
                  = map (fun item : str * json => call item)
                      (Spec.remaining fst (Files.load_checkpoint d)
                         (item :: items))).
  { rewrite <- (map_map fst (fun k => Evaluation.evaluate_one_item float_of_str
                                        (judge k) 0 k 0) tasks).
    rewrite ids, map_map. reflexivity. }
  destruct (Spec.remaining fst (Files.load_checkpoint d) (item :: items))
    as [|chosen selected] eqn:left_over.
  - destruct tasks; [reflexivity | discriminate ids].
  - destruct tasks as [|task tasks]; [discriminate ids|].
    rewrite calls, !map_map. cbv zeta.
    destruct (Evaluation.collect _ _ _) as [[eval_results|e] d1];
      [|reflexivity].
    cbn [Files.write_output Files.checkpoint_file].
    destruct (Files.checkpoint_file d1); reflexivity.
Qed.

(** What the loop over the futures stores: the entry of every call, and
    nothing under another key. *)
Lemma collect_stores (selected : list (str * json)) (eval_results m : dict json)
    (d d1 : Files.disk) :
  Evaluation.collect (map (fun item => fst (call item)) selected) eval_results d
  = (Return m, d1) ->
  forall k,
    dict_get m k
    = if str_in k (map fst selected)
      then Some (Spec.judged float_of_str judge k)
      else dict_get eval_results k.
Proof.
  revert eval_results d.
  induction selected as [|item selected IH]; intros eval_results d.
  - cbn. now intros [= <- _] k.
  - cbn [map Evaluation.collect].
    destruct (fst (call item)) as [[item_id entry]|e] eqn:returned;
      [|discriminate].
    intros collected k.
    rewrite (IH _ _ collected k).
    destruct (EvaluationRunFacts.judged_returned float_of_str judge
                (fst item, lit "") item_id entry returned)
      as (-> & -> & _).
    cbn [fst].
    unfold str_in at 2. cbn [existsb]. fold (str_in k (map fst selected)).
    destruct (str_in k (map fst selected)); [now rewrite orb_true_r|].
    rewrite orb_false_r.
    destruct (str_eqb k (fst item)) eqn:same.
    + apply str_eqb_eq in same. subst k. apply dict_get_set_same.
    + apply str_eqb_neq in same. apply dict_get_set_other. exact same.
Qed.

(** The loop over the futures ends with the exception of a call, or with
    a mapping, and never touches the output file. *)
Lemma collect_outcome (selected : list (str * json)) (eval_results : dict json)
    (d : Files.disk) :
  Files.output_file
    (snd (Evaluation.collect (map (fun item => fst (call item)) selected)
            eval_results d))
  = Files.output_file d
  /\ forall e,
       fst (Evaluation.collect (map (fun item => fst (call item)) selected)
              eval_results d) = Raise e ->
       exists item, In item selected /\ fst (call item) = Raise e.
Proof.
  revert eval_results d.
  induction selected as [|item selected IH]; intros eval_results d.
  - cbn. split; [reflexivity | discriminate].
  - cbn [map Evaluation.collect].
    destruct (fst (call item)) as [[item_id entry]|e0] eqn:returned.
    + destruct (IH (dict_set eval_results item_id entry)
                  (if List.length (dict_set eval_results item_id entry) mod 20 =? 0
                   then Files.write_checkpoint
                          (dict_set eval_results item_id entry) d
                   else d)) as (out & raised).
      split.
      * rewrite out. now destruct (_ =? 0).
      * intros e failed. destruct (raised e failed) as (x & inside & call_x).
        exists x. split; [now right | exact call_x].
    + cbn. split; [reflexivity|].
      intros e [= <-]. exists item. split; [now left | exact returned].
Qed.

Lemma requests_at_least (selected : list (str * json)) :
  List.length selected
  <= list_sum (map (fun item => snd (call item)) selected)
  <= (Evaluation.MAX_RETRIES + 1) * List.length selected.
Proof.
  unfold Evaluation.MAX_RETRIES, list_sum.
  induction selected as [|item selected IH];
    cbn [map fold_right List.length]; [lia|].
  pose proof (RetryFacts.evaluate_sent_bounds float_of_str (judge (fst item))
                (fst item) 0 0) as one.
  unfold Evaluation.MAX_RETRIES in one. lia.
Qed.

End Judge.

Section Inference.
Variable env : environment.
Variable task : nat.

(** No image of a batch encodes exactly when the list of encoded images
    is empty. *)
Lemma has_image_filter (files : list str) (i : nat) :
  Spec.has_image env files i = false
  <-> filter (fun o => truthy_opt o) (map (encode_image env) (batch_at files i))
      = [].
Proof.
  unfold Spec.has_image, Spec.encodes.
  induction (batch_at files i) as [|f batch IH]; cbn; [tauto|].
  destruct (truthy_opt (encode_image env f)); cbn; [|exact IH].
  split; discriminate.
Qed.

Lemma has_image_valid (files : list str) (i : nat) :
  Spec.has_image env files i = false
  <-> filter (fun f => truthy_opt (encode_image env f)) (batch_at files i) = [].
Proof.
  unfold Spec.has_image, Spec.encodes.
  induction (batch_at files i) as [|f batch IH]; cbn; [tauto|].
  destruct (truthy_opt (encode_image env f)); cbn; [|exact IH].
  split; discriminate.
Qed.

(** Every usable file and every batch with an image costs a request. *)
Lemma no_rationales_pairs_sends (files : list str) (results : dict json)
    (d : Files.disk) (sent : nat) :
  sent + List.length (filter (Spec.usable env) files)
  <= snd (NoRationales.pairs_loop env files results d sent).
Proof.
  revert results d sent.
  induction files as [|filename rest IH]; intros results d sent;
    cbn [NoRationales.pairs_loop filter]; [cbn; lia|].
  unfold Spec.usable at 1, Spec.encodes.
  destruct (text_exists env _); cbn [negb andb]; [|apply IH].
  destruct (truthy_opt (encode_image env filename)); cbn [negb andb orb];
    [|apply IH].
  destruct (is_none _); cbn [negb]; [apply IH|].
  pose proof (RetryFacts.process_batch_sent_bounds (create env) sent 0) as one.
  destruct (process_batch (create env) sent 0) as [result sent1].
  cbn [snd List.length] in *.
  etransitivity; [|apply IH]. lia.
Qed.

Lemma with_rationales_pairs_sends (files : list str) (results : dict json)
    (d : Files.disk) (sent : nat) :
  sent + List.length (filter (Spec.usable env) files)
  <= snd (WithRationales.pairs_loop env task files results d sent).
Proof.
  revert results d sent.
  induction files as [|filename rest IH]; intros results d sent;
    cbn [WithRationales.pairs_loop filter]; [cbn; lia|].
  unfold Spec.usable at 1, Spec.encodes.
  destruct (text_exists env _); cbn [negb andb]; [|apply IH].
  destruct (truthy_opt (encode_image env filename)); cbn [negb andb orb];
    [|apply IH].
  destruct (is_none _); cbn [negb]; [apply IH|].
  pose proof (RetryFacts.process_batch_sent_bounds (create env) sent 0) as one.
  destruct (process_batch (create env) sent 0) as [result sent1].
  cbn [snd List.length] in *.
  etransitivity; [|apply IH]. lia.
Qed.

Lemma no_rationales_batches_sends (starts : list nat) (files : list str)
    (results : dict json) (d : Files.disk) (sent : nat) :
  sent + List.length (filter (Spec.has_image env files) starts)
  <= snd (NoRationales.batches_loop env starts files results d sent).
Proof.
  revert results d sent.
  induction starts as [|i rest IH]; intros results d sent;
    cbn [NoRationales.batches_loop filter]; [cbn; lia|].
  destruct (Spec.has_image env files i) eqn:some.
  - destruct (filter (fun o => truthy_opt o) _) eqn:images.
    + apply has_image_filter in images. congruence.
    + pose proof (RetryFacts.process_batch_sent_bounds (create env) sent 0)
        as one.
      destruct (process_batch (create env) sent 0) as [result sent1].
      cbn [snd List.length] in *.
      etransitivity; [|apply IH]. lia.
  - apply has_image_filter in some. rewrite some. apply IH.
Qed.

Lemma with_rationales_batches_sends (starts : list nat) (files : list str)
    (results : dict json) (d : Files.disk) (sent : nat) :
  sent + List.length (filter (Spec.has_image env files) starts)
  <= snd (WithRationales.batches_loop env task starts files results d sent).
Proof.
  revert results d sent.
  induction starts as [|i rest IH]; intros results d sent;
    cbn [WithRationales.batches_loop filter]; [cbn; lia|].
  destruct (Spec.has_image env files i) eqn:some.
  - destruct (filter (fun f => truthy_opt (encode_image env f)) _) eqn:valid.
    + apply has_image_valid in valid. congruence.
    + pose proof (RetryFacts.process_batch_sent_bounds (create env) sent 0)
        as one.
      destruct (process_batch (create env) sent 0) as [result sent1].
      cbn [snd List.length] in *.
      etransitivity; [|apply IH]. lia.
  - apply has_image_valid in some. rewrite some. apply IH.
Qed.

End Inference.

(** An item the checkpoint lacks that is never dispatched.  The judge is
    run for task 3 on an entry of [run_zeroshot_with_rationales.py] for
    that task, and for task 1 on an entry of
    [run_zeroshot_no_rationales.py], with no checkpoint: item 7 remains,
    its prompt cannot be built ([TASK_INSTRUCTIONS[3]] raises [KeyError],
    indexing a string by ["Task_1"] raises [TypeError]), and the run ends
    with no request sent although it did not report the file as done. *)
Lemma remaining_item_not_dispatched :
  Spec.remaining fst
    (Files.load_checkpoint
       {| Files.checkpoint_file := None; Files.output_file := None;
          Files.log := [] |})
    [(lit "7", WithRationales.entry 3 (lit "7") (lit "a cat") (lit "fur"))]
  = [(lit "7", WithRationales.entry 3 (lit "7") (lit "a cat") (lit "fur"))]
  /\ Evaluation.main_file (fun _ => None)
       (fun _ _ => Evaluation.Parsed (JDict [(lit "score", JInt 85)]))
       (Prompt.build_prompt (fun _ => lit "a text")
          (fun _ _ _ _ _ _ _ => lit "a prompt")
          (lit "English") (lit "zeroshot_with_rationales") 3)
       [(lit "7", WithRationales.entry 3 (lit "7") (lit "a cat") (lit "fur"))]
       {| Files.checkpoint_file := None; Files.output_file := None;
          Files.log := [] |}
     = (Evaluation.Crashed KeyError,
        {| Files.checkpoint_file := None; Files.output_file := None;
           Files.log := [] |}, 0)
  /\ Evaluation.main_file (fun _ => None)
       (fun _ _ => Evaluation.Parsed (JDict [(lit "score", JInt 85)]))
       (Prompt.build_prompt (fun _ => lit "a text")
          (fun _ _ _ _ _ _ _ => lit "a prompt")
          (lit "English") (lit "zeroshot_no_rationales") 1)
       [(lit "7", JStr (lit "a cat"))]
       {| Files.checkpoint_file := None; Files.output_file := None;
          Files.log := [] |}
     = (Evaluation.Crashed TypeError,
        {| Files.checkpoint_file := None; Files.output_file := None;
           Files.log := [] |}, 0).
Proof.
  split; [|split]; vm_compute; reflexivity.
Qed.

(** C5, amended. The items a run selects are the enumerated items whose
    identifier, as a string, is not a key of the loaded checkpoint
    ([Spec.remaining]), and the run goes through exactly these, in order.
    - The evaluation script skips a file with no responses before it
      filters anything.  On a file with responses: when nothing
      remains it reports that and returns with no request and no write;
      the first remaining item whose prompt cannot be built ends the run
      with nothing dispatched; when every prompt can be built the futures
      are the calls for the remaining items, so the requests sent are
      theirs, at least one for each, and the run either reaches the final
      save, the output holding the judged entry of every remaining id and
      the checkpointed entry under any other key, or ends with the
      exception of one of these calls and the output file untouched.
    - The inference scripts: when nothing remains they report that and
      return with no request and no write; otherwise the run is the loop
      of its path over the remaining files followed by the final save, and
      it sends at least one request for every remaining file that is
      usable (image-text path) or for every batch of remaining files with
      an image that encodes (image-only path). *)
Theorem remaining_items_dispatched
    (float_of_str : str -> option spec_float)
    (judge : str -> nat -> Evaluation.reply)
    (build_prompt : str -> json -> outcome str)
    (env : environment) (task : nat) :
  (forall d,
     Evaluation.main_file float_of_str judge build_prompt [] d
     = (Evaluation.NoResponses, d, 0))
  /\ (forall vlm_responses d,
     vlm_responses <> [] ->
     let eval_results := Files.load_checkpoint d in
     let selected := Spec.remaining fst eval_results vlm_responses in
     let call := fun item : str * json =>
       Evaluation.evaluate_one_item float_of_str (judge (fst item)) 0
         (fst item) 0 in
     let run :=
       Evaluation.main_file float_of_str judge build_prompt vlm_responses d in
     (forall item,
        In item selected
        <-> In item vlm_responses
            /\ ~ In (py_str (fst item)) (map py_str (keys eval_results)))
     /\ (selected = [] -> run = (Evaluation.AllEvaluated, d, 0))
     /\ (forall built item rest e,
           selected = built ++ item :: rest ->
           (forall x, In x built ->
              exists prompt, build_prompt (fst x) (snd x) = Return prompt) ->
           build_prompt (fst item) (snd item) = Raise e ->
           run = (Evaluation.Crashed e, d, 0))
     /\ (selected <> [] ->
         (forall x, In x selected ->
            exists prompt, build_prompt (fst x) (snd x) = Return prompt) ->
         snd run = list_sum (map (fun item => snd (call item)) selected)
         /\ (forall item, In item selected -> 1 <= snd (call item))
         /\ List.length selected <= snd run
         /\ ((fst (fst run) = Evaluation.Finished
              /\ exists m,
                   Files.output_file (snd (fst run)) = Some m
                   /\ forall k,
                        dict_get m k
                        = if str_in k (map fst selected)
                          then Some (Spec.judged float_of_str judge k)
                          else dict_get eval_results k)
             \/ (exists e item,
                   fst (fst run) = Evaluation.Crashed e
                   /\ In item selected
                   /\ fst (call item) = Raise e
                   /\ Files.output_file (snd (fst run))
                      = Files.output_file d))))
  /\ (forall listing d sent,
        let results := Files.load_checkpoint d in
        let selected := Spec.remaining get_image_id results (all_files listing) in
        let starts := range_step (List.length selected) BATCH_SIZE in
        (forall f,
           In f selected
           <-> In f (all_files listing)
               /\ ~ In (py_str (get_image_id f)) (map py_str (keys results)))
        /\ (selected = [] ->
            NoRationales.main env task listing d sent
            = (AlreadyProcessed, d, sent)
            /\ WithRationales.main env task listing d sent
               = (AlreadyProcessed, d, sent))
        /\ (selected <> [] ->
            (let loop :=
               if 6 <=? task
               then NoRationales.pairs_loop env selected results d sent
               else NoRationales.batches_loop env starts selected results d sent in
             NoRationales.main env task listing d sent
             = (Finished, Files.write_output (fst (fst loop)) (snd (fst loop)),
                snd loop)
             /\ sent + (if 6 <=? task
                        then List.length (filter (Spec.usable env) selected)
                        else List.length
                               (filter (Spec.has_image env selected) starts))
                <= snd loop)
            /\
            (let loop :=
               if 6 <=? task
               then WithRationales.pairs_loop env task selected results d sent
               else WithRationales.batches_loop env task starts selected
                      results d sent in
             WithRationales.main env task listing d sent
             = (Finished, Files.write_output (fst (fst loop)) (snd (fst loop)),
                snd loop)
             /\ sent + (if 6 <=? task
                        then List.length (filter (Spec.usable env) selected)
                        else List.length
                               (filter (Spec.has_image env selected) starts))
                <= snd loop))).
Proof.
  split; [reflexivity|].
  split.
  - intros vlm_responses d some eval_results selected call run.
    split; [intros item; apply remaining_In|].
    split.
    { intros none. subst run.
      rewrite main_file_remaining; [|exact some|].
      - fold eval_results. fold selected. now rewrite none.
      - fold eval_results. fold selected. rewrite none. intros item [].  }
    split.
    { intros built item rest e cut building failing. subst run.
      unfold Evaluation.main_file.
      destruct vlm_responses as [|first others]; [congruence|].
      fold eval_results.
      now rewrite (tasks_to_run_stops build_prompt eval_results
                     (first :: others) built item rest e cut building failing). }
    intros left_over building.
    subst run. rewrite (main_file_remaining _ _ _ _ _ some building).
    fold eval_results. fold selected.
    destruct selected as [|chosen others] eqn:shape; [congruence|].
    rewrite <- shape in *. cbv zeta.
    pose proof (requests_at_least float_of_str judge selected) as bounds.
    assert (each : forall item, In item selected -> 1 <= snd (call item)).
    { intros item _.
      pose proof (RetryFacts.evaluate_sent_bounds float_of_str
                    (judge (fst item)) (fst item) 0 0) as one.
      subst call. cbv beta. lia. }
    pose proof (collect_outcome float_of_str judge selected eval_results d)
      as (out & raised).
    pose proof (collect_stores float_of_str judge selected eval_results) as stored.
    destruct (Evaluation.collect _ eval_results d) as [[m|e] d1] eqn:collected;
      cbn [fst snd] in *.
    + split; [reflexivity|]. split; [exact each|]. split; [lia|]. left.
      split; [reflexivity|]. exists m. split.
      * destruct (Files.checkpoint_file d1); reflexivity.
      * apply (stored m d d1). exact collected.
    + split; [reflexivity|]. split; [exact each|]. split; [lia|]. right.
      destruct (raised e eq_refl) as (item & inside & failed).
      exists e, item. repeat split; assumption.
  - intros listing d sent results selected starts.
    split; [intros f; apply remaining_In|].
    split.
    { intros none. unfold NoRationales.main, WithRationales.main.
      fold results. rewrite files_to_process_remaining. fold selected.
      rewrite none. split; reflexivity. }
    intros left_over.
    unfold NoRationales.main, WithRationales.main.
    fold results. rewrite files_to_process_remaining. fold selected.
    fold starts.
    destruct selected as [|chosen others] eqn:shape; [congruence|].
    rewrite <- shape in *.
    split; cbv zeta.
    + split.
      * destruct (6 <=? task);
          [destruct (NoRationales.pairs_loop env selected results d sent)
             as [[r dl] s]
          |destruct (NoRationales.batches_loop env starts selected results d sent)
             as [[r dl] s]]; reflexivity.
      * destruct (6 <=? task);
          [apply no_rationales_pairs_sends
          |apply no_rationales_batches_sends].
    + split.
      * destruct (6 <=? task);
          [destruct (WithRationales.pairs_loop env task selected results d sent)
             as [[r dl] s]
          |destruct (WithRationales.batches_loop env task starts selected
                       results d sent) as [[r dl] s]]; reflexivity.
      * destruct (6 <=? task);
          [apply with_rationales_pairs_sends
          |apply with_rationales_batches_sends].
Qed.

(** The judge run on items 1 and 2 of a with-rationales output for task 1
    with item 1 in the checkpoint sends the one request of item 2 and
    keeps the checkpointed entry of item 1; the inference run on [1.jpg]
    and [2.jpg] with id 1 in the checkpoint sends the one request of the
    batch made of [2.jpg]; the judge run for task 3, which has no
    instructions, stops at item 2 with no request sent. *)
Lemma remaining_items_dispatched_witness :
  (snd (Evaluation.main_file (fun _ => None)
          (fun _ _ => Evaluation.Parsed (JDict [(lit "score", JInt 85)]))
          (Prompt.build_prompt (fun _ => lit "a text")
             (fun _ _ _ _ _ _ _ => lit "a prompt")
             (lit "English") (lit "zeroshot_with_rationales") 1)
          [(lit "1", WithRationales.entry 1 (lit "1") (lit "a cat") (lit "fur"));
           (lit "2", WithRationales.entry 1 (lit "2") (lit "a dog") (lit "tail"))]
          {| Files.checkpoint_file := Some [(lit "1", Evaluation.default_entry)];
             Files.output_file := None; Files.log := [] |})
   = 1
   /\ exists m,
        Files.output_file
          (snd (fst (Evaluation.main_file (fun _ => None)
             (fun _ _ => Evaluation.Parsed (JDict [(lit "score", JInt 85)]))
             (Prompt.build_prompt (fun _ => lit "a text")
                (fun _ _ _ _ _ _ _ => lit "a prompt")
                (lit "English") (lit "zeroshot_with_rationales") 1)
             [(lit "1", WithRationales.entry 1 (lit "1") (lit "a cat") (lit "fur"));
              (lit "2", WithRationales.entry 1 (lit "2") (lit "a dog") (lit "tail"))]
             {| Files.checkpoint_file := Some [(lit "1", Evaluation.default_entry)];
                Files.output_file := None; Files.log := [] |})))
        = Some m
        /\ dict_get m (lit "1") = Some Evaluation.default_entry
        /\ dict_get m (lit "2")
           = Some (Evaluation.score_entry (JFloat (float_of_Z 85))))
  /\ 1 <= snd (NoRationales.main
                 {| text_exists := fun _ => false;
                    encode_image := fun _ => Some (lit "QQ==");
                    read_text_file := fun _ => None;
                    create := fun _ => Content (lit "a dog") |}
                 1 [lit "1.jpg"; lit "2.jpg"]
                 {| Files.checkpoint_file := Some [(lit "1", JStr (lit "a cat"))];
                    Files.output_file := None; Files.log := [] |} 0)
  /\ Evaluation.main_file (fun _ => None)
       (fun _ _ => Evaluation.Parsed (JDict [(lit "score", JInt 85)]))
       (Prompt.build_prompt (fun _ => lit "a text")
          (fun _ _ _ _ _ _ _ => lit "a prompt")
          (lit "English") (lit "zeroshot_with_rationales") 3)
       [(lit "1", WithRationales.entry 3 (lit "1") (lit "a cat") (lit "fur"));
        (lit "2", WithRationales.entry 3 (lit "2") (lit "a dog") (lit "tail"))]
       {| Files.checkpoint_file := Some [(lit "1", Evaluation.default_entry)];
          Files.output_file := None; Files.log := [] |}
     = (Evaluation.Crashed KeyError,
        {| Files.checkpoint_file := Some [(lit "1", Evaluation.default_entry)];
           Files.output_file := None; Files.log := [] |}, 0).
Proof.
  pose (judge := fun (_ : str) (_ : nat) =>
                   Evaluation.Parsed (JDict [(lit "score", JInt 85)])).
  pose (build_prompt :=
          Prompt.build_prompt (fun _ => lit "a text")
            (fun _ _ _ _ _ _ _ => lit "a prompt")
            (lit "English") (lit "zeroshot_with_rationales") 1).
  pose (env := {| text_exists := fun _ => false;
                  encode_image := fun _ => Some (lit "QQ==");
                  read_text_file := fun _ => None;
                  create := fun _ => Content (lit "a dog") |}).
  destruct (remaining_items_dispatched (fun _ => None) judge build_prompt env 1)
    as (_ & evaluation & inference).
  split; [|split].
  - destruct (evaluation
                [(lit "1", WithRationales.entry 1 (lit "1") (lit "a cat") (lit "fur"));
                 (lit "2", WithRationales.entry 1 (lit "2") (lit "a dog") (lit "tail"))]
                {| Files.checkpoint_file := Some [(lit "1", Evaluation.default_entry)];
                   Files.output_file := None; Files.log := [] |})
      as (_ & _ & _ & dispatched); [discriminate|].
    destruct dispatched
      as (requests & _ & _ & [(_ & m & saved & entries) | crashed]).
    + vm_compute. discriminate.
    + intros x inside. vm_compute in inside.
      destruct inside as [<- | []]. eexists. vm_compute. reflexivity.
    + split; [etransitivity; [exact requests | vm_compute; reflexivity]|].
      exists m. split; [exact saved|].
      split; rewrite entries; vm_compute; reflexivity.
    + destruct crashed as (e & item & status & _).
      vm_compute in status. discriminate status.
  - destruct (inference [lit "1.jpg"; lit "2.jpg"]
                {| Files.checkpoint_file := Some [(lit "1", JStr (lit "a cat"))];
                   Files.output_file := None; Files.log := [] |} 0)
      as (_ & _ & selected).
    destruct selected as ((ran & requests) & _).
    + vm_compute. discriminate.
    + pose proof (f_equal snd ran) as counted. cbn [snd] in counted.
      eapply Nat.le_trans;
        [|apply Nat.eq_le_incl; symmetry; exact counted].
      etransitivity; [|exact requests]. vm_compute. lia.
  - destruct (remaining_items_dispatched (fun _ => None) judge
                (Prompt.build_prompt (fun _ => lit "a text")
                   (fun _ _ _ _ _ _ _ => lit "a prompt")
                   (lit "English") (lit "zeroshot_with_rationales") 3)
                env 1) as (_ & stopped & _).
    destruct (stopped
                [(lit "1", WithRationales.entry 3 (lit "1") (lit "a cat") (lit "fur"));
                 (lit "2", WithRationales.entry 3 (lit "2") (lit "a dog") (lit "tail"))]
                {| Files.checkpoint_file := Some [(lit "1", Evaluation.default_entry)];
                   Files.output_file := None; Files.log := [] |})
      as (_ & _ & first & _); [discriminate|].
    apply (first []
             (lit "2", WithRationales.entry 3 (lit "2") (lit "a dog") (lit "tail"))
             []).
    + vm_compute. reflexivity.
    + intros x [].
    + vm_compute. reflexivity.
Defined.

End DispatchFacts.

(** ** Running the evaluation script on a finished scope *)

Module RerunFacts.
Import Py PyFacts Inference.

(** With no checkpoint every item remains. *)
Lemma remaining_all (A : Type) (id : A -> str) (all_items : list A) :
  Spec.remaining id [] all_items = all_items.
Proof.
  unfold Spec.remaining, keys, str_in. cbn [map existsb negb].
  induction all_items as [|item items IH]; cbn [filter]; congruence.
Qed.

Section Judge.
Variable float_of_str : str -> option spec_float.
Variable judge : str -> nat -> Evaluation.reply.
Variable build_prompt : str -> json -> outcome str.

Local Abbreviation call item :=
  (Evaluation.evaluate_one_item float_of_str (judge (fst item)) 0 (fst item) 0).

Local Abbreviation run vlm_responses d :=
  (Evaluation.main_file float_of_str judge build_prompt vlm_responses d).

(** The run over a file with responses started without a checkpoint,
    whatever the output file holds. *)
Lemma fresh_run_stops (vlm_responses : dict json) (d : Files.disk)
    (built : list (str * json)) (item : str * json)
    (rest : list (str * json)) (e : exn) :
  Files.checkpoint_file d = None ->
  vlm_responses = built ++ item :: rest ->
  (forall x, In x built ->
     exists prompt, build_prompt (fst x) (snd x) = Return prompt) ->
  build_prompt (fst item) (snd item) = Raise e ->
  run vlm_responses d = (Evaluation.Crashed e, d, 0).
Proof.
  intros absent cut building failing.
  unfold Evaluation.main_file, Files.load_checkpoint. rewrite absent.
  rewrite (DispatchFacts.tasks_to_run_stops build_prompt [] vlm_responses
             built item rest e);
    [| now rewrite remaining_all | exact building | exact failing].
  destruct vlm_responses; [now destruct built | reflexivity].
Qed.

Lemma fresh_run_dispatches (vlm_responses : dict json) (d : Files.disk) :
  vlm_responses <> [] ->
  Files.checkpoint_file d = None ->
  (forall x, In x vlm_responses ->
     exists prompt, build_prompt (fst x) (snd x) = Return prompt) ->
  snd (run vlm_responses d)
  = list_sum (map (fun item => snd (call item)) vlm_responses)
  /\ List.length vlm_responses <= snd (run vlm_responses d)
  /\ ((fst (fst (run vlm_responses d)) = Evaluation.Finished
       /\ exists m writes,
            Files.output_file (snd (fst (run vlm_responses d))) = Some m
            /\ Files.checkpoint_file (snd (fst (run vlm_responses d))) = None
            /\ (forall k,
                  dict_get m k
                  = if str_in k (keys vlm_responses)
                    then Some (Spec.judged float_of_str judge k)
                    else None)
            /\ Spec.only_checkpoint_writes writes
            /\ (Files.log (snd (fst (run vlm_responses d)))
                = Files.log d ++ writes ++ [Files.WroteOutput m]
                \/ Files.log (snd (fst (run vlm_responses d)))
                   = Files.log d ++ writes
                     ++ [Files.WroteOutput m; Files.RemovedCheckpoint]))
      \/ (exists e item,
            fst (fst (run vlm_responses d)) = Evaluation.Crashed e
            /\ In item vlm_responses
            /\ fst (call item) = Raise e
            /\ Files.output_file (snd (fst (run vlm_responses d)))
               = Files.output_file d)).
Proof.
  intros some absent building.
  assert (loaded : Files.load_checkpoint d = [])
    by (unfold Files.load_checkpoint; now rewrite absent).
  assert (selected : Spec.remaining fst (Files.load_checkpoint d) vlm_responses
                     = vlm_responses)
    by (rewrite loaded; apply remaining_all).
  assert (equation := DispatchFacts.main_file_remaining float_of_str judge
                        build_prompt vlm_responses d some).
  rewrite selected, loaded in equation.
  specialize (equation building).
  pose proof (DispatchFacts.requests_at_least float_of_str judge vlm_responses)
    as bounds.
  pose proof (DispatchFacts.collect_outcome float_of_str judge vlm_responses [] d)
    as (out & raised).
  pose proof (DispatchFacts.collect_stores float_of_str judge vlm_responses [])
    as stored.
  destruct vlm_responses as [|first others] eqn:shape; [congruence|].
  rewrite <- shape in *. cbv zeta in equation.
  destruct (Evaluation.collect _ [] d) as [[m|e] d1] eqn:collected;
    cbn [fst snd] in *.
  - pose proof (EvaluationRunFacts.main_file_finished float_of_str judge
                  build_prompt vlm_responses d _ _ equation)
      as (tasks & m' & writes & _ & _ & _ & _ & saved & removed & only
          & logged & _).
    rewrite equation. cbn [fst snd].
    split; [reflexivity|]. split; [lia|]. left.
    split; [reflexivity|].
    assert (m' = m) as ->.
    { destruct (Files.checkpoint_file d1); cbn in saved; congruence. }
    exists m, writes.
    split; [exact saved|]. split; [exact removed|].
    split; [|split; [exact only | exact logged]].
    intros k. rewrite (stored m d d1 collected k). reflexivity.
  - rewrite equation. cbn [fst snd].
    split; [reflexivity|]. split; [lia|]. right.
    destruct (raised e eq_refl) as (item & inside & failed).
    exists e, item. repeat split; assumption.
Qed.

End Judge.

(** C6, amended.  A run that starts with a checkpoint holding every
    enumerated id sends no request and leaves both files as they are; for
    the inference scripts, which keep their checkpoint, this is the case of
    a second run after a finished run whose output has every enumerated
    file, so the second run leaves the output identical.  The evaluation
    script removes its checkpoint when it finishes, and its run over a
    file with responses that starts with an output file and no checkpoint
    does not consult the output file, every item being selected again:
    the first item whose prompt cannot be built ends the run with no
    request sent and both files as they were; when every prompt can be
    built, every item is dispatched again, at least one request each, and
    the run either reaches its final save, which writes an output file
    holding the new entry of every item and nothing else, or ends with the
    exception of one of the calls, the output file left as it was. *)
Theorem rerun_of_finished_scope
    (float_of_str : str -> option spec_float)
    (judge : str -> nat -> Evaluation.reply)
    (build_prompt : str -> json -> outcome str)
    (env : environment) (task : nat) :
  (forall vlm_responses d,
     (forall item_id, In item_id (keys vlm_responses) ->
                      In item_id (keys (Files.load_checkpoint d))) ->
     exists status,
       Evaluation.main_file float_of_str judge build_prompt vlm_responses d
       = (status, d, 0)
       /\ status <> Evaluation.Finished)
  /\ (forall listing d sent,
        (forall f, In f (all_files listing) ->
                   In (get_image_id f) (keys (Files.load_checkpoint d))) ->
        NoRationales.main env task listing d sent = (AlreadyProcessed, d, sent)
        /\ WithRationales.main env task listing d sent
           = (AlreadyProcessed, d, sent))
  /\ (forall listing d d1 sent sent1 m,
        (NoRationales.main env task listing d sent = (Finished, d1, sent1)
         \/ WithRationales.main env task listing d sent = (Finished, d1, sent1)) ->
        Files.output_file d1 = Some m ->
        (forall f, In f (all_files listing) -> In (get_image_id f) (keys m)) ->
        forall env' sent2,
          NoRationales.main env' task listing d1 sent2
          = (AlreadyProcessed, d1, sent2)
          /\ WithRationales.main env' task listing d1 sent2
             = (AlreadyProcessed, d1, sent2))
  /\ (forall vlm_responses d previous,
        vlm_responses <> [] ->
        Files.checkpoint_file d = None ->
        Files.output_file d = Some previous ->
        let call := fun item : str * json =>
          Evaluation.evaluate_one_item float_of_str (judge (fst item)) 0
            (fst item) 0 in
        let run :=
          Evaluation.main_file float_of_str judge build_prompt vlm_responses d in
        (forall built item rest e,
           vlm_responses = built ++ item :: rest ->
           (forall x, In x built ->
              exists prompt, build_prompt (fst x) (snd x) = Return prompt) ->
           build_prompt (fst item) (snd item) = Raise e ->
           run = (Evaluation.Crashed e, d, 0))
        /\ ((forall x, In x vlm_responses ->
               exists prompt, build_prompt (fst x) (snd x) = Return prompt) ->
            snd run
            = list_sum (map (fun item => snd (call item)) vlm_responses)
            /\ List.length vlm_responses <= snd run
            /\ ((fst (fst run) = Evaluation.Finished
                 /\ exists m writes,
                      Files.output_file (snd (fst run)) = Some m
                      /\ Files.checkpoint_file (snd (fst run)) = None
                      /\ (forall k,
                            dict_get m k
                            = if str_in k (keys vlm_responses)
                              then Some (Spec.judged float_of_str judge k)
                              else None)
                      /\ Spec.only_checkpoint_writes writes
                      /\ (Files.log (snd (fst run))
                          = Files.log d ++ writes ++ [Files.WroteOutput m]
                          \/ Files.log (snd (fst run))
                             = Files.log d ++ writes
                               ++ [Files.WroteOutput m; Files.RemovedCheckpoint]))
                \/ (exists e item,
                      fst (fst run) = Evaluation.Crashed e
                      /\ In item vlm_responses
                      /\ fst (call item) = Raise e
                      /\ Files.output_file (snd (fst run)) = Some previous)))).
Proof.
  destruct (IdempotenceFacts.rerun_is_noop_when_checkpoint_covers float_of_str
              judge build_prompt env task) as (covered & idle & again).
  split; [exact covered|]. split; [exact idle|]. split; [exact again|].
  intros vlm_responses d previous some absent present call run.
  split.
  - intros built item rest e cut building failing.
    now apply (fresh_run_stops float_of_str judge build_prompt vlm_responses d
                 built item rest e).
  - intros building.
    destruct (fresh_run_dispatches float_of_str judge build_prompt
                vlm_responses d some absent building)
      as (requests & bound & outcome).
    split; [exact requests|]. split; [exact bound|].
    destruct outcome as [finished | (e & item & status & inside & failed & out)];
      [left; exact finished | right].
    exists e, item. repeat split; try assumption.
    subst run. rewrite out. exact present.
Qed.

(** A second inference run over [1.jpg], already in the checkpoint; a
    second judge run over item 1, scored 50 by the first run, where the
    judge now answers 80; and a second judge run over an entry of the
    script without rationales, whose prompt cannot be built. *)
Lemma rerun_of_finished_scope_witness :
  NoRationales.main
    {| text_exists := fun _ => false;
       encode_image := fun _ => None;
       read_text_file := fun _ => None;
       create := fun _ => ApiException |}
    1 [lit "1.jpg"]
    {| Files.checkpoint_file := Some [(lit "1", JStr (lit "a cat"))];
       Files.output_file := Some [(lit "1", JStr (lit "a cat"))];
       Files.log := [] |}
    1
  = (AlreadyProcessed,
     {| Files.checkpoint_file := Some [(lit "1", JStr (lit "a cat"))];
        Files.output_file := Some [(lit "1", JStr (lit "a cat"))];
        Files.log := [] |},
     1)
  /\ snd (Evaluation.main_file (fun _ => None)
            (fun _ _ => Evaluation.Parsed (JDict [(lit "score", JInt 80)]))
            (fun _ _ => Return (lit "prompt"))
            [(lit "1", JNull)]
            {| Files.checkpoint_file := None;
               Files.output_file := Some [(lit "1", Evaluation.default_entry)];
               Files.log := [] |})
     = 1
  /\ Evaluation.main_file (fun _ => None)
       (fun _ _ => Evaluation.Parsed (JDict [(lit "score", JInt 80)]))
       (Prompt.build_prompt (fun _ => lit "a text")
          (fun _ _ _ _ _ _ _ => lit "a prompt")
          (lit "English") (lit "zeroshot_no_rationales") 1)
       [(lit "1", JStr (lit "a cat"))]
       {| Files.checkpoint_file := None;
          Files.output_file := Some [(lit "1", Evaluation.default_entry)];
          Files.log := [] |}
     = (Evaluation.Crashed TypeError,
        {| Files.checkpoint_file := None;
           Files.output_file := Some [(lit "1", Evaluation.default_entry)];
           Files.log := [] |}, 0).
Proof.
  pose (judge := fun (_ : str) (_ : nat) =>
                   Evaluation.Parsed (JDict [(lit "score", JInt 80)])).
  pose (build_prompt := fun (_ : str) (_ : json) => Return (lit "prompt")).
  destruct (rerun_of_finished_scope (fun _ => None) judge build_prompt
              {| text_exists := fun _ => false;
                 encode_image := fun _ => None;
                 read_text_file := fun _ => None;
                 create := fun _ => ApiException |} 1)
    as (_ & covered & _ & complete).
  split; [|split].
  - apply covered. intros f.
    replace (all_files [lit "1.jpg"]) with [lit "1.jpg"]
      by (vm_compute; reflexivity).
    intros [<- | []]. vm_compute. left. reflexivity.
  - destruct (complete [(lit "1", JNull)]
                {| Files.checkpoint_file := None;
                   Files.output_file := Some [(lit "1", Evaluation.default_entry)];
                   Files.log := [] |}
                [(lit "1", Evaluation.default_entry)])
      as (_ & dispatched); [discriminate | reflexivity | reflexivity |].
    destruct dispatched as (requests & _).
    + intros x _. eexists. reflexivity.
    + etransitivity; [exact requests | vm_compute; reflexivity].
  - destruct (rerun_of_finished_scope (fun _ => None) judge
                (Prompt.build_prompt (fun _ => lit "a text")
                   (fun _ _ _ _ _ _ _ => lit "a prompt")
                   (lit "English") (lit "zeroshot_no_rationales") 1)
                {| text_exists := fun _ => false;
                   encode_image := fun _ => None;
                   read_text_file := fun _ => None;
                   create := fun _ => ApiException |} 1)
      as (_ & _ & _ & stopped).
    destruct (stopped [(lit "1", JStr (lit "a cat"))]
                {| Files.checkpoint_file := None;
                   Files.output_file := Some [(lit "1", Evaluation.default_entry)];
                   Files.log := [] |}
                [(lit "1", Evaluation.default_entry)])
      as (first & _); [discriminate | reflexivity | reflexivity |].
    apply (first [] (lit "1", JStr (lit "a cat")) []).
    + reflexivity.
    + intros x [].
    + vm_compute. reflexivity.
Defined.

End RerunFacts.
